(** * Demand forecasting and inventory optimisation: a shallow embedding

    This development embeds [src/services/forecasting.py] and
    [src/services/optimization.py] and states the properties of the
    forecasting / optimisation engine over that embedding.

    Conventions of the embedding.

    - Python [float] values are real numbers ([R]); every arithmetic step is
      exact, so rounding error of IEEE arithmetic is outside the model.  The
      explicit calls of Python's [round] are part of the model.
    - Integer columns of the store ([quantity], [reorder_point],
      [quantity_on_hand], [lead_time_days], identifiers) are signed
      integers ([Z]) and hold no NULL; the per-day sums of the demand frame
      are [int64] and wrap around.  [horizon], [window] and the number of
      [days] of a query are [nat]: the statements are about non-negative
      values of these arguments.
    - [datetime.utcnow() - timedelta(days)] is the exact difference; a
      statement about an arbitrary window assumes that this cut-off is a
      representable [datetime].
    - A returned dictionary with an ["error"] key is the left injection of a
      sum carrying the message; an exception caught by the enclosing
      [try/except] becomes such a message.
    - timestamps are seconds since the epoch, dates are day numbers since
      1970-01-01.
    - the Holt-Winters fit of [statsmodels] is a parameter of the model. *)

From Stdlib Require Import Reals Lra Lia ZArith String Bool Zfloor.
From Stdlib Require Import DecimalString List Sorted.
Import ListNotations.

Local Open Scope R_scope.

(** ** Python primitives used by the services *)

Module Py.

(** Exceptions that the modelled code can raise and that the services turn
    into error messages with [str(e)]. *)
Inductive exn : Type :=
| ZeroDivisionError (msg : string)
| ValueError (msg : string)
| IndexError (msg : string)
| LibraryError (msg : string).

Definition str (e : exn) : string :=
  match e with
  | ZeroDivisionError m => m
  | ValueError m => m
  | IndexError m => m
  | LibraryError m => m
  end.

(** A computation that may raise. *)
Definition raising (A : Type) : Type := (exn + A)%type.

Definition ret {A} (a : A) : raising A := inr a.

Definition bind {A B} (c : raising A) (k : A -> raising B) : raising B :=
  match c with
  | inl e => inl e
  | inr a => k a
  end.

(** A service result: [inl msg] is the dictionary [{"error": msg}]. *)
Definition result (A : Type) : Type := (string + A)%type.

Definition is_error {A} (r : result A) : bool :=
  match r with inl _ => true | inr _ => false end.

(** [try: ... except Exception as e: return {"error": prefix + str(e)}] *)
Definition catching {A} (prefix : string) (c : raising (result A)) : result A :=
  match c with
  | inl e => inl (prefix ++ str e)%string
  | inr r => r
  end.

(** [a / b] on Python floats. *)
Definition div (a b : R) : raising R :=
  if Req_dec_T b 0 then inl (ZeroDivisionError "float division by zero")
  else inr (a / b).

(** [math.sqrt]. *)
Definition sqrt (x : R) : raising R :=
  if Rlt_dec x 0 then inl (ValueError "math domain error") else inr (R_sqrt.sqrt x).

(** Rounding of a real to the nearest integer, ties to the even one. *)
Definition round_half_even (y : R) : Z :=
  let f := Zfloor y in
  if Rlt_dec (y - IZR f) (1 / 2) then f
  else if Rlt_dec (1 / 2) (y - IZR f) then (f + 1)%Z
       else if Z.even f then f else (f + 1)%Z.

(** [round(x, ndigits)]. *)
Definition round (x : R) (ndigits : nat) : R :=
  IZR (round_half_even (x * 10 ^ ndigits)) / 10 ^ ndigits.

(** Two's-complement reduction of an integer to [int64], as NumPy sums of
    an [int64] column do. *)
Definition int64 (z : Z) : Z := ((z + 2 ^ 63) mod 2 ^ 64 - 2 ^ 63)%Z.

(** [str(n)] for a non-negative integer. *)
Definition str_of_nat (n : nat) : string :=
  NilEmpty.string_of_uint (Nat.to_uint n).

(** [sum] of an integer column. *)
Definition sum_Z (xs : list Z) : Z := fold_right Z.add 0%Z xs.

(** [sum] of a float sequence. *)
Definition sum_R (xs : list R) : R := fold_right Rplus 0 xs.

(** [Series.mean()] of an integer column. *)
Definition mean_Z (xs : list Z) : R := IZR (sum_Z xs) / INR (length xs).

(** [Series.mean()] of a float column. *)
Definition mean_R (xs : list R) : R := sum_R xs / INR (length xs).

(** [Series.std()]: sample standard deviation ([ddof = 1]). *)
Definition std_R (xs : list R) : R :=
  let m := mean_R xs in
  R_sqrt.sqrt (sum_R (map (fun x => (x - m) * (x - m)) xs) / (INR (length xs) - 1)).

(** [Series.iloc[-1]]. *)
Definition iloc_last {A} (xs : list A) : raising A :=
  match rev xs with
  | [] => inl (IndexError "single positional indexer is out-of-bounds")
  | x :: _ => inr x
  end.

End Py.

Notation "x <- c ;; k" := (Py.bind c (fun x => k))
  (at level 61, c at next level, right associativity).

(** ** The transactional store *)

Module Store.

Record Product : Type := {
  p_id : Z;
  p_sku : string;
  p_name : string;
  p_unit_cost : R;
  p_supplier_id : option Z;
  p_reorder_point : Z
}.

Record Supplier : Type := {
  s_id : Z;
  s_name : string;
  s_lead_time_days : Z
}.

Record Location : Type := {
  l_id : Z;
  l_location_id : string
}.

Record Inventory : Type := {
  i_product_id : Z;
  i_location_id : Z;
  i_quantity_on_hand : Z
}.

Record Transaction : Type := {
  t_product_id : Z;
  t_transaction_type : string;
  t_quantity : Z;
  t_timestamp : Z
}.

(** The store together with the clock read by [datetime.utcnow()]. *)
Record db : Type := {
  products : list Product;
  suppliers : list Supplier;
  locations : list Location;
  inventory : list Inventory;
  transactions : list Transaction;
  utcnow : Z
}.

(** [session.query(Product).filter(Product.id == product_id).first()] *)
Definition product_by_id (d : db) (product_id : Z) : option Product :=
  find (fun p => (p_id p =? product_id)%Z) (products d).

Definition supplier_by_id (d : db) (supplier_id : Z) : option Supplier :=
  find (fun s => (s_id s =? supplier_id)%Z) (suppliers d).

Definition location_by_location_id (d : db) (location_id : string) : option Location :=
  find (fun l => String.eqb (l_location_id l) location_id) (locations d).

End Store.

Import Store.

(** ** Forecasting service *)

Module Forecasting.

(** One row of the demand frame: the date and the demand of that date. *)
Definition frame : Type := list (Z * Z).

Definition seconds_per_day : Z := 86400.

(** [timestamp.date()] *)
Definition date_of (ts : Z) : Z := (ts / seconds_per_day)%Z.

(** One step of [groupby('date')['demand'].sum()]: the frame is kept in
    increasing order of date, one row per date; the sum of a date is an
    [int64] sum. *)
Fixpoint add_demand (d q : Z) (rows : frame) : frame :=
  match rows with
  | [] => [(d, q)]
  | (d', q') :: rest =>
      if (d <? d')%Z then (d, q) :: rows
      else if (d =? d')%Z then (d', Py.int64 (q' + q)) :: rest
           else (d', q') :: add_demand d q rest
  end.

Definition groupby_date_sum (rows : list (Z * Z)) : frame :=
  fold_left (fun acc r => add_demand (fst r) (snd r) acc) rows [].

(** [get_historical_demand]: the shipments of the product in the trailing
    [days] days, absolute quantities summed per date.  The [order_by] of the
    query does not show in the result, since the grouping orders by date. *)
Definition get_historical_demand (d : db) (product_id : Z) (days : nat) : frame :=
  let cutoff_date := (utcnow d - Z.of_nat days * seconds_per_day)%Z in
  let shipments :=
    filter (fun t => (t_product_id t =? product_id)%Z
                     && String.eqb (t_transaction_type t) "shipment"
                     && (cutoff_date <=? t_timestamp t)%Z)
           (transactions d) in
  groupby_date_sum
    (map (fun t => (date_of (t_timestamp t), Z.abs (t_quantity t))) shipments).

Definition demand (df : frame) : list Z := map snd df.

(** The dictionary returned by the three forecasting methods. *)
Record ForecastResult : Type := {
  product_id : Z;
  forecast_method : string;
  horizon_days : nat;
  total_forecast : R;
  daily_average : R;
  forecast_series : option (list R);
  trend_slope : option R;
  parameters : list (string * R);
  data_points : nat
}.

(** [Series.rolling(window=window).mean()]: position [i] holds the mean of
    the [window] rows ending at [i], and NaN ([None]) where fewer than
    [window] rows are available or the window is empty. *)
Definition rolling_mean (window : nat) (xs : list Z) : list (option R) :=
  map (fun i =>
         if (window =? 0)%nat || (S i <? window)%nat then None
         else Some (Py.mean_Z (firstn window (skipn (S i - window) xs))))
      (seq 0 (length xs)).

Definition moving_average_forecast (d : db) (pid : Z) (horizon window : nat)
  : Py.result ForecastResult :=
  Py.catching "Forecast calculation failed: "
    (let df := get_historical_demand d pid (window * 2) in
     if (length df <? window)%nat then
       Py.ret (inl ("Insufficient data. Need at least " ++ Py.str_of_nat window
                    ++ " days of data.")%string)
     else
       let ma := rolling_mean window (demand df) in
       last_ma <- Py.iloc_last ma ;;
       let last_ma := match last_ma with
                      | Some m => m
                      | None => Py.mean_Z (demand df)
                      end in
       let total_forecast := last_ma * INR horizon in
       Py.ret (inr {| product_id := pid;
                      forecast_method := "moving_average";
                      horizon_days := horizon;
                      total_forecast := total_forecast;
                      daily_average := last_ma;
                      forecast_series := None;
                      trend_slope := None;
                      parameters := [("window"%string, INR window)];
                      data_points := length df |})).

(** [asfreq('D', fill_value=0)]: one row per calendar day from the first
    to the last date of the frame, zero where the frame has no row. *)
Definition demand_on (df : frame) (day : Z) : Z :=
  match find (fun r => (fst r =? day)%Z) df with
  | Some r => snd r
  | None => 0%Z
  end.

Definition asfreq (df : frame) : frame :=
  match df, rev df with
  | (first, _) :: _, (last, _) :: _ =>
      map (fun i => let day := (first + Z.of_nat i)%Z in (day, demand_on df day))
          (seq 0 (Z.to_nat (last - first + 1)))
  | _, _ => []
  end.

(** The keyword arguments of [ExponentialSmoothing(...)]. *)
Inductive component : Type := Additive | Multiplicative.

Record hw_config : Type := {
  trend : option component;
  seasonal : option component;
  initialization_method : string
}.

(** The model that [exponential_smoothing_forecast] builds first, by the
    length of the resampled series. *)
Definition es_first_model (n : nat) : hw_config :=
  if (28 <=? n)%nat then
    {| trend := Some Additive; seasonal := None; initialization_method := "estimated" |}
  else
    {| trend := Some Additive; seasonal := None; initialization_method := "estimated" |}.

(** The model of the [except] branch. *)
Definition es_fallback_model : hw_config :=
  {| trend := None; seasonal := None; initialization_method := "estimated" |}.

(** [Series.ewm(alpha=alpha).mean().iloc[-1]]: the weights of the last value
    are [(1 - alpha) ^ i] for the value [i] positions back. *)
Fixpoint ewm_sums (alpha : R) (newest_first : list Z) (w : R) : R * R :=
  match newest_first with
  | [] => (0, 0)
  | x :: older =>
      let s := ewm_sums alpha older (w * (1 - alpha)) in
      (w * IZR x + fst s, w + snd s)
  end.

Definition ewm_mean_last (alpha : R) (xs : list Z) : Py.raising R :=
  match xs with
  | [] => inl (Py.IndexError "single positional indexer is out-of-bounds")
  | _ => let s := ewm_sums alpha (rev xs) 1 in inr (fst s / snd s)
  end.

(** [slope * x + intercept] clamped by [np.maximum(., 0)]. *)
Definition clamped_line (slope intercept : R) (x : nat) : R :=
  Rmax (slope * INR x + intercept) 0.

(** The closed-form least-squares sums over the indices [0 .. n-1]. *)
Definition indices (n : nat) : list Z := map Z.of_nat (seq 0 n).

Definition sum_products (xs ys : list Z) : Z :=
  Py.sum_Z (map (fun p => (fst p * snd p)%Z) (combine xs ys)).

Section WithHoltWinters.

(** [ExponentialSmoothing(series, **config).fit().forecast(horizon)] of
    [statsmodels]; it may raise. *)
Variable holt_winters : hw_config -> list Z -> nat -> Py.raising (list R).

Definition exponential_smoothing_forecast (d : db) (pid : Z) (horizon : nat)
  : Py.result ForecastResult :=
  Py.catching "Forecast calculation failed: "
    (let df := get_historical_demand d pid 90 in
     if (length df <? 14)%nat then
       Py.ret (inl "Insufficient data. Need at least 14 days of data."%string)
     else
       let demand_series := demand (asfreq df) in
       forecast <-
         (if (14 <=? length demand_series)%nat then
            match holt_winters (es_first_model (length demand_series))
                               demand_series horizon with
            | inr forecast => Py.ret forecast
            | inl _ => holt_winters es_fallback_model demand_series horizon
            end
          else
            forecast_value <- ewm_mean_last (3 / 10) demand_series ;;
            Py.ret (repeat forecast_value horizon)) ;;
       let total_forecast := Py.sum_R forecast in
       daily_average <- Py.div total_forecast (INR horizon) ;;
       Py.ret (inr {| product_id := pid;
                      forecast_method := "exponential_smoothing";
                      horizon_days := horizon;
                      total_forecast := total_forecast;
                      daily_average := daily_average;
                      forecast_series := Some forecast;
                      trend_slope := None;
                      parameters := [("alpha"%string, 3 / 10)];
                      data_points := length demand_series |})).

Definition trend_analysis_forecast (d : db) (pid : Z) (horizon : nat)
  : Py.result ForecastResult :=
  Py.catching "Forecast calculation failed: "
    (let df := get_historical_demand d pid 60 in
     if (length df <? 10)%nat then
       Py.ret (inl "Insufficient data for trend analysis. Need at least 10 days of data."%string)
     else
       let df := asfreq df in
       let x := indices (length df) in
       let y := demand df in
       let n := Z.of_nat (length x) in
       let sum_x := Py.sum_Z x in
       let sum_y := Py.sum_Z y in
       let sum_xy := sum_products x y in
       let sum_x2 := sum_products x x in
       let slope := IZR (n * sum_xy - sum_x * sum_y) / IZR (n * sum_x2 - sum_x * sum_x) in
       let intercept := (IZR sum_y - slope * IZR sum_x) / IZR n in
       let forecast_x := seq (length df) horizon in
       let forecast_values := map (clamped_line slope intercept) forecast_x in
       let total_forecast := Py.sum_R forecast_values in
       let daily_average := total_forecast / INR horizon in
       Py.ret (inr {| product_id := pid;
                      forecast_method := "trend_analysis";
                      horizon_days := horizon;
                      total_forecast := total_forecast;
                      daily_average := daily_average;
                      forecast_series := Some forecast_values;
                      trend_slope := Some slope;
                      parameters := [("slope"%string, slope); ("intercept"%string, intercept)];
                      data_points := length df |})).

Definition generate_forecast (d : db) (pid : Z) (horizon : nat) (method : string)
  : Py.result ForecastResult :=
  if String.eqb method "moving_average" then
    moving_average_forecast d pid horizon 14
  else if String.eqb method "exponential_smoothing" then
    exponential_smoothing_forecast d pid horizon
  else if String.eqb method "trend_analysis" then
    trend_analysis_forecast d pid horizon
  else if String.eqb method "auto" then
    let df := get_historical_demand d pid 90 in
    if (length df <? 7)%nat then
      inl "Insufficient data for forecasting. Need at least 7 days of historical data."%string
    else if (length df <? 14)%nat then
      moving_average_forecast d pid horizon (Nat.min 7 (length df))
    else
      let result := exponential_smoothing_forecast d pid horizon in
      if negb (Py.is_error result) then result
      else moving_average_forecast d pid horizon 14
  else
    inl ("Unknown forecast method: " ++ method)%string.

End WithHoltWinters.

(** *** Seasonal analysis *)

(** [DatetimeIndex.dayofweek]: Monday is 0; day 0 (1970-01-01) is a
    Thursday. *)
Definition dayofweek (day : Z) : Z := ((day + 3) mod 7)%Z.

(** [df.groupby('day_of_week')['demand'].mean()]: one entry per weekday
    that occurs in the frame, in increasing order of weekday. *)
Definition weekday_demands (df : frame) (k : Z) : list Z :=
  demand (filter (fun r => (dayofweek (fst r) =? k)%Z) df).

Definition day_of_week_mean (df : frame) : list (Z * R) :=
  flat_map (fun k => match weekday_demands df k with
                     | [] => []
                     | g => [(k, Py.mean_Z g)]
                     end)
           [0; 1; 2; 3; 4; 5; 6]%Z.

(** [day_avg.get(k, 0)] *)
Definition get_or_zero (day_avg : list (Z * R)) (k : Z) : R :=
  match find (fun e => (fst e =? k)%Z) day_avg with
  | Some e => snd e
  | None => 0
  end.

Record SeasonalProfile : Type := {
  sp_product_id : Z;
  seasonal_detected : bool;
  day_of_week_pattern : list (string * R);
  coefficient_of_variation : R;
  sp_data_points : nat
}.

(** The two non-error dictionaries of [get_seasonal_patterns]. *)
Inductive SeasonalResult : Type :=
| NotSeasonal (reason : string)
| Seasonal (profile : SeasonalProfile).

Definition coefficient_of_variation_of (day_avg : list R) : R :=
  if Rlt_dec 0 (Py.mean_R day_avg) then Py.std_R day_avg / Py.mean_R day_avg else 0.

Definition get_seasonal_patterns (d : db) (pid : Z) : Py.result SeasonalResult :=
  Py.catching "Seasonal analysis failed: "
    (let df := get_historical_demand d pid 365 in
     if (length df <? 30)%nat then
       Py.ret (inl "Insufficient data for seasonal analysis. Need at least 30 days."%string)
     else
       let df := asfreq df in
       if (length df <? 30)%nat then
         Py.ret (inr (NotSeasonal "Insufficient continuous data"))
       else
         let day_avg := day_of_week_mean df in
         let cv := coefficient_of_variation_of (map snd day_avg) in
         let detected := if Rlt_dec (2 / 10) cv then true else false in
         Py.ret (inr (Seasonal
           {| sp_product_id := pid;
              seasonal_detected := detected;
              day_of_week_pattern :=
                [("Monday"%string, get_or_zero day_avg 0);
                 ("Tuesday"%string, get_or_zero day_avg 1);
                 ("Wednesday"%string, get_or_zero day_avg 2);
                 ("Thursday"%string, get_or_zero day_avg 3);
                 ("Friday"%string, get_or_zero day_avg 4);
                 ("Saturday"%string, get_or_zero day_avg 5);
                 ("Sunday"%string, get_or_zero day_avg 6)];
              coefficient_of_variation := cv;
              sp_data_points := length df |}))).

End Forecasting.

Import Forecasting.

(** ** Optimisation service *)

Module Optimization.

Record EOQResult : Type := {
  eoq_product_id : Z;
  eoq_sku : string;
  eoq : R;
  eoq_annual_demand : R;
  number_of_orders_per_year : R;
  time_between_orders_days : R;
  total_annual_cost : R;
  eoq_parameters : list (string * R)
}.

Record ReorderPointResult : Type := {
  rop_product_id : Z;
  rop_sku : string;
  reorder_point : R;
  lead_time_demand : R;
  rop_safety_stock : R;
  rop_daily_demand : R;
  rop_lead_time_days : Z;
  rop_service_level : R;
  supplier_name : string;
  rop_parameters : list (string * R)
}.

Record SafetyStockResult : Type := {
  ss_product_id : Z;
  ss_sku : string;
  safety_stock : R;
  ss_service_level : R;
  ss_daily_demand : R;
  demand_variability : R;
  ss_lead_time_days : Z;
  annual_holding_cost : R;
  ss_parameters : list (string * R)
}.

Inductive priority : Type := HIGH | MEDIUM | LOW.

Inductive advice : Type := REORDER_NOW | MONITOR_CLOSELY | ADEQUATE_STOCK.

Record Recommendation : Type := {
  rec_sku : string;
  rec_product_name : string;
  current_stock : Z;
  rec_reorder_point : Z;
  recommended_order_qty : R;
  recommendation : advice;
  rec_priority : priority;
  estimated_days_of_stock : option R
}.

(** [z_scores.get(service_level, 1.65)] with
    [z_scores = {0.90: 1.28, 0.95: 1.65, 0.99: 2.33}]. *)
Definition z_score_of (service_level : R) : R :=
  if Req_dec_T service_level (90 / 100) then 128 / 100
  else if Req_dec_T service_level (95 / 100) then 165 / 100
  else if Req_dec_T service_level (99 / 100) then 233 / 100
  else 165 / 100.

(** The supplier row that decides the lead time: none when the product has
    no supplier, when [supplier_id] is falsy (0), or when the supplier row
    does not exist. *)
Definition supplier_of (d : db) (product : Product) : option Supplier :=
  match p_supplier_id product with
  | Some sid => if (sid =? 0)%Z then None else supplier_by_id d sid
  | None => None
  end.

Definition lead_time_of (d : db) (product : Product) : Z :=
  match supplier_of d product with
  | Some s => s_lead_time_days s
  | None => 7%Z
  end.

(** [priority_order.get(x["priority"], 3)] *)
Definition priority_order (p : priority) : nat :=
  match p with HIGH => 0 | MEDIUM => 1 | LOW => 2 end.

(** [list.sort(key=...)] is a stable sort; a stable insertion sort returns
    the same list. *)
Fixpoint insert_by {A} (key : A -> nat) (x : A) (sorted : list A) : list A :=
  match sorted with
  | [] => [x]
  | y :: rest =>
      if (key x <=? key y)%nat then x :: sorted else y :: insert_by key x rest
  end.

Definition sort_by {A} (key : A -> nat) (l : list A) : list A :=
  fold_right (insert_by key) [] l.

(** The classification of one stock level. *)
Definition classify (current_stock reorder_point : Z) : advice * priority :=
  if (current_stock <=? reorder_point)%Z then (REORDER_NOW, HIGH)
  else if Rle_dec (IZR current_stock) (IZR reorder_point * (15 / 10)) then
         (MONITOR_CLOSELY, MEDIUM)
       else (ADEQUATE_STOCK, LOW).

(** [session.query(Product, Inventory).join(Inventory)] with the optional
    location filter; the rows come in the order of the store. *)
Definition recommendation_rows (d : db) (location_id : option string)
  : list (Product * Inventory) :=
  let query :=
    flat_map (fun p => map (pair p)
                           (filter (fun i => (i_product_id i =? p_id p)%Z) (inventory d)))
             (products d) in
  match location_id with
  | Some lid =>
      if String.eqb lid "" then query
      else match location_by_location_id d lid with
           | Some location =>
               filter (fun r => (i_location_id (snd r) =? l_id location)%Z) query
           | None => query
           end
  | None => query
  end.

Section WithHoltWinters.

Variable holt_winters : hw_config -> list Z -> nat -> Py.raising (list R).

(** The annual demand that [calculate_eoq] works with: the supplied one, or
    the 90-day forecast extrapolated to a year. *)
Definition annual_demand_estimate (d : db) (pid : Z) (annual_demand : option R)
  : Py.result R :=
  match annual_demand with
  | Some a => inr a
  | None =>
      match generate_forecast holt_winters d pid 90 "auto" with
      | inl e => inl ("Cannot estimate demand: " ++ e)%string
      | inr forecast_result => inr (total_forecast forecast_result / 90 * 365)
      end
  end.

Definition calculate_eoq (d : db) (pid : Z) (annual_demand : option R)
           (ordering_cost holding_cost_rate : R) : Py.result EOQResult :=
  Py.catching "EOQ calculation failed: "
    (match product_by_id d pid with
     | None => Py.ret (inl "Product not found"%string)
     | Some product =>
         match annual_demand_estimate d pid annual_demand with
         | inl e => Py.ret (inl e)
         | inr annual_demand =>
             if Rle_dec annual_demand 0 then
               Py.ret (inl "Annual demand must be positive"%string)
             else
               let unit_cost := p_unit_cost product in
               let holding_cost_per_unit := unit_cost * holding_cost_rate in
               ratio <- Py.div (2 * annual_demand * ordering_cost) holding_cost_per_unit ;;
               eoq <- Py.sqrt ratio ;;
               number_of_orders <- Py.div annual_demand eoq ;;
               time_between_orders <- Py.div 365 number_of_orders ;;
               orders <- Py.div annual_demand eoq ;;
               let total_annual_cost :=
                 orders * ordering_cost + (eoq / 2) * holding_cost_per_unit in
               Py.ret (inr {| eoq_product_id := pid;
                              eoq_sku := p_sku product;
                              eoq := Py.round eoq 2;
                              eoq_annual_demand := Py.round annual_demand 2;
                              number_of_orders_per_year := Py.round number_of_orders 2;
                              time_between_orders_days := Py.round time_between_orders 1;
                              total_annual_cost := Py.round total_annual_cost 2;
                              eoq_parameters :=
                                [("ordering_cost"%string, ordering_cost);
                                 ("holding_cost_rate"%string, holding_cost_rate);
                                 ("unit_cost"%string, unit_cost);
                                 ("holding_cost_per_unit"%string,
                                  Py.round holding_cost_per_unit 2)] |})
         end
     end).

Definition calculate_reorder_point (d : db) (pid : Z) (service_level : R)
  : Py.result ReorderPointResult :=
  Py.catching "Reorder point calculation failed: "
    (match product_by_id d pid with
     | None => Py.ret (inl "Product not found"%string)
     | Some product =>
         let supplier := supplier_of d product in
         let lead_time_days := lead_time_of d product in
         match generate_forecast holt_winters d pid 30 "auto" with
         | inl e => Py.ret (inl ("Cannot estimate demand: " ++ e)%string)
         | inr forecast_result =>
             let daily_demand := daily_average forecast_result in
             if Rle_dec daily_demand 0 then
               Py.ret (inl "Daily demand must be positive"%string)
             else
               let lead_time_demand := daily_demand * IZR lead_time_days in
               let demand_variability_factor := 3 / 10 in
               let z_score := z_score_of service_level in
               let safety_stock := z_score * lead_time_demand * demand_variability_factor in
               let reorder_point := lead_time_demand + safety_stock in
               Py.ret (inr {| rop_product_id := pid;
                              rop_sku := p_sku product;
                              reorder_point := Py.round reorder_point 2;
                              lead_time_demand := Py.round lead_time_demand 2;
                              rop_safety_stock := Py.round safety_stock 2;
                              rop_daily_demand := Py.round daily_demand 2;
                              rop_lead_time_days := lead_time_days;
                              rop_service_level := service_level;
                              supplier_name :=
                                match supplier with
                                | Some s => s_name s
                                | None => "Unknown"%string
                                end;
                              rop_parameters :=
                                [("z_score"%string, z_score);
                                 ("demand_variability_factor"%string,
                                  demand_variability_factor)] |})
         end
     end).

(** The estimate of the demand variability from 60 days of history. *)
Definition estimated_variability (d : db) (pid : Z) : R :=
  let historical_df := get_historical_demand d pid 60 in
  if (7 <? length historical_df)%nat then
    let daily_demands := map IZR (demand (asfreq historical_df)) in
    if Rlt_dec 0 (Py.mean_R daily_demands) then
      Py.std_R daily_demands / Py.mean_R daily_demands
    else 3 / 10
  else 3 / 10.

Definition calculate_safety_stock (d : db) (pid : Z) (service_level : R)
           (demand_variability : option R) : Py.result SafetyStockResult :=
  Py.catching "Safety stock calculation failed: "
    (match product_by_id d pid with
     | None => Py.ret (inl "Product not found"%string)
     | Some product =>
         let lead_time_days := lead_time_of d product in
         match generate_forecast holt_winters d pid 30 "auto" with
         | inl e => Py.ret (inl ("Cannot estimate demand: " ++ e)%string)
         | inr forecast_result =>
             let daily_demand := daily_average forecast_result in
             let demand_variability :=
               match demand_variability with
               | Some v => v
               | None => estimated_variability d pid
               end in
             let z_score := z_score_of service_level in
             root <- Py.sqrt (IZR lead_time_days) ;;
             let safety_stock := z_score * root * daily_demand * demand_variability in
             let holding_cost_rate := 25 / 100 in
             let annual_holding_cost :=
               safety_stock * p_unit_cost product * holding_cost_rate in
             Py.ret (inr {| ss_product_id := pid;
                            ss_sku := p_sku product;
                            safety_stock := Py.round safety_stock 2;
                            ss_service_level := service_level;
                            ss_daily_demand := Py.round daily_demand 2;
                            demand_variability := Py.round demand_variability 3;
                            ss_lead_time_days := lead_time_days;
                            annual_holding_cost := Py.round annual_holding_cost 2;
                            ss_parameters :=
                              [("z_score"%string, z_score);
                               ("holding_cost_rate"%string, holding_cost_rate)] |})
         end
     end).

(** One iteration of the loop of [get_optimization_recommendations]:
    the row is appended when its EOQ calculation succeeds.  The key
    ["daily_demand"] is never in an EOQ result, so the estimated days of
    stock are always [None]. *)
Definition recommend_row (d : db) (results : list Recommendation)
           (row : Product * Inventory) : list Recommendation :=
  let product := fst row in
  let current_stock := i_quantity_on_hand (snd row) in
  let reorder_point := p_reorder_point product in
  match calculate_eoq d (p_id product) None 50 (25 / 100) with
  | inl _ => results
  | inr eoq_result =>
      let recommended_order_qty := eoq eoq_result in
      let c := classify current_stock reorder_point in
      results ++ [ {| rec_sku := p_sku product;
                      rec_product_name := p_name product;
                      current_stock := current_stock;
                      rec_reorder_point := reorder_point;
                      recommended_order_qty := Py.round recommended_order_qty 0;
                      recommendation := fst c;
                      rec_priority := snd c;
                      estimated_days_of_stock := None |} ]
  end.

(** Nothing in the loop raises on a store without NULL columns, so the
    [except] branch that returns the empty list is not taken. *)
Definition get_optimization_recommendations (d : db) (location_id : option string)
  : list Recommendation :=
  let results := fold_left (recommend_row d) (recommendation_rows d location_id) [] in
  sort_by (fun x => priority_order (rec_priority x)) results.

End WithHoltWinters.

End Optimization.

Import Optimization.

(** ** Optimisation service: consolidated report and scenarios *)

Module Planning.

(** The dictionary of [optimize_inventory_levels], its three nested
    dictionaries flattened. *)
Record OptimizationReport : Type := {
  opt_product_id : Z;
  opt_sku : string;
  opt_economic_order_quantity : R;
  opt_reorder_point : R;
  opt_safety_stock : R;
  recommended_max_stock : R;
  annual_ordering_cost : R;
  opt_annual_holding_cost : R;
  opt_total_annual_cost : R;
  opt_service_level : R;
  opt_lead_time_days : Z;
  orders_per_year : R
}.

(** [[r.get("error")] if "error" in r else []] *)
Definition error_of {A} (r : Py.result A) : list string :=
  match r with
  | inl e => [e]
  | inr _ => []
  end.

(** A scenario dictionary: a key that is absent is [None]. *)
Record Scenario : Type := {
  sc_name : option string;
  sc_annual_demand : option R;
  sc_ordering_cost : option R;
  sc_holding_cost_rate : option R;
  sc_service_level : option R
}.

Record ScenarioResult : Type := {
  scenario_name : string;
  sr_parameters : Scenario;
  sr_eoq : R;
  sr_reorder_point : R;
  sr_total_annual_cost : R;
  sr_orders_per_year : R
}.

Record ScenarioAnalysis : Type := {
  sa_product_id : Z;
  scenarios : list ScenarioResult;
  comparison_metrics : list string
}.

(** [dict.get(key, default)] *)
Definition get_or {A} (value : option A) (default : A) : A :=
  match value with
  | Some a => a
  | None => default
  end.

(** [enumerate(l)] *)
Definition enumerate {A} (l : list A) : list (nat * A) := combine (seq 0 (length l)) l.

Section WithHoltWinters.

Variable holt_winters : hw_config -> list Z -> nat -> Py.raising (list R).

Definition optimize_inventory_levels (d : db) (pid : Z) : Py.result OptimizationReport :=
  Py.catching "Inventory optimization failed: "
    (let eoq_result := calculate_eoq holt_winters d pid None 50 (25 / 100) in
     let reorder_result := calculate_reorder_point holt_winters d pid (95 / 100) in
     let safety_stock_result := calculate_safety_stock holt_winters d pid (95 / 100) None in
     match eoq_result, reorder_result, safety_stock_result with
     | inr e, inr r, inr s =>
         Py.ret (inr {| opt_product_id := pid;
                        opt_sku := eoq_sku e;
                        opt_economic_order_quantity := eoq e;
                        opt_reorder_point := reorder_point r;
                        opt_safety_stock := safety_stock s;
                        recommended_max_stock := eoq e + safety_stock s;
                        annual_ordering_cost := total_annual_cost e;
                        opt_annual_holding_cost := annual_holding_cost s;
                        opt_total_annual_cost := total_annual_cost e + annual_holding_cost s;
                        opt_service_level := rop_service_level r;
                        opt_lead_time_days := rop_lead_time_days r;
                        orders_per_year := number_of_orders_per_year e |})
     | _, _, _ =>
         let errors := error_of eoq_result ++ error_of reorder_result
                       ++ error_of safety_stock_result in
         Py.ret (inl ("Optimization failed: " ++ String.concat "; " errors)%string)
     end).

(** One iteration of the loop of [scenario_analysis]. *)
Definition scenario_step (d : db) (pid : Z) (results : list ScenarioResult)
           (entry : nat * Scenario) : list ScenarioResult :=
  let i := fst entry in
  let scenario := snd entry in
  let name := get_or (sc_name scenario) ("Scenario " ++ Py.str_of_nat (i + 1))%string in
  let eoq_result :=
    calculate_eoq holt_winters d pid (sc_annual_demand scenario)
                  (get_or (sc_ordering_cost scenario) 50)
                  (get_or (sc_holding_cost_rate scenario) (25 / 100)) in
  let reorder_result :=
    calculate_reorder_point holt_winters d pid
                            (get_or (sc_service_level scenario) (95 / 100)) in
  match eoq_result, reorder_result with
  | inr e, inr r =>
      results ++ [ {| scenario_name := name;
                      sr_parameters := scenario;
                      sr_eoq := eoq e;
                      sr_reorder_point := reorder_point r;
                      sr_total_annual_cost := total_annual_cost e;
                      sr_orders_per_year := number_of_orders_per_year e |} ]
  | _, _ => results
  end.

Definition scenario_analysis (d : db) (pid : Z) (scenario_list : list Scenario)
  : Py.result ScenarioAnalysis :=
  Py.catching "Scenario analysis failed: "
    (Py.ret (inr {| sa_product_id := pid;
                    scenarios := fold_left (scenario_step d pid) (enumerate scenario_list) [];
                    comparison_metrics :=
                      ["eoq"; "reorder_point"; "total_annual_cost";
                       "orders_per_year"]%string |})).

End WithHoltWinters.

End Planning.

Import Planning.

(** ** Forecasting service: the stored forecasts *)

Module ForecastLog.

(** A row of the table [forecast_results]: the columns that
    [save_forecast_result] fills; the key and the columns it leaves NULL are
    not part of the row. *)
Record ForecastRow : Type := {
  fr_product_id : Z;
  fr_forecast_date : Z;
  fr_forecast_horizon_days : nat;
  fr_predicted_demand : R;
  fr_model_used : string;
  fr_model_parameters : list (string * R)
}.

Record AccuracyResult : Type := {
  acc_product_id : Z;
  forecast_count : nat;
  average_forecast : R;
  period_days : nat;
  accuracy_note : string
}.

Section WithDecimalColumn.

(** The value that the column [predicted_demand], a [Decimal(10, 2)], keeps
    of a float. *)
Variable stored : R -> R.

(** [save_forecast_result]: the new table and the returned row.  An error
    dictionary has no key ["product_id"], and a product that does not exist
    violates the foreign key; both exceptions are caught, nothing is stored
    and [None] is returned.  The row gets the clock reading as its
    [forecast_date]. *)
Definition save_forecast_result (d : db) (table : list ForecastRow)
           (forecast_data : Py.result ForecastResult)
  : list ForecastRow * option ForecastRow :=
  match forecast_data with
  | inl _ => (table, None)
  | inr f =>
      match product_by_id d (product_id f) with
      | None => (table, None)
      | Some _ =>
          let row := {| fr_product_id := product_id f;
                        fr_forecast_date := utcnow d;
                        fr_forecast_horizon_days := horizon_days f;
                        fr_predicted_demand := stored (total_forecast f);
                        fr_model_used := forecast_method f;
                        fr_model_parameters := parameters f |} in
          (table ++ [row], Some row)
      end
  end.

End WithDecimalColumn.

(** The test of the query of [get_forecast_accuracy]. *)
Definition recent_forecast (d : db) (pid : Z) (days : nat) (row : ForecastRow) : bool :=
  (fr_product_id row =? pid)%Z
  && (utcnow d - Z.of_nat days * seconds_per_day <=? fr_forecast_date row)%Z.

Definition get_forecast_accuracy (d : db) (table : list ForecastRow) (pid : Z) (days : nat)
  : Py.result AccuracyResult :=
  let forecasts := filter (recent_forecast d pid days) table in
  match forecasts with
  | [] => inl "No recent forecasts found"%string
  | _ =>
      let avg_forecast :=
        Py.sum_R (map fr_predicted_demand forecasts) / INR (length forecasts) in
      inr {| acc_product_id := pid;
             forecast_count := length forecasts;
             average_forecast := avg_forecast;
             period_days := days;
             accuracy_note :=
               "Detailed accuracy calculation requires comparison with actual demand data" |}
  end.

End ForecastLog.

Import ForecastLog.

(** ** Terms of the statements *)

(** The dates of a frame increase strictly. *)
Definition increasing (df : frame) : Prop := StronglySorted Z.lt (map fst df).

(** The messages of the error dictionaries. *)
Definition insufficient_for_auto : string :=
  "Insufficient data for forecasting. Need at least 7 days of historical data.".

Definition insufficient_for_seasonal : string :=
  "Insufficient data for seasonal analysis. Need at least 30 days.".

Definition demand_not_positive : string := "Annual demand must be positive".

Definition daily_demand_not_positive : string := "Daily demand must be positive".

(** The model with an additive trend and no seasonal component. *)
Definition additive_trend_model : hw_config :=
  {| trend := Some Additive; seasonal := None; initialization_method := "estimated" |}.

(** The weekdays, Monday first, and the weekday means of a frame. *)
Definition weekdays : list Z := [0; 1; 2; 3; 4; 5; 6]%Z.

Definition weekday_means (df : frame) : list R :=
  map (fun k => Py.mean_Z (weekday_demands df k)) weekdays.

(** The fields of a successful reorder-point result, from the unrounded
    quantities. *)
Definition reorder_point_fields (d : db) (product : Product) (forecast : ForecastResult)
           (service_level : R) (r : ReorderPointResult) : Prop :=
  let lead := daily_average forecast * IZR (lead_time_of d product) in
  let safety := z_score_of service_level * lead * (3 / 10) in
  reorder_point r = Py.round (lead + safety) 2
  /\ lead_time_demand r = Py.round lead 2
  /\ rop_safety_stock r = Py.round safety 2
  /\ rop_daily_demand r = Py.round (daily_average forecast) 2
  /\ rop_lead_time_days r = lead_time_of d product.

(** ** The moving average as the specification words it *)

(** The mean of the most recent [window] calendar days of the frame, a day
    without a demand record counting as zero. *)
Definition calendar_moving_average (window : nat) (df : frame) : R :=
  let daily := demand (asfreq df) in
  Py.mean_Z (skipn (length daily - window) daily).

(** ** The order-quantity formula *)

(** [sqrt(2 * D * S / H)] for annual demand [D], ordering cost [S] and
    holding cost per unit [H], before rounding. *)
Definition economic_order_quantity (D S H : R) : R := sqrt (2 * D * S / H).

(** ** Priority tiers *)

(** The recommendations of a list that carry a given priority, in the order
    of the list. *)
Definition with_priority (p : priority) (l : list Recommendation) : list Recommendation :=
  filter (fun x => (priority_order (rec_priority x) =? priority_order p)%nat) l.

(** ** Terms of the further statements *)

(** The test of the query of [get_historical_demand]: a shipment of the
    product, not older than [days] days. *)
Definition selected_shipment (d : db) (pid : Z) (days : nat) (t : Transaction) : bool :=
  (t_product_id t =? pid)%Z
  && String.eqb (t_transaction_type t) "shipment"
  && (utcnow d - Z.of_nat days * seconds_per_day <=? t_timestamp t)%Z.

(** The absolute quantities that [get_historical_demand] adds up, and the
    condition under which none of its [int64] sums wraps around. *)
Definition shipped_quantities (d : db) (pid : Z) (days : nat) : list Z :=
  map (fun t => Z.abs (t_quantity t))
      (filter (selected_shipment d pid days) (transactions d)).

Definition within_int64 (d : db) (pid : Z) (days : nat) : Prop :=
  (Py.sum_Z (shipped_quantities d pid days) < 2 ^ 63)%Z.

(** The range of [datetime], from 0001-01-01 00:00:00 to
    9999-12-31 23:59:59, in seconds since the epoch, and the cut-off of a
    query over the trailing [days] days. *)
Definition datetime_min : Z := (-62135596800)%Z.

Definition datetime_max : Z := 253402300799%Z.

Definition representable (ts : Z) : Prop := (datetime_min <= ts <= datetime_max)%Z.

Definition cutoff_date (d : db) (days : nat) : Z :=
  (utcnow d - Z.of_nat days * seconds_per_day)%Z.

(** The least-squares line of [trend_analysis_forecast] through the points
    [(x, y)], by its closed-form sums. *)
Definition ols_denominator (x : list Z) : Z :=
  (Z.of_nat (length x) * sum_products x x - Py.sum_Z x * Py.sum_Z x)%Z.

Definition ols_slope (x y : list Z) : R :=
  IZR (Z.of_nat (length x) * sum_products x y - Py.sum_Z x * Py.sum_Z y)
  / IZR (ols_denominator x).

Definition ols_intercept (x y : list Z) : R :=
  (IZR (Py.sum_Z y) - ols_slope x y * IZR (Py.sum_Z x)) / IZR (Z.of_nat (length x)).

(** A bound under which the [int64] sums of the regression of
    [trend_analysis_forecast] over [n] days of constant demand [c] stay in
    range: each of [sum_x], [sum_y], [sum_xy], [sum_x2] and of the products
    of the slope formula is below [n ^ 3 * (c + n)]. *)
Definition regression_within_int64 (n : nat) (c : Z) : Prop :=
  (Z.of_nat n ^ 3 * (c + Z.of_nat n) < 2 ^ 63)%Z.

(** The value of [comparison_metrics] in every scenario analysis. *)
Definition metrics : list string :=
  ["eoq"; "reorder_point"; "total_annual_cost"; "orders_per_year"]%string.

(** The row that [scenario_analysis] builds for the scenario at position
    [i] from the results of its two calculations. *)
Definition scenario_row (i : nat) (scenario : Scenario) (e : EOQResult)
           (r : ReorderPointResult) : ScenarioResult :=
  {| scenario_name := get_or (sc_name scenario) ("Scenario " ++ Py.str_of_nat (i + 1))%string;
     sr_parameters := scenario;
     sr_eoq := eoq e;
     sr_reorder_point := reorder_point r;
     sr_total_annual_cost := total_annual_cost e;
     sr_orders_per_year := number_of_orders_per_year e |}.

(** ** Sample stores *)

Module Samples.

(** A shipment of [qty] units of product [pid] at noon of day [day]. *)
Definition shipment (pid day qty : Z) : Transaction :=
  {| t_product_id := pid;
     t_transaction_type := "shipment";
     t_quantity := (- qty)%Z;
     t_timestamp := (day * 86400 + 43200)%Z |}.

Definition widget : Product :=
  {| p_id := 1; p_sku := "SKU-1"; p_name := "Widget"; p_unit_cost := 20;
     p_supplier_id := None; p_reorder_point := 10 |}.

(** The clock of every sample store reads midnight of day 100. *)
Definition store_of (ps : list Product) (ss : list Supplier) (inv : list Inventory)
           (ts : list Transaction) : db :=
  {| products := ps; suppliers := ss; locations := []; inventory := inv;
     transactions := ts; utcnow := (100 * 86400)%Z |}.

Definition days_from (first : Z) (n : nat) : list Z :=
  map (fun i => (first + Z.of_nat i)%Z) (seq 0 n).

(** Ten units shipped on each of the last [n] days. *)
Definition steady_store (n : nat) : db :=
  store_of [widget] [] []
           (map (fun day => shipment 1 day 10) (days_from (100 - Z.of_nat n) n)).

Definition empty_store : db := store_of [widget] [] [] [].

(** A stand-in for the fitted model: a flat forecast at the mean of the
    series. *)
Definition flat_holt_winters (config : hw_config) (series : list Z) (horizon : nat)
  : Py.raising (list R) :=
  inr (repeat (Py.mean_Z series) horizon).

(** A fit that always raises. *)
Definition failing_holt_winters (config : hw_config) (series : list Z) (horizon : nat)
  : Py.raising (list R) :=
  inl (Py.LibraryError "optimization failed to converge").

(** A fit that raises when a trend component is requested and is flat
    otherwise. *)
Definition trend_failing_holt_winters (config : hw_config) (series : list Z)
           (horizon : nat) : Py.raising (list R) :=
  match trend config with
  | Some _ => inl (Py.LibraryError "optimization failed to converge")
  | None => inr (repeat (Py.mean_Z series) horizon)
  end.

(** Ten units shipped on day 97 and on day 99, nothing on day 98. *)
Definition gap_store : db :=
  store_of [widget] [] [] [shipment 1 97 10; shipment 1 99 10].

Definition next_day_supplier : Supplier :=
  {| s_id := 1; s_name := "Acme"; s_lead_time_days := 1 |}.

Definition gadget : Product :=
  {| p_id := 2; p_sku := "SKU-2"; p_name := "Gadget"; p_unit_cost := 20;
     p_supplier_id := Some 1%Z; p_reorder_point := 10 |}.

(** Nine units shipped over the seven days 93 to 99. *)
Definition week_store : db :=
  store_of [gadget] [next_day_supplier] []
           [shipment 2 93 1; shipment 2 94 1; shipment 2 95 1; shipment 2 96 1;
            shipment 2 97 1; shipment 2 98 2; shipment 2 99 2].

Definition product_a : Product :=
  {| p_id := 1; p_sku := "SKU-A"; p_name := "A"; p_unit_cost := 20;
     p_supplier_id := None; p_reorder_point := 10 |}.

Definition product_b : Product :=
  {| p_id := 2; p_sku := "SKU-B"; p_name := "B"; p_unit_cost := 20;
     p_supplier_id := None; p_reorder_point := 10 |}.

Definition product_c : Product :=
  {| p_id := 3; p_sku := "SKU-C"; p_name := "C"; p_unit_cost := 20;
     p_supplier_id := None; p_reorder_point := 10 |}.

Definition stock (pid location quantity : Z) : Inventory :=
  {| i_product_id := pid; i_location_id := location; i_quantity_on_hand := quantity |}.

(** Products A and B ship ten units a day over the last week, product C has
    no shipment.  A holds 100 units at one location and 12 at another, B
    holds 5 and C holds none. *)
Definition catalog_store : db :=
  store_of [product_a; product_b; product_c] []
           [stock 1 1 100; stock 1 2 12; stock 2 1 5; stock 3 1 0]
           (map (fun day => shipment 1 day 10) (days_from 93 7)
            ++ map (fun day => shipment 2 day 10) (days_from 93 7)).

(** Seven shipments of quantity zero over the days 93 to 99. *)
Definition idle_store : db :=
  store_of [widget] [] [] (map (fun day => shipment 1 day 0) (days_from 93 7)).

(** A supplier row with a negative lead time, as an unvalidated import
    can leave it. *)
Definition backdated_supplier : Supplier :=
  {| s_id := 1; s_name := "Acme"; s_lead_time_days := -1 |}.

(** The gadget with the backdated supplier: seven shipments of quantity
    zero over the days 93 to 99. *)
Definition recalled_store : db :=
  store_of [gadget] [backdated_supplier] []
           (map (fun day => shipment 2 day 0) (days_from 93 7)).

(** The sample week of the gadget with the backdated supplier. *)
Definition backdated_week_store : db :=
  store_of [gadget] [backdated_supplier] []
           [shipment 2 93 1; shipment 2 94 1; shipment 2 95 1; shipment 2 96 1;
            shipment 2 97 1; shipment 2 98 2; shipment 2 99 2].

(** Two shipments of [2 ^ 62] units of the widget on day 99. *)
Definition bulk_store : db :=
  store_of [widget] [] []
           [shipment 1 99 (2 ^ 62); shipment 1 99 (2 ^ 62)].

(** Ten units shipped on each of the days 60 to 69, nothing since. *)
Definition stale_store : db :=
  store_of [widget] [] [] (map (fun day => shipment 1 day 10) (days_from 60 10)).

(** A scenario that supplies its annual demand and nothing else. *)
Definition demand_scenario : Scenario :=
  {| sc_name := None; sc_annual_demand := Some 1000; sc_ordering_cost := None;
     sc_holding_cost_rate := None; sc_service_level := None |}.

(** The rounding of the sample column: two decimals. *)
Definition two_decimals (x : R) : R := Py.round x 2.

(** A moving-average result for the widget: 70 units over 7 days. *)
Definition widget_forecast : ForecastResult :=
  {| product_id := 1;
     forecast_method := "moving_average";
     horizon_days := 7;
     total_forecast := 70;
     daily_average := 10;
     forecast_series := None;
     trend_slope := None;
     parameters := [("window"%string, 14)];
     data_points := 14 |}.

End Samples.

(** * Properties *)

(** ** The demand frame *)

Module FrameFacts.

Lemma add_demand_dates d q rows day :
  In day (map fst (add_demand d q rows)) -> day = d \/ In day (map fst rows).
Proof.
  induction rows as [|[d' q'] rest IH]; simpl.
  - intros [H | []]; auto.
  - destruct (d <? d')%Z; [|destruct (d =? d')%Z]; simpl; intuition.
Qed.

Lemma add_demand_increasing d q rows :
  increasing rows -> increasing (add_demand d q rows).
Proof.
  unfold increasing.
  induction rows as [|[d' q'] rest IH]; simpl; intros Hs.
  - repeat constructor.
  - inversion Hs as [|? ? Hrest Hall]; subst.
    destruct (d <? d')%Z eqn:Hlt; [|destruct (d =? d')%Z eqn:Heq]; simpl.
    + apply Z.ltb_lt in Hlt. constructor; [exact Hs|].
      constructor; [exact Hlt|].
      rewrite Forall_forall in Hall |- *. intros x Hx. specialize (Hall x Hx). lia.
    + constructor; assumption.
    + apply Z.ltb_ge in Hlt. apply Z.eqb_neq in Heq.
      constructor; [apply IH; exact Hrest|].
      rewrite Forall_forall in Hall |- *. intros x Hx.
      apply add_demand_dates in Hx. destruct Hx as [-> | Hx]; [lia | auto].
Qed.

Lemma groupby_increasing_from rows acc :
  increasing acc ->
  increasing (fold_left (fun a r => add_demand (fst r) (snd r) a) rows acc).
Proof.
  revert acc. induction rows as [|r rows IH]; simpl; intros acc Hacc; [exact Hacc|].
  apply IH, add_demand_increasing, Hacc.
Qed.

Lemma history_increasing d pid days : increasing (get_historical_demand d pid days).
Proof.
  unfold get_historical_demand, groupby_date_sum.
  apply groupby_increasing_from. constructor.
Qed.

(** A frame of [n] strictly increasing dates spans at least [n] days. *)
Lemma increasing_span a (l : list Z) :
  StronglySorted Z.lt (a :: l) ->
  forall b rest, rev (a :: l) = b :: rest -> (a + Z.of_nat (length l) <= b)%Z.
Proof.
  revert a. induction l as [|c l IH]; intros a Hs b rest Hrev.
  - simpl in Hrev. injection Hrev as <- _. simpl. lia.
  - inversion Hs as [|? ? Hcl Hall]; subst.
    inversion Hall as [|? ? Hac _]; subst.
    change (rev (a :: c :: l)) with (rev (c :: l) ++ [a]) in Hrev.
    destruct (rev (c :: l)) as [|b' rest'] eqn:Hr.
    + apply (f_equal (@length Z)) in Hr. rewrite length_rev in Hr. discriminate.
    + simpl in Hrev. injection Hrev as <- _.
      specialize (IH c Hcl b' rest' Hr). simpl length. lia.
Qed.

Lemma asfreq_length (df : frame) :
  increasing df -> (length df <= length (asfreq df))%nat.
Proof.
  intros Hs. unfold asfreq.
  destruct df as [|[first q] df']; [simpl; lia|].
  destruct (rev ((first, q) :: df')) as [|[last q'] rest] eqn:Hr.
  - apply (f_equal (@length _)) in Hr. rewrite length_rev in Hr. discriminate.
  - rewrite length_map, length_seq.
    assert (Hspan : (first + Z.of_nat (length df') <= last)%Z).
    { unfold increasing in Hs. simpl map in Hs.
      pose proof (increasing_span first (map fst df') Hs last (map fst rest)) as H'.
      rewrite length_map in H'. apply H'.
      change (first :: map fst df') with (map fst ((first, q) :: df')).
      rewrite <- map_rev, Hr. reflexivity. }
    simpl length. lia.
Qed.

Lemma asfreq_history_length d pid days :
  (length (get_historical_demand d pid days)
   <= length (asfreq (get_historical_demand d pid days)))%nat.
Proof. apply asfreq_length, history_increasing. Qed.

End FrameFacts.

(** ** Small facts about the Python primitives *)

Module PyFacts.

Lemma catching_ret {A} prefix (r : Py.result A) : Py.catching prefix (Py.ret r) = r.
Proof. reflexivity. Qed.

Lemma div_ok a b : b <> 0 -> Py.div a b = inr (a / b).
Proof. intros Hb. unfold Py.div. destruct (Req_dec_T b 0); [contradiction | reflexivity]. Qed.

Lemma div_inv a b q : Py.div a b = inr q -> b <> 0 /\ q = a / b.
Proof.
  unfold Py.div. destruct (Req_dec_T b 0); [discriminate|].
  intros H. injection H as <-. split; [assumption | reflexivity].
Qed.

Lemma sqrt_neg x : x < 0 -> Py.sqrt x = inl (Py.ValueError "math domain error").
Proof.
  intros H. unfold Py.sqrt. destruct (Rlt_dec x 0); [reflexivity | lra].
Qed.

Lemma sqrt_ok x : 0 <= x -> Py.sqrt x = inr (sqrt x).
Proof. intros Hx. unfold Py.sqrt. destruct (Rlt_dec x 0); [lra | reflexivity]. Qed.

Lemma round_half_even_near y z :
  IZR z - 1 / 2 < y < IZR z + 1 / 2 -> Py.round_half_even y = z.
Proof.
  intros [Hlo Hhi]. unfold Py.round_half_even.
  destruct (Rle_dec (IZR z) y) as [Hle | Hnle].
  - assert (Hf : Zfloor y = z) by (apply Zfloor_eq; lra).
    rewrite Hf. destruct (Rlt_dec (y - IZR z) (1 / 2)); [reflexivity | lra].
  - assert (Hf : Zfloor y = (z - 1)%Z).
    { apply Zfloor_eq. rewrite minus_IZR. lra. }
    rewrite Hf. rewrite minus_IZR.
    destruct (Rlt_dec (y - (IZR z - 1)) (1 / 2)); [lra|].
    destruct (Rlt_dec (1 / 2) (y - (IZR z - 1))); [lia | lra].
Qed.

(** [round(x, n)] when [x * 10^n] is not half-way between two integers. *)
Lemma round_near x n z :
  IZR z - 1 / 2 < x * 10 ^ n < IZR z + 1 / 2 -> Py.round x n = IZR z / 10 ^ n.
Proof.
  intros H. unfold Py.round. rewrite (round_half_even_near _ z H). reflexivity.
Qed.

Lemma round_zero n : Py.round 0 n = 0.
Proof.
  rewrite (round_near 0 n 0); [lra|]. lra.
Qed.

(** [lo < sqrt x < hi] from the squares of the bounds. *)
Lemma sqrt_between x lo hi :
  0 <= lo -> 0 < hi -> lo * lo < x -> x < hi * hi -> lo < sqrt x < hi.
Proof.
  intros Hlo Hhi Hl Hh. split.
  - rewrite <- (sqrt_square lo Hlo). apply sqrt_lt_1_alt. split; [nra | exact Hl].
  - rewrite <- (sqrt_square hi) by lra. apply sqrt_lt_1_alt. split; [nra | exact Hh].
Qed.

Lemma INR_pos_of_le h : (1 <= h)%nat -> 0 < INR h.
Proof. intros H. apply lt_0_INR. lia. Qed.

End PyFacts.

(** ** Forecast results are internally consistent *)

Module ForecastFacts.

Import PyFacts.

(** What a successful moving-average call returns. *)
Lemma moving_average_success d pid h w r :
  moving_average_forecast d pid h w = inr r ->
  exists last_ma,
    r = {| product_id := pid;
           forecast_method := "moving_average";
           horizon_days := h;
           total_forecast := last_ma * INR h;
           daily_average := last_ma;
           forecast_series := None;
           trend_slope := None;
           parameters := [("window"%string, INR w)];
           data_points := length (get_historical_demand d pid (w * 2)) |}.
Proof.
  unfold moving_average_forecast.
  destruct (length (get_historical_demand d pid (w * 2)) <? w)%nat; [discriminate|].
  destruct (Py.iloc_last _) as [e | last_ma]; [discriminate|].
  simpl. intros H. injection H as <-. eexists. reflexivity.
Qed.

(** What a successful exponential-smoothing call returns. *)
Lemma exponential_smoothing_success hw d pid h r :
  exponential_smoothing_forecast hw d pid h = inr r ->
  exists forecast,
    INR h <> 0 /\
    forecast_series r = Some forecast /\
    total_forecast r = Py.sum_R forecast /\
    daily_average r = Py.sum_R forecast / INR h.
Proof.
  unfold exponential_smoothing_forecast.
  destruct (length (get_historical_demand d pid 90) <? 14)%nat; [discriminate|].
  match goal with |- context [Py.bind ?c _] => destruct c as [e | forecast] end;
    [discriminate|].
  simpl. destruct (Py.div _ _) as [e | q] eqn:Hq; [discriminate|].
  apply div_inv in Hq. destruct Hq as [Hh ->].
  simpl. intros H. injection H as <-. exists forecast. simpl. auto.
Qed.

(** What a successful trend-analysis call returns. *)
Lemma trend_analysis_success d pid h r :
  trend_analysis_forecast d pid h = inr r ->
  exists slope intercept n,
    forecast_series r = Some (map (clamped_line slope intercept) (seq n h)) /\
    total_forecast r = Py.sum_R (map (clamped_line slope intercept) (seq n h)) /\
    daily_average r = total_forecast r / INR h.
Proof.
  unfold trend_analysis_forecast.
  destruct (length (get_historical_demand d pid 60) <? 10)%nat; [discriminate|].
  simpl. intros H. injection H as <-. simpl. do 3 eexists. repeat split.
Qed.

(** C1: for every horizon [h >= 1], a forecast returned without error by
    any of the three methods has [daily_average = total_forecast / h], and
    when it carries a per-day series, [total_forecast] is the sum of that
    series. *)
Theorem forecast_result_consistent hw d pid h w r :
  (1 <= h)%nat ->
  moving_average_forecast d pid h w = inr r
  \/ exponential_smoothing_forecast hw d pid h = inr r
  \/ trend_analysis_forecast d pid h = inr r ->
  daily_average r = total_forecast r / INR h
  /\ (forall series, forecast_series r = Some series ->
                     total_forecast r = Py.sum_R series).
Proof.
  intros Hh Hr. pose proof (INR_pos_of_le h Hh) as Hpos.
  destruct Hr as [Hr | [Hr | Hr]].
  - apply moving_average_success in Hr. destruct Hr as [last_ma ->]. simpl.
    split; [field; lra | discriminate].
  - apply exponential_smoothing_success in Hr.
    destruct Hr as (forecast & _ & Hs & Ht & Hd).
    split; [rewrite Hd, Ht; reflexivity|].
    intros series Hseries. rewrite Hs in Hseries. injection Hseries as <-. exact Ht.
  - apply trend_analysis_success in Hr.
    destruct Hr as (slope & intercept & n & Hs & Ht & Hd).
    split; [exact Hd|].
    intros series Hseries. rewrite Hs in Hseries. injection Hseries as <-. exact Ht.
Qed.

Lemma forecast_result_consistent_witness :
  (1 <= 7)%nat
  /\ exists r,
       moving_average_forecast (Samples.steady_store 14) 1 7 14 = inr r
       /\ daily_average r = total_forecast r / INR 7
       /\ (forall series, forecast_series r = Some series ->
                          total_forecast r = Py.sum_R series).
Proof.
  split; [lia|].
  assert (H : exists r, moving_average_forecast (Samples.steady_store 14) 1 7 14 = inr r)
    by (eexists; vm_compute; reflexivity).
  destruct H as [r Hr]. exists r. split; [exact Hr|].
  apply (forecast_result_consistent Samples.flat_holt_winters
           (Samples.steady_store 14) 1 7 14 r); [lia | left; exact Hr].
Defined.

(** Fourteen consecutive days of demand 10, horizon 7, window 14: the daily
    average is 10 and the total is 70. *)
Lemma steady_fortnight_forecast :
  exists r,
    moving_average_forecast (Samples.steady_store 14) 1 7 14 = inr r
    /\ daily_average r = 10
    /\ total_forecast r = 70.
Proof.
  eexists. split; [vm_compute; reflexivity|]. split; vm_compute; lra.
Qed.

(** *** Method selection in auto mode *)

Lemma generate_forecast_auto_unfold hw d pid h :
  generate_forecast hw d pid h "auto" =
  let df := get_historical_demand d pid 90 in
  if (length df <? 7)%nat then inl insufficient_for_auto
  else if (length df <? 14)%nat then
         moving_average_forecast d pid h (Nat.min 7 (length df))
       else
         let result := exponential_smoothing_forecast hw d pid h in
         if negb (Py.is_error result) then result
         else moving_average_forecast d pid h 14.
Proof. reflexivity. Qed.

(** *** The models fitted by exponential smoothing *)

Lemma es_first_model_eq n : es_first_model n = additive_trend_model.
Proof. unfold es_first_model. destruct (28 <=? n)%nat; reflexivity. Qed.

(** With at least 14 rows of history, the result is decided by the two fits. *)
Lemma exponential_smoothing_unfold hw d pid h :
  (14 <= length (get_historical_demand d pid 90))%nat ->
  exponential_smoothing_forecast hw d pid h =
  let series := demand (asfreq (get_historical_demand d pid 90)) in
  Py.catching "Forecast calculation failed: "
    (forecast <- match hw additive_trend_model series h with
                 | inr forecast => Py.ret forecast
                 | inl _ => hw es_fallback_model series h
                 end ;;
     daily <- Py.div (Py.sum_R forecast) (INR h) ;;
     Py.ret (inr {| product_id := pid;
                    forecast_method := "exponential_smoothing";
                    horizon_days := h;
                    total_forecast := Py.sum_R forecast;
                    daily_average := daily;
                    forecast_series := Some forecast;
                    trend_slope := None;
                    parameters := [("alpha"%string, 3 / 10)];
                    data_points := length series |})).
Proof.
  intros Hlen. unfold exponential_smoothing_forecast.
  pose proof (FrameFacts.asfreq_history_length d pid 90) as Hspan.
  assert (H14 : (length (get_historical_demand d pid 90) <? 14)%nat = false)
    by (apply Nat.ltb_ge; lia).
  rewrite H14.
  assert (Hs : (14 <=? length (demand (asfreq (get_historical_demand d pid 90))))%nat = true).
  { apply Nat.leb_le. unfold demand. rewrite length_map. lia. }
  rewrite Hs, es_first_model_eq. reflexivity.
Qed.

(** C3 (as the code has it): whatever the length of the resampled series, 28
    days or more as well as 14 to 27 days, the model fitted first has an
    additive trend and no seasonal component; the trend-free model, also
    without seasonal component, is fitted only after the first fit raised.
    For every horizon [h >= 1] the forecast of the first fit that succeeds is
    the returned series. *)
Theorem exponential_smoothing_models hw d pid h :
  (14 <= length (get_historical_demand d pid 90))%nat ->
  (1 <= h)%nat ->
  (forall n, trend (es_first_model n) = Some Additive /\ seasonal (es_first_model n) = None)
  /\ trend es_fallback_model = None /\ seasonal es_fallback_model = None
  /\ (forall forecast,
        hw additive_trend_model (demand (asfreq (get_historical_demand d pid 90))) h
        = inr forecast ->
        exists r, exponential_smoothing_forecast hw d pid h = inr r
                  /\ forecast_series r = Some forecast)
  /\ (forall e forecast,
        hw additive_trend_model (demand (asfreq (get_historical_demand d pid 90))) h
        = inl e ->
        hw es_fallback_model (demand (asfreq (get_historical_demand d pid 90))) h
        = inr forecast ->
        exists r, exponential_smoothing_forecast hw d pid h = inr r
                  /\ forecast_series r = Some forecast).
Proof.
  intros Hlen Hh. pose proof (INR_pos_of_le h Hh) as Hpos.
  split; [intros n; rewrite es_first_model_eq; split; reflexivity|].
  split; [reflexivity|]. split; [reflexivity|].
  rewrite (exponential_smoothing_unfold hw d pid h Hlen). cbv zeta.
  split.
  - intros forecast Hf. rewrite Hf. simpl.
    rewrite div_ok by lra. simpl. eexists. split; reflexivity.
  - intros e forecast He Hf. rewrite He, Hf. simpl.
    rewrite div_ok by lra. simpl. eexists. split; reflexivity.
Qed.

Lemma exponential_smoothing_models_witness :
  (14 <= length (get_historical_demand (Samples.steady_store 14) 1 90))%nat
  /\ (1 <= 7)%nat
  /\ trend (es_first_model 14) = Some Additive
  /\ exists r,
       exponential_smoothing_forecast Samples.trend_failing_holt_winters
         (Samples.steady_store 14) 1 7 = inr r
       /\ forecast_series r = Some (repeat (Py.mean_Z (repeat 10%Z 14)) 7).
Proof.
  assert (H14 : (14 <= length (get_historical_demand (Samples.steady_store 14) 1 90))%nat)
    by (vm_compute; lia).
  assert (H7 : (1 <= 7)%nat) by lia.
  pose proof (exponential_smoothing_models Samples.trend_failing_holt_winters
                (Samples.steady_store 14) 1 7 H14 H7) as (Hfirst & _ & _ & _ & Hfallback).
  split; [exact H14|]. split; [exact H7|]. split; [exact (proj1 (Hfirst 14%nat))|].
  apply (Hfallback (Py.LibraryError "optimization failed to converge")).
  - reflexivity.
  - vm_compute. reflexivity.
Defined.

(** C3 as stated fails: a resampled series of 14 days lies in the range 14
    to 27, and the model fitted for it has an additive trend. *)
Lemma es_first_model_short_series_has_trend :
  ~ (forall n, (14 <= n < 28)%nat -> trend (es_first_model n) = None).
Proof.
  intros H. specialize (H 14%nat). assert (Hr : (14 <= 14 < 28)%nat) by lia.
  apply H in Hr. vm_compute in Hr. discriminate.
Qed.

(** *** The moving average *)

Lemma iloc_last_map_seq {A} (f : nat -> A) n :
  Py.iloc_last (map f (seq 0 (S n))) = inr (f n).
Proof.
  unfold Py.iloc_last. rewrite seq_S, map_app, rev_app_distr. reflexivity.
Qed.

Lemma rolling_mean_last w xs :
  (1 <= w <= length xs)%nat ->
  Py.iloc_last (rolling_mean w xs) = inr (Some (Py.mean_Z (skipn (length xs - w) xs))).
Proof.
  intros [H1 Hw]. unfold rolling_mean.
  destruct (length xs) as [|n] eqn:Hn; [lia|].
  rewrite iloc_last_map_seq.
  assert (E0 : (w =? 0)%nat = false) by (apply Nat.eqb_neq; lia).
  assert (E1 : (S n <? w)%nat = false) by (apply Nat.ltb_ge; lia).
  rewrite E0, E1. simpl orb. cbv iota.
  rewrite firstn_all2; [reflexivity|]. rewrite length_skipn. lia.
Qed.

Lemma rolling_mean_empty_window xs :
  xs <> [] -> Py.iloc_last (rolling_mean 0 xs) = inr None.
Proof.
  intros Hxs. unfold rolling_mean.
  destruct (length xs) as [|n] eqn:Hn.
  - destruct xs; [contradiction | discriminate].
  - rewrite iloc_last_map_seq. reflexivity.
Qed.

(** The outcome of the moving average for a window of at least one row. *)
Lemma moving_average_outcome d pid h w :
  (1 <= w)%nat ->
  moving_average_forecast d pid h w =
  if (length (get_historical_demand d pid (w * 2)) <? w)%nat then
    inl ("Insufficient data. Need at least " ++ Py.str_of_nat w ++ " days of data.")%string
  else
    inr {| product_id := pid;
           forecast_method := "moving_average";
           horizon_days := h;
           total_forecast :=
             Py.mean_Z (skipn (length (get_historical_demand d pid (w * 2)) - w)
                              (demand (get_historical_demand d pid (w * 2)))) * INR h;
           daily_average :=
             Py.mean_Z (skipn (length (get_historical_demand d pid (w * 2)) - w)
                              (demand (get_historical_demand d pid (w * 2))));
           forecast_series := None;
           trend_slope := None;
           parameters := [("window"%string, INR w)];
           data_points := length (get_historical_demand d pid (w * 2)) |}.
Proof.
  intros Hw. unfold moving_average_forecast.
  destruct (length (get_historical_demand d pid (w * 2)) <? w)%nat eqn:E; [reflexivity|].
  apply Nat.ltb_ge in E.
  rewrite rolling_mean_last by (unfold demand; rewrite length_map; lia).
  simpl. unfold demand at 1 3. rewrite !length_map. reflexivity.
Qed.

(** What the moving average computes: the forecast is the mean of the most
    recent [window] demand records, one record per calendar day that has a
    shipment in the trailing [2 * window] days; days without a record are
    skipped.
    When the rolling mean is undefined (empty window) the mean of all records
    is used.  In both cases [daily_average] is that mean,
    [total_forecast = daily_average * horizon] and no per-day series is
    returned. *)
Theorem moving_average_over_records d pid h w :
  ((1 <= w <= length (get_historical_demand d pid (w * 2)))%nat ->
     exists r,
       moving_average_forecast d pid h w = inr r
       /\ daily_average r
          = Py.mean_Z (skipn (length (get_historical_demand d pid (w * 2)) - w)
                             (demand (get_historical_demand d pid (w * 2))))
       /\ total_forecast r = daily_average r * INR h
       /\ forecast_series r = None)
  /\ (w = 0%nat -> get_historical_demand d pid 0 <> [] ->
        exists r,
          moving_average_forecast d pid h w = inr r
          /\ daily_average r = Py.mean_Z (demand (get_historical_demand d pid 0))
          /\ total_forecast r = daily_average r * INR h
          /\ forecast_series r = None).
Proof.
  split.
  - intros [H1 Hw]. unfold moving_average_forecast.
    assert (E : (length (get_historical_demand d pid (w * 2)) <? w)%nat = false)
      by (apply Nat.ltb_ge; lia).
    rewrite E, rolling_mean_last by (unfold demand; rewrite length_map; lia).
    simpl. eexists. split; [reflexivity|]. simpl.
    unfold demand at 1. rewrite length_map. auto.
  - intros -> Hne. unfold moving_average_forecast. simpl Nat.mul.
    assert (E : (length (get_historical_demand d pid 0) <? 0)%nat = false)
      by (apply Nat.ltb_ge; lia).
    rewrite E, rolling_mean_empty_window.
    + simpl. eexists. split; [reflexivity|]. simpl. auto.
    + unfold demand. intros Hmap. apply map_eq_nil in Hmap. contradiction.
Qed.

Lemma moving_average_over_records_witness :
  (1 <= 2 <= length (get_historical_demand Samples.gap_store 1 (2 * 2)))%nat
  /\ exists r,
       moving_average_forecast Samples.gap_store 1 7 2 = inr r
       /\ daily_average r = Py.mean_Z [10; 10]%Z
       /\ total_forecast r = daily_average r * INR 7
       /\ forecast_series r = None.
Proof.
  assert (H : (1 <= 2 <= length (get_historical_demand Samples.gap_store 1 (2 * 2)))%nat)
    by (vm_compute; lia).
  split; [exact H|].
  exact (proj1 (moving_average_over_records Samples.gap_store 1 7 2) H).
Defined.

(** C4: the moving average does not fill the days without a shipment with
    zero, as the other methods do with [asfreq('D', fill_value=0)].  With
    ten units shipped on day 97 and on day 99 and nothing on day 98, window
    2 and horizon 7, the two most recent calendar days hold 0 and 10, whose
    mean is 5; the forecast is 10, the mean of the two records. *)
Lemma moving_average_skips_missing_days :
  exists r,
    moving_average_forecast Samples.gap_store 1 7 2 = inr r
    /\ daily_average r = 10
    /\ calendar_moving_average 2 (get_historical_demand Samples.gap_store 1 (2 * 2)) = 5
    /\ daily_average r
       <> calendar_moving_average 2 (get_historical_demand Samples.gap_store 1 (2 * 2)).
Proof.
  eexists. split; [vm_compute; reflexivity|].
  assert (Hc : calendar_moving_average 2 (get_historical_demand Samples.gap_store 1 (2 * 2)) = 5).
  { vm_compute. lra. }
  split; [vm_compute; lra|]. split; [exact Hc|].
  rewrite Hc. vm_compute. lra.
Qed.

(** *** Auto mode *)




End ForecastFacts.


(** ** Seasonal analysis *)

Module SeasonalFacts.

Lemma asfreq_shape (df : frame) :
  exists first n,
    asfreq df = map (fun i => ((first + Z.of_nat i)%Z, demand_on df (first + Z.of_nat i)))
                    (seq 0 n).
Proof.
  unfold asfreq. destruct df as [|[first q] df'].
  - exists 0%Z, 0%nat. reflexivity.
  - destruct (rev ((first, q) :: df')) as [|[last q'] rest].
    + exists 0%Z, 0%nat. reflexivity.
    + exists first, (Z.to_nat (last - first + 1)). reflexivity.
Qed.

(** Seven consecutive days hold every weekday. *)
Lemma weekday_occurs first (g : Z -> Z) n k :
  (7 <= n)%nat -> (0 <= k < 7)%Z ->
  weekday_demands (map (fun i => ((first + Z.of_nat i)%Z, g (first + Z.of_nat i)%Z)) (seq 0 n)) k
  <> [].
Proof.
  intros Hn Hk Hnil. unfold weekday_demands, demand in Hnil.
  apply map_eq_nil in Hnil.
  set (m := ((k - first - 3) mod 7)%Z).
  assert (Hm : (0 <= m < 7)%Z) by (apply Z.mod_pos_bound; lia).
  assert (Hin : In ((first + Z.of_nat (Z.to_nat m))%Z, g (first + Z.of_nat (Z.to_nat m))%Z)
                   (filter (fun r => (dayofweek (fst r) =? k)%Z)
                           (map (fun i => ((first + Z.of_nat i)%Z, g (first + Z.of_nat i)%Z))
                                (seq 0 n)))).
  { apply filter_In. split.
    - apply in_map_iff. exists (Z.to_nat m). split; [reflexivity|].
      apply in_seq. lia.
    - simpl. apply Z.eqb_eq. unfold dayofweek. rewrite Z2Nat.id by lia.
      subst m. Z.div_mod_to_equations. lia. }
  rewrite Hnil in Hin. exact Hin.
Qed.

Lemma day_of_week_mean_full (df : frame) :
  (forall k, In k weekdays -> weekday_demands df k <> []) ->
  map snd (day_of_week_mean df) = weekday_means df.
Proof.
  intros Hall. unfold day_of_week_mean, weekday_means, weekdays in *.
  assert (Hstep : forall ks,
             (forall k, In k ks -> weekday_demands df k <> []) ->
             map snd (flat_map (fun k => match weekday_demands df k with
                                         | [] => []
                                         | g => [(k, Py.mean_Z g)]
                                         end) ks)
             = map (fun k => Py.mean_Z (weekday_demands df k)) ks).
  { induction ks as [|k ks IH]; intros Hks; [reflexivity|].
    simpl. pose proof (Hks k (or_introl eq_refl)) as Hk.
    destruct (weekday_demands df k) as [|x g] eqn:E; [contradiction|].
    simpl. f_equal. apply IH. intros k' Hk'. apply Hks. right. exact Hk'. }
  apply Hstep, Hall.
Qed.

(** C5 (as the code has it): with fewer than 30 days of data the call
    returns an error, not a profile; with 30 days or more it returns a
    profile over all seven weekdays whose [seasonal_detected] flag is set
    exactly when the coefficient of variation of the seven weekday means
    (their sample standard deviation over their mean, and 0 when the mean is
    not positive) exceeds 0.2. *)
Theorem seasonal_patterns_outcome d pid :
  ((length (get_historical_demand d pid 365) < 30)%nat ->
     get_seasonal_patterns d pid = inl insufficient_for_seasonal)
  /\ ((30 <= length (get_historical_demand d pid 365))%nat ->
        exists profile,
          get_seasonal_patterns d pid = inr (Seasonal profile)
          /\ (forall k, In k weekdays ->
                weekday_demands (asfreq (get_historical_demand d pid 365)) k <> [])
          /\ coefficient_of_variation profile
             = coefficient_of_variation_of
                 (weekday_means (asfreq (get_historical_demand d pid 365)))
          /\ (seasonal_detected profile = true
              <-> 2 / 10 < coefficient_of_variation profile)).
Proof.
  unfold get_seasonal_patterns. split.
  - intros H. apply Nat.ltb_lt in H. rewrite H. reflexivity.
  - intros H.
    pose proof (FrameFacts.asfreq_history_length d pid 365) as Hspan.
    assert (E1 : (length (get_historical_demand d pid 365) <? 30)%nat = false)
      by (apply Nat.ltb_ge; lia).
    assert (E2 : (length (asfreq (get_historical_demand d pid 365)) <? 30)%nat = false)
      by (apply Nat.ltb_ge; lia).
    rewrite E1, E2. simpl.
    assert (Hall : forall k, In k weekdays ->
              weekday_demands (asfreq (get_historical_demand d pid 365)) k <> []).
    { intros k Hk.
      destruct (asfreq_shape (get_historical_demand d pid 365)) as (first & n & Hshape).
      rewrite Hshape in *. rewrite length_map, length_seq in Hspan.
      apply weekday_occurs; [lia|].
      unfold weekdays in Hk. simpl in Hk. lia. }
    eexists. split; [reflexivity|]. simpl.
    split; [exact Hall|].
    rewrite (day_of_week_mean_full _ Hall).
    split; [reflexivity|].
    destruct (Rlt_dec (2 / 10) _) as [Hlt | Hge].
    + split; [intros _; exact Hlt | reflexivity].
    + split; [discriminate | intros Hlt; contradiction].
Qed.

Lemma seasonal_patterns_outcome_witness :
  ((length (get_historical_demand (Samples.steady_store 5) 1 365) < 30)%nat
   /\ get_seasonal_patterns (Samples.steady_store 5) 1 = inl insufficient_for_seasonal)
  /\ ((30 <= length (get_historical_demand (Samples.steady_store 30) 1 365))%nat
      /\ exists profile,
           get_seasonal_patterns (Samples.steady_store 30) 1 = inr (Seasonal profile)
           /\ (seasonal_detected profile = true
               <-> 2 / 10 < coefficient_of_variation profile)).
Proof.
  assert (H5 : (length (get_historical_demand (Samples.steady_store 5) 1 365) < 30)%nat)
    by (vm_compute; lia).
  assert (H30 : (30 <= length (get_historical_demand (Samples.steady_store 30) 1 365))%nat)
    by (vm_compute; lia).
  split.
  - split; [exact H5|].
    exact (proj1 (seasonal_patterns_outcome (Samples.steady_store 5) 1) H5).
  - split; [exact H30|].
    destruct (proj2 (seasonal_patterns_outcome (Samples.steady_store 30) 1) H30)
      as (profile & Hp & _ & _ & Hiff).
    exists profile. split; [exact Hp | exact Hiff].
Defined.

(** C5 as stated fails: with 5 days of data the call returns the error
    dictionary, not a result with [seasonal_detected = false] and a reason. *)
Lemma seasonal_short_history_is_error :
  (length (get_historical_demand (Samples.steady_store 5) 1 365) < 30)%nat
  /\ get_seasonal_patterns (Samples.steady_store 5) 1 = inl insufficient_for_seasonal
  /\ ~ (exists reason,
          get_seasonal_patterns (Samples.steady_store 5) 1 = inr (NotSeasonal reason)).
Proof.
  assert (E : get_seasonal_patterns (Samples.steady_store 5) 1
              = inl insufficient_for_seasonal) by (vm_compute; reflexivity).
  split; [vm_compute; lia|]. split; [exact E|].
  intros [reason H]. rewrite E in H. discriminate.
Qed.

End SeasonalFacts.


(** ** Trend analysis never forecasts negative demand *)

Module TrendFacts.

Lemma sum_R_nonneg (xs : list R) : Forall (fun v => 0 <= v) xs -> 0 <= Py.sum_R xs.
Proof.
  induction 1 as [|x xs Hx _ IH]; simpl; lra.
Qed.

Lemma clamped_line_nonneg slope intercept xs :
  Forall (fun v => 0 <= v) (map (clamped_line slope intercept) xs).
Proof.
  apply Forall_forall. intros v Hv. apply in_map_iff in Hv.
  destruct Hv as (x & <- & _). unfold clamped_line. apply Rmax_r.
Qed.

(** C7: with at least 10 days of data, for every horizon, trend analysis
    returns a per-day series of that length whose values are all
    non-negative, whatever the sign of the fitted slope; the total is
    non-negative, and so is the daily average for a horizon of at least one
    day. *)
Theorem trend_forecast_nonnegative d pid h :
  (10 <= length (get_historical_demand d pid 60))%nat ->
  exists r series,
    trend_analysis_forecast d pid h = inr r
    /\ forecast_series r = Some series
    /\ length series = h
    /\ Forall (fun v => 0 <= v) series
    /\ 0 <= total_forecast r
    /\ ((1 <= h)%nat -> 0 <= daily_average r).
Proof.
  intros Hlen. unfold trend_analysis_forecast.
  assert (E : (length (get_historical_demand d pid 60) <? 10)%nat = false)
    by (apply Nat.ltb_ge; lia).
  rewrite E. simpl.
  eexists. eexists. split; [reflexivity|]. simpl.
  split; [reflexivity|].
  split; [rewrite length_map, length_seq; reflexivity|].
  split; [apply clamped_line_nonneg|].
  match goal with
  | |- 0 <= ?total /\ _ =>
      assert (Htotal : 0 <= total) by apply sum_R_nonneg, clamped_line_nonneg
  end.
  split; [exact Htotal|].
  intros Hh. apply Rmult_le_pos; [exact Htotal|].
  left. apply Rinv_0_lt_compat, PyFacts.INR_pos_of_le, Hh.
Qed.

Lemma trend_forecast_nonnegative_witness :
  (10 <= length (get_historical_demand (Samples.steady_store 10) 1 60))%nat
  /\ exists r series,
       trend_analysis_forecast (Samples.steady_store 10) 1 7 = inr r
       /\ forecast_series r = Some series
       /\ length series = 7%nat
       /\ Forall (fun v => 0 <= v) series
       /\ 0 <= total_forecast r
       /\ ((1 <= 7)%nat -> 0 <= daily_average r).
Proof.
  assert (H : (10 <= length (get_historical_demand (Samples.steady_store 10) 1 60))%nat)
    by (vm_compute; lia).
  split; [exact H|].
  exact (trend_forecast_nonnegative (Samples.steady_store 10) 1 7 H).
Defined.

End TrendFacts.


(** ** Reorder point *)

Module ReorderPointFacts.

Import PyFacts.

Lemma z_score_table :
  z_score_of (90 / 100) = 128 / 100
  /\ z_score_of (95 / 100) = 165 / 100
  /\ z_score_of (99 / 100) = 233 / 100
  /\ (forall level, level <> 90 / 100 -> level <> 95 / 100 -> level <> 99 / 100 ->
                    z_score_of level = 165 / 100).
Proof.
  unfold z_score_of. repeat split.
  - destruct (Req_dec_T (90 / 100) (90 / 100)); [reflexivity | lra].
  - destruct (Req_dec_T (95 / 100) (90 / 100)); [lra|].
    destruct (Req_dec_T (95 / 100) (95 / 100)); [reflexivity | lra].
  - destruct (Req_dec_T (99 / 100) (90 / 100)); [lra|].
    destruct (Req_dec_T (99 / 100) (95 / 100)); [lra|].
    destruct (Req_dec_T (99 / 100) (99 / 100)); [reflexivity | lra].
  - intros level H90 H95 H99.
    destruct (Req_dec_T level (90 / 100)); [contradiction|].
    destruct (Req_dec_T level (95 / 100)); [contradiction|].
    destruct (Req_dec_T level (99 / 100)); [contradiction | reflexivity].
Qed.

Lemma calculate_reorder_point_success hw d pid level product forecast :
  product_by_id d pid = Some product ->
  generate_forecast hw d pid 30 "auto" = inr forecast ->
  0 < daily_average forecast ->
  exists r, calculate_reorder_point hw d pid level = inr r
            /\ reorder_point_fields d product forecast level r.
Proof.
  intros Hp Hf Hpos. unfold calculate_reorder_point. rewrite Hp, Hf.
  destruct (Rle_dec (daily_average forecast) 0); [lra|].
  simpl. eexists. split; [reflexivity|]. repeat split.
Qed.

Lemma calculate_reorder_point_inv hw d pid level r :
  calculate_reorder_point hw d pid level = inr r ->
  exists product forecast,
    product_by_id d pid = Some product
    /\ generate_forecast hw d pid 30 "auto" = inr forecast
    /\ 0 < daily_average forecast
    /\ reorder_point_fields d product forecast level r.
Proof.
  intros H.
  destruct (product_by_id d pid) as [product|] eqn:Hp;
    [|unfold calculate_reorder_point in H; rewrite Hp in H; discriminate].
  destruct (generate_forecast hw d pid 30 "auto") as [e | forecast] eqn:Hf;
    [unfold calculate_reorder_point in H; rewrite Hp, Hf in H; discriminate|].
  destruct (Rle_dec (daily_average forecast) 0) as [Hle | Hgt].
  - unfold calculate_reorder_point in H. rewrite Hp, Hf in H.
    destruct (Rle_dec (daily_average forecast) 0); [discriminate | contradiction].
  - assert (Hpos : 0 < daily_average forecast) by lra.
    destruct (calculate_reorder_point_success hw d pid level product forecast Hp Hf Hpos)
      as (r' & Hr' & Hfields).
    rewrite Hr' in H. injection H as <-.
    exists product, forecast. auto.
Qed.

(** C6 (as the code has it): in every successful output the daily demand
    [dd] of the 30-day forecast is positive, and with the unrounded
    quantities [lead = dd * lead_time_days] and
    [safety = z_score * lead * 0.3], where [z_score] comes from the table
    0.90: 1.28, 0.95: 1.65, 0.99: 2.33 (1.65 for an unlisted level), the
    output holds [reorder_point = round(lead + safety, 2)],
    [lead_time_demand = round(lead, 2)] and [safety_stock = round(safety, 2)]:
    each field is rounded on its own. *)
Theorem reorder_point_output hw d pid level r :
  calculate_reorder_point hw d pid level = inr r ->
  (exists product forecast,
     product_by_id d pid = Some product
     /\ generate_forecast hw d pid 30 "auto" = inr forecast
     /\ 0 < daily_average forecast
     /\ reorder_point r
        = Py.round (daily_average forecast * IZR (lead_time_of d product)
                    + z_score_of level
                      * (daily_average forecast * IZR (lead_time_of d product))
                      * (3 / 10)) 2
     /\ lead_time_demand r
        = Py.round (daily_average forecast * IZR (lead_time_of d product)) 2
     /\ rop_safety_stock r
        = Py.round (z_score_of level
                    * (daily_average forecast * IZR (lead_time_of d product))
                    * (3 / 10)) 2)
  /\ z_score_of (90 / 100) = 128 / 100
  /\ z_score_of (95 / 100) = 165 / 100
  /\ z_score_of (99 / 100) = 233 / 100
  /\ (forall l, l <> 90 / 100 -> l <> 95 / 100 -> l <> 99 / 100 ->
                z_score_of l = 165 / 100).
Proof.
  intros H. split; [|exact z_score_table].
  apply calculate_reorder_point_inv in H.
  destruct H as (product & forecast & Hp & Hf & Hpos & Hrp & Hlead & Hsafety & _).
  exists product, forecast. auto 10.
Qed.

(** The nine units of the sample week make a daily demand of 9/7. *)
Lemma week_store_forecast hw :
  exists forecast,
    generate_forecast hw Samples.week_store 2 30 "auto" = inr forecast
    /\ daily_average forecast = 9 / 7.
Proof.
  eexists. split; [vm_compute; reflexivity|]. vm_compute. lra.
Qed.

Lemma week_store_reorder_point hw :
  exists r,
    calculate_reorder_point hw Samples.week_store 2 (95 / 100) = inr r
    /\ reorder_point r = 192 / 100
    /\ lead_time_demand r = 129 / 100
    /\ rop_safety_stock r = 64 / 100.
Proof.
  destruct (week_store_forecast hw) as (forecast & Hf & Hd).
  destruct (calculate_reorder_point_success hw Samples.week_store 2 (95 / 100)
              Samples.gadget forecast eq_refl Hf) as (r & Hr & Hrp & Hlead & Hsafety & _).
  { rewrite Hd. lra. }
  exists r. split; [exact Hr|].
  destruct z_score_table as (_ & Hz & _).
  change (lead_time_of Samples.week_store Samples.gadget) with 1%Z in *.
  rewrite Hd in Hrp, Hlead, Hsafety. rewrite Hz in Hrp, Hsafety.
  rewrite Hrp, Hlead, Hsafety.
  rewrite (round_near _ 2 192), (round_near _ 2 129), (round_near _ 2 64);
    simpl; lra.
Qed.

Lemma reorder_point_output_witness :
  exists r,
    calculate_reorder_point Samples.flat_holt_winters Samples.week_store 2 (95 / 100) = inr r
    /\ exists product forecast,
         product_by_id Samples.week_store 2 = Some product
         /\ generate_forecast Samples.flat_holt_winters Samples.week_store 2 30 "auto"
            = inr forecast
         /\ 0 < daily_average forecast
         /\ lead_time_demand r
            = Py.round (daily_average forecast
                        * IZR (lead_time_of Samples.week_store product)) 2.
Proof.
  destruct (week_store_reorder_point Samples.flat_holt_winters) as (r & Hr & _).
  exists r. split; [exact Hr|].
  destruct (proj1 (reorder_point_output Samples.flat_holt_winters Samples.week_store 2
                     (95 / 100) r Hr))
    as (product & forecast & Hp & Hf & Hpos & _ & Hlead & _).
  exists product, forecast. auto.
Defined.

(** C6 as stated fails: for the sample week with a supplier lead time of one
    day the output holds [reorder_point = 1.92], [lead_time_demand = 1.29]
    and [safety_stock = 0.64], and 1.29 + 0.64 is 1.93. *)
Lemma reorder_point_fields_do_not_add_up :
  exists r,
    calculate_reorder_point Samples.flat_holt_winters Samples.week_store 2 (95 / 100) = inr r
    /\ reorder_point r = 192 / 100
    /\ lead_time_demand r = 129 / 100
    /\ rop_safety_stock r = 64 / 100
    /\ reorder_point r <> lead_time_demand r + rop_safety_stock r.
Proof.
  destruct (week_store_reorder_point Samples.flat_holt_winters)
    as (r & Hr & Hrp & Hlead & Hsafety).
  exists r. repeat split; try assumption.
  rewrite Hrp, Hlead, Hsafety. lra.
Qed.

End ReorderPointFacts.


(** ** Economic order quantity *)

Module EOQFacts.

Import PyFacts.

Lemma calculate_eoq_success hw d pid a S rate product D :
  product_by_id d pid = Some product ->
  annual_demand_estimate hw d pid a = inr D ->
  0 < D -> 0 < S -> 0 < p_unit_cost product * rate ->
  exists r,
    calculate_eoq hw d pid a S rate = inr r
    /\ eoq r = Py.round (economic_order_quantity D S (p_unit_cost product * rate)) 2.
Proof.
  intros Hp Hest HD HS HH. unfold calculate_eoq. rewrite Hp, Hest.
  destruct (Rle_dec D 0); [lra|].
  set (H := p_unit_cost product * rate) in *.
  assert (Hratio : 0 < 2 * D * S / H).
  { apply Rdiv_lt_0_compat; [|exact HH]. apply Rmult_lt_0_compat; lra. }
  pose proof (sqrt_lt_R0 _ Hratio) as Hroot.
  rewrite div_ok by lra. simpl.
  rewrite sqrt_ok by lra. simpl.
  rewrite div_ok by lra. simpl.
  assert (Horders : 0 < D / sqrt (2 * D * S / H)) by (apply Rdiv_lt_0_compat; lra).
  rewrite div_ok by lra. simpl.
  eexists. split; reflexivity.
Qed.

Lemma calculate_eoq_rejects hw d pid a S rate product D :
  product_by_id d pid = Some product ->
  annual_demand_estimate hw d pid a = inr D ->
  D <= 0 ->
  calculate_eoq hw d pid a S rate = inl demand_not_positive.
Proof.
  intros Hp Hest HD. unfold calculate_eoq. rewrite Hp, Hest.
  destruct (Rle_dec D 0); [reflexivity | lra].
Qed.

Lemma economic_order_quantity_doubling D S H :
  0 < D -> 0 < S -> 0 < H ->
  economic_order_quantity D (2 * S) H = sqrt 2 * economic_order_quantity D S H.
Proof.
  intros HD HS HH. unfold economic_order_quantity.
  replace (2 * D * (2 * S) / H) with (2 * (2 * D * S / H)) by (field; lra).
  apply sqrt_mult; [lra|].
  left. apply Rdiv_lt_0_compat; [|exact HH]. apply Rmult_lt_0_compat; lra.
Qed.

(** Without a positive ordering cost there is no order quantity: an
    ordering cost of zero makes the number of orders a division by zero, and
    a negative one makes the square root fail. *)
Lemma calculate_eoq_ordering_cost hw d pid a S rate product D :
  product_by_id d pid = Some product ->
  annual_demand_estimate hw d pid a = inr D ->
  0 < D -> 0 < p_unit_cost product * rate ->
  (S = 0 ->
   calculate_eoq hw d pid a S rate
   = inl "EOQ calculation failed: float division by zero"%string)
  /\ (S < 0 ->
      calculate_eoq hw d pid a S rate
      = inl "EOQ calculation failed: math domain error"%string).
Proof.
  intros Hp Hest HD HH. unfold calculate_eoq. rewrite Hp, Hest.
  destruct (Rle_dec D 0); [lra|].
  rewrite div_ok by lra. simpl. split.
  - intros ->.
    replace (2 * D * 0 / (p_unit_cost product * rate)) with 0 by (unfold Rdiv; ring).
    rewrite sqrt_ok by lra. simpl. rewrite sqrt_0. unfold Py.div.
    destruct (Req_dec_T 0 0); [reflexivity | lra].
  - intros HS.
    assert (Hneg : 2 * D * S / (p_unit_cost product * rate) < 0).
    { unfold Rdiv. pose proof (Rinv_0_lt_compat _ HH) as Hinv.
      assert (Hnum : 2 * D * S < 0) by nra. nra. }
    rewrite sqrt_neg by exact Hneg. reflexivity.
Qed.

(** C8 (as the code has it): for an existing product with positive annual
    demand (supplied, or derived from the 90-day forecast), positive
    ordering cost, holding-cost rate and unit cost, the order quantity
    before rounding, [sqrt(2 * D * S / H)], is multiplied by exactly
    [sqrt 2] when the ordering cost is doubled, and the returned [eoq] is
    that quantity rounded to two decimals in both calls.  With an ordering
    cost of zero the call fails with a division by zero and with a negative
    one with a math domain error, so there is no [eoq] to compare; when the
    annual demand is not positive the call fails with the message that the
    annual demand must be positive. *)
Theorem eoq_scaling hw d pid a S rate product D :
  product_by_id d pid = Some product ->
  annual_demand_estimate hw d pid a = inr D ->
  (0 < D -> 0 < S -> 0 < rate -> 0 < p_unit_cost product ->
     economic_order_quantity D (2 * S) (p_unit_cost product * rate)
     = sqrt 2 * economic_order_quantity D S (p_unit_cost product * rate)
     /\ exists r1 r2,
          calculate_eoq hw d pid a S rate = inr r1
          /\ calculate_eoq hw d pid a (2 * S) rate = inr r2
          /\ eoq r1 = Py.round (economic_order_quantity D S (p_unit_cost product * rate)) 2
          /\ eoq r2
             = Py.round (economic_order_quantity D (2 * S) (p_unit_cost product * rate)) 2)
  /\ (0 < D -> S = 0 -> 0 < rate -> 0 < p_unit_cost product ->
      calculate_eoq hw d pid a S rate
      = inl "EOQ calculation failed: float division by zero"%string)
  /\ (0 < D -> S < 0 -> 0 < rate -> 0 < p_unit_cost product ->
      calculate_eoq hw d pid a S rate
      = inl "EOQ calculation failed: math domain error"%string)
  /\ (D <= 0 -> calculate_eoq hw d pid a S rate = inl demand_not_positive).
Proof.
  intros Hp Hest. split; [|split; [|split]].
  - intros HD HS Hrate Hcost.
    assert (HH : 0 < p_unit_cost product * rate) by (apply Rmult_lt_0_compat; lra).
    split; [apply economic_order_quantity_doubling; lra|].
    destruct (calculate_eoq_success hw d pid a S rate product D Hp Hest HD HS HH)
      as (r1 & Hr1 & He1).
    assert (HS2 : 0 < 2 * S) by lra.
    destruct (calculate_eoq_success hw d pid a (2 * S) rate product D Hp Hest HD HS2 HH)
      as (r2 & Hr2 & He2).
    exists r1, r2. auto.
  - intros HD HS Hrate Hcost.
    assert (HH : 0 < p_unit_cost product * rate) by (apply Rmult_lt_0_compat; lra).
    exact (proj1 (calculate_eoq_ordering_cost hw d pid a S rate product D Hp Hest HD HH) HS).
  - intros HD HS Hrate Hcost.
    assert (HH : 0 < p_unit_cost product * rate) by (apply Rmult_lt_0_compat; lra).
    exact (proj2 (calculate_eoq_ordering_cost hw d pid a S rate product D Hp Hest HD HH) HS).
  - intros HD. apply (calculate_eoq_rejects hw d pid a S rate product D Hp Hest HD).
Qed.

Lemma eoq_scaling_witness :
  product_by_id Samples.empty_store 1 = Some Samples.widget
  /\ annual_demand_estimate Samples.flat_holt_winters Samples.empty_store 1 (Some 1000)
     = inr 1000
  /\ (exists r1 r2,
        calculate_eoq Samples.flat_holt_winters Samples.empty_store 1 (Some 1000)
                      50 (25 / 100) = inr r1
        /\ calculate_eoq Samples.flat_holt_winters Samples.empty_store 1 (Some 1000)
                         (2 * 50) (25 / 100) = inr r2
        /\ eoq r1 = Py.round (economic_order_quantity 1000 50 (20 * (25 / 100))) 2
        /\ eoq r2 = Py.round (economic_order_quantity 1000 (2 * 50) (20 * (25 / 100))) 2)
  /\ calculate_eoq Samples.flat_holt_winters Samples.empty_store 1 (Some 1000)
                   0 (25 / 100)
     = inl "EOQ calculation failed: float division by zero"%string
  /\ calculate_eoq Samples.flat_holt_winters Samples.empty_store 1 (Some 0)
                   50 (25 / 100) = inl demand_not_positive.
Proof.
  split; [reflexivity|]. split; [reflexivity|]. split; [|split].
  - refine (proj2 (proj1 (eoq_scaling Samples.flat_holt_winters Samples.empty_store 1
                            (Some 1000) 50 (25 / 100) Samples.widget 1000
                            eq_refl eq_refl) _ _ _ _)); simpl; lra.
  - refine (proj1 (proj2 (eoq_scaling Samples.flat_holt_winters Samples.empty_store 1
                            (Some 1000) 0 (25 / 100) Samples.widget 1000
                            eq_refl eq_refl)) _ _ _ _); simpl; lra.
  - refine (proj2 (proj2 (proj2 (eoq_scaling Samples.flat_holt_winters Samples.empty_store 1
                     (Some 0) 50 (25 / 100) Samples.widget 0 eq_refl eq_refl))) _).
    lra.
Defined.

(** C8 as stated fails on the returned value: with annual demand 1000, unit
    cost 20 and holding-cost rate 0.25 the call returns 141.42 for an
    ordering cost of 50 and 200 for an ordering cost of 100, and
    [sqrt 2 * 141.42] is below 200.  With an ordering cost of 0 the same
    call returns no [eoq] at all, but the error of a division by zero. *)
Lemma returned_eoq_not_scaled_by_sqrt2 :
  (exists r1 r2,
     calculate_eoq Samples.flat_holt_winters Samples.empty_store 1 (Some 1000)
                   50 (25 / 100) = inr r1
     /\ calculate_eoq Samples.flat_holt_winters Samples.empty_store 1 (Some 1000)
                      (2 * 50) (25 / 100) = inr r2
     /\ eoq r1 = 14142 / 100
     /\ eoq r2 = 200
     /\ eoq r2 <> sqrt 2 * eoq r1)
  /\ calculate_eoq Samples.flat_holt_winters Samples.empty_store 1 (Some 1000)
                   0 (25 / 100)
     = inl "EOQ calculation failed: float division by zero"%string.
Proof.
  split;
    [|apply (proj1 (calculate_eoq_ordering_cost Samples.flat_holt_winters
                      Samples.empty_store 1 (Some 1000) 0 (25 / 100) Samples.widget 1000
                      eq_refl eq_refl ltac:(lra) ltac:(simpl; lra)) eq_refl)].
  destruct (calculate_eoq_success Samples.flat_holt_winters Samples.empty_store 1
              (Some 1000) 50 (25 / 100) Samples.widget 1000 eq_refl eq_refl)
    as (r1 & Hr1 & He1); simpl; try lra.
  destruct (calculate_eoq_success Samples.flat_holt_winters Samples.empty_store 1
              (Some 1000) (2 * 50) (25 / 100) Samples.widget 1000 eq_refl eq_refl)
    as (r2 & Hr2 & He2); simpl; try lra.
  simpl in He1, He2. unfold economic_order_quantity in He1, He2.
  replace (2 * 1000 * 50 / (20 * (25 / 100))) with 20000 in He1 by lra.
  replace (2 * 1000 * (2 * 50) / (20 * (25 / 100))) with (200 * 200) in He2 by lra.
  rewrite sqrt_square in He2 by lra.
  pose proof (sqrt_between 20000 (141415 / 1000) (141425 / 1000)) as Hb.
  pose proof (sqrt_between 2 (141420 / 100000) (141422 / 100000)) as Hs.
  assert (H1 : eoq r1 = 14142 / 100).
  { rewrite He1, (round_near _ 2 14142); simpl; lra. }
  assert (H2 : eoq r2 = 200).
  { rewrite He2, (round_near _ 2 20000); simpl; lra. }
  exists r1, r2. repeat split; try assumption.
  rewrite H1, H2. lra.
Qed.

End EOQFacts.


(** ** Recommendations *)

Module RecommendationFacts.

Import PyFacts.

Section Sorting.

Context {A : Type} (key : A -> nat).

Lemma insert_by_skip x l1 l2 :
  Forall (fun y => (key y < key x)%nat) l1 ->
  insert_by key x (l1 ++ l2) = l1 ++ insert_by key x l2.
Proof.
  induction 1 as [|y l1 Hy _ IH]; [reflexivity|].
  simpl. apply Nat.leb_gt in Hy. rewrite Hy, IH. reflexivity.
Qed.

Lemma insert_by_front x l :
  Forall (fun y => (key x <= key y)%nat) l -> insert_by key x l = x :: l.
Proof.
  destruct 1 as [|y l Hy _]; [reflexivity|].
  simpl. apply Nat.leb_le in Hy. rewrite Hy. reflexivity.
Qed.

Lemma filter_key k l : Forall (fun y => key y = k) (filter (fun x => (key x =? k)%nat) l).
Proof.
  apply Forall_forall. intros y Hy. apply filter_In in Hy.
  destruct Hy as [_ Hy]. apply Nat.eqb_eq in Hy. exact Hy.
Qed.

Lemma filter_key_lt k x l :
  (k < key x)%nat ->
  Forall (fun y => (key y < key x)%nat) (filter (fun x => (key x =? k)%nat) l).
Proof.
  intros Hlt. eapply Forall_impl; [|apply filter_key]. simpl. intros y ->. exact Hlt.
Qed.

Lemma filter_key_ge k x l :
  (key x <= k)%nat ->
  Forall (fun y => (key x <= key y)%nat) (filter (fun x => (key x =? k)%nat) l).
Proof.
  intros Hle. eapply Forall_impl; [|apply filter_key]. simpl. intros y ->. exact Hle.
Qed.

(** A stable sort on keys 0, 1 and 2 puts the three classes one after the
    other and keeps the order of the list inside each class. *)
Lemma sort_by_three l :
  (forall x, (key x <= 2)%nat) ->
  sort_by key l
  = filter (fun x => (key x =? 0)%nat) l
    ++ filter (fun x => (key x =? 1)%nat) l
    ++ filter (fun x => (key x =? 2)%nat) l.
Proof.
  intros Hkey. induction l as [|x l IH]; [reflexivity|].
  unfold sort_by in *. cbn [fold_right filter]. rewrite IH. clear IH.
  pose proof (Hkey x) as Hx.
  destruct (key x) as [|[|[|n]]] eqn:E; [| | |lia]; cbn [Nat.eqb].
  - apply insert_by_front. repeat (apply Forall_app; split);
      apply filter_key_ge; lia.
  - rewrite insert_by_skip by (apply filter_key_lt; lia).
    cbn [app]. f_equal. apply insert_by_front. repeat (apply Forall_app; split);
      apply filter_key_ge; lia.
  - rewrite insert_by_skip by (apply filter_key_lt; lia).
    f_equal.
    rewrite insert_by_skip by (apply filter_key_lt; lia).
    f_equal. apply insert_by_front. apply filter_key_ge; lia.
Qed.

End Sorting.

(** The stable sort by priority puts the tiers one after the other and
    keeps the order of the list inside each tier. *)
Lemma sort_by_tiers l :
  sort_by (fun x => priority_order (rec_priority x)) l
  = with_priority HIGH l ++ with_priority MEDIUM l ++ with_priority LOW l.
Proof.
  apply (sort_by_three (fun x => priority_order (rec_priority x))).
  intros x. destruct (rec_priority x); simpl; lia.
Qed.

Lemma recommend_row_app hw d results row :
  recommend_row hw d results row = results ++ recommend_row hw d [] row.
Proof.
  unfold recommend_row. destruct (calculate_eoq _ _ _ _ _ _); [|reflexivity].
  rewrite app_nil_r. reflexivity.
Qed.

Lemma collect_rows hw d rows results :
  fold_left (recommend_row hw d) rows results
  = results ++ flat_map (recommend_row hw d []) rows.
Proof.
  revert results. induction rows as [|row rows IH]; intros results; simpl.
  - rewrite app_nil_r. reflexivity.
  - rewrite IH, (recommend_row_app hw d results row), <- app_assoc. reflexivity.
Qed.

Lemma classify_priority current reorder :
  ((current <= reorder)%Z -> snd (classify current reorder) = HIGH)
  /\ (~ (current <= reorder)%Z -> IZR current <= IZR reorder * (15 / 10) ->
        snd (classify current reorder) = MEDIUM)
  /\ (~ (current <= reorder)%Z -> ~ IZR current <= IZR reorder * (15 / 10) ->
        snd (classify current reorder) = LOW).
Proof.
  unfold classify. destruct (current <=? reorder)%Z eqn:E.
  - apply Z.leb_le in E. repeat split; intros; try reflexivity; contradiction.
  - apply Z.leb_gt in E.
    destruct (Rle_dec (IZR current) (IZR reorder * (15 / 10)));
      repeat split; intros; try reflexivity; try contradiction; lia.
Qed.

Lemma recommend_row_outcome hw d row :
  (forall e, calculate_eoq hw d (p_id (fst row)) None 50 (25 / 100) = inl e ->
             recommend_row hw d [] row = [])
  /\ (forall q, calculate_eoq hw d (p_id (fst row)) None 50 (25 / 100) = inr q ->
        exists item,
          recommend_row hw d [] row = [item]
          /\ rec_sku item = p_sku (fst row)
          /\ current_stock item = i_quantity_on_hand (snd row)
          /\ rec_reorder_point item = p_reorder_point (fst row)
          /\ rec_priority item
             = snd (classify (i_quantity_on_hand (snd row)) (p_reorder_point (fst row)))).
Proof.
  unfold recommend_row. split.
  - intros e He. rewrite He. reflexivity.
  - intros q Hq. rewrite Hq. eexists. split; [reflexivity|]. simpl. auto.
Qed.

(** C9: the returned list is the HIGH recommendations, then the MEDIUM ones,
    then the LOW ones, each tier in the order of the rows of the query; a row
    whose EOQ calculation fails contributes no recommendation, every other
    row contributes one; the priority is HIGH when
    [current_stock <= reorder_point], else MEDIUM when
    [current_stock <= 1.5 * reorder_point], else LOW. *)
Theorem recommendations_by_tier hw d location :
  get_optimization_recommendations hw d location
  = with_priority HIGH
      (flat_map (recommend_row hw d []) (recommendation_rows d location))
    ++ with_priority MEDIUM
         (flat_map (recommend_row hw d []) (recommendation_rows d location))
    ++ with_priority LOW
         (flat_map (recommend_row hw d []) (recommendation_rows d location))
  /\ (forall row,
        (forall e, calculate_eoq hw d (p_id (fst row)) None 50 (25 / 100) = inl e ->
                   recommend_row hw d [] row = [])
        /\ (forall q, calculate_eoq hw d (p_id (fst row)) None 50 (25 / 100) = inr q ->
              exists item,
                recommend_row hw d [] row = [item]
                /\ rec_sku item = p_sku (fst row)
                /\ current_stock item = i_quantity_on_hand (snd row)
                /\ rec_reorder_point item = p_reorder_point (fst row)
                /\ rec_priority item
                   = snd (classify (i_quantity_on_hand (snd row))
                                   (p_reorder_point (fst row)))))
  /\ (forall current reorder,
        ((current <= reorder)%Z -> snd (classify current reorder) = HIGH)
        /\ (~ (current <= reorder)%Z -> IZR current <= IZR reorder * (15 / 10) ->
              snd (classify current reorder) = MEDIUM)
        /\ (~ (current <= reorder)%Z -> ~ IZR current <= IZR reorder * (15 / 10) ->
              snd (classify current reorder) = LOW)).
Proof.
  split; [|split].
  - unfold get_optimization_recommendations.
    rewrite collect_rows. cbn [app]. apply sort_by_tiers.
  - intros row. apply recommend_row_outcome.
  - intros current reorder. apply classify_priority.
Qed.

(** The sample catalogue: A and B have a positive annual demand, C has no
    history. *)
Lemma catalog_demand hw pid :
  pid = 1%Z \/ pid = 2%Z ->
  exists D, annual_demand_estimate hw Samples.catalog_store pid None = inr D /\ 0 < D.
Proof.
  intros [-> | ->]; eexists; (split; [vm_compute; reflexivity | lra]).
Qed.

Lemma catalog_eoq hw pid product :
  pid = 1%Z \/ pid = 2%Z ->
  product_by_id Samples.catalog_store pid = Some product ->
  p_unit_cost product = 20 ->
  exists q, calculate_eoq hw Samples.catalog_store pid None 50 (25 / 100) = inr q.
Proof.
  intros Hpid Hp Hcost. destruct (catalog_demand hw pid Hpid) as (D & HD & Hpos).
  destruct (EOQFacts.calculate_eoq_success hw Samples.catalog_store pid None 50 (25 / 100)
              product D Hp HD Hpos) as (q & Hq & _); [lra | rewrite Hcost; lra |].
  exists q. exact Hq.
Qed.

Lemma recommendations_by_tier_witness :
  map (fun item => (rec_sku item, current_stock item, rec_priority item))
      (get_optimization_recommendations Samples.flat_holt_winters Samples.catalog_store None)
  = [("SKU-B"%string, 5%Z, HIGH); ("SKU-A"%string, 12%Z, MEDIUM);
     ("SKU-A"%string, 100%Z, LOW)].
Proof.
  pose proof (recommendations_by_tier Samples.flat_holt_winters Samples.catalog_store None)
    as (Hsorted & Hrow & Hclass).
  rewrite Hsorted.
  change (recommendation_rows Samples.catalog_store None)
    with [(Samples.product_a, Samples.stock 1 1 100);
          (Samples.product_a, Samples.stock 1 2 12);
          (Samples.product_b, Samples.stock 2 1 5);
          (Samples.product_c, Samples.stock 3 1 0)].
  destruct (catalog_eoq Samples.flat_holt_winters 1 Samples.product_a
              (or_introl eq_refl) eq_refl eq_refl) as (qa & Hqa).
  destruct (catalog_eoq Samples.flat_holt_winters 2 Samples.product_b
              (or_intror eq_refl) eq_refl eq_refl) as (qb & Hqb).
  assert (Hqc : exists e, calculate_eoq Samples.flat_holt_winters Samples.catalog_store 3
                            None 50 (25 / 100) = inl e)
    by (eexists; vm_compute; reflexivity).
  destruct Hqc as (e & Hqc).
  destruct (proj2 (Hrow (Samples.product_a, Samples.stock 1 1 100)) qa Hqa)
    as (i1 & E1 & S1 & C1 & _ & P1).
  destruct (proj2 (Hrow (Samples.product_a, Samples.stock 1 2 12)) qa Hqa)
    as (i2 & E2 & S2 & C2 & _ & P2).
  destruct (proj2 (Hrow (Samples.product_b, Samples.stock 2 1 5)) qb Hqb)
    as (i3 & E3 & S3 & C3 & _ & P3).
  pose proof (proj1 (Hrow (Samples.product_c, Samples.stock 3 1 0)) e Hqc) as E4.
  cbn [flat_map]. rewrite E1, E2, E3, E4. cbn [app].
  simpl in P1, P2, P3, S1, S2, S3, C1, C2, C3.
  rewrite (proj2 (proj2 (Hclass 100%Z 10%Z))) in P1 by (try lia; lra).
  rewrite (proj1 (proj2 (Hclass 12%Z 10%Z))) in P2 by (try lia; lra).
  unfold with_priority. cbn [filter]. rewrite P1, P2, P3. cbn.
  rewrite S1, S2, S3, C1, C2, C3, P1, P2, P3. reflexivity.
Defined.

End RecommendationFacts.


(** ** Safety stock *)

Module SafetyStockFacts.

Import PyFacts.

(** A negative lead time makes [math.sqrt] raise, and the handler of
    [calculate_safety_stock] turns the exception into an error result. *)
Lemma calculate_safety_stock_negative hw d pid level variability product forecast :
  product_by_id d pid = Some product ->
  generate_forecast hw d pid 30 "auto" = inr forecast ->
  (lead_time_of d product < 0)%Z ->
  calculate_safety_stock hw d pid level variability
  = inl "Safety stock calculation failed: math domain error"%string.
Proof.
  intros Hp Hf Hneg. unfold calculate_safety_stock. rewrite Hp, Hf.
  rewrite sqrt_neg by (apply IZR_lt in Hneg; exact Hneg). reflexivity.
Qed.

(** C10 (as the code has it): for an existing product whose 30-day forecast
    succeeds with a daily average of zero and whose lead time (the
    [lead_time_days] of its supplier, 7 without one) is not negative,
    [calculate_safety_stock] returns a result, with [safety_stock = 0] and
    [annual_holding_cost = 0], whatever the service level and the demand
    variability; with a negative lead time it fails with the message of the
    square root; on the same store [calculate_reorder_point] fails with the
    message that the daily demand must be positive, and [calculate_eoq]
    fails whenever its annual demand is not positive. *)
Theorem safety_stock_accepts_zero_demand hw d pid level variability product forecast :
  product_by_id d pid = Some product ->
  generate_forecast hw d pid 30 "auto" = inr forecast ->
  daily_average forecast = 0 ->
  ((0 <= lead_time_of d product)%Z ->
   exists r,
     calculate_safety_stock hw d pid level variability = inr r
     /\ safety_stock r = 0
     /\ annual_holding_cost r = 0)
  /\ ((lead_time_of d product < 0)%Z ->
      calculate_safety_stock hw d pid level variability
      = inl "Safety stock calculation failed: math domain error"%string)
  /\ calculate_reorder_point hw d pid level = inl daily_demand_not_positive
  /\ (forall a S rate D,
        annual_demand_estimate hw d pid a = inr D -> D <= 0 ->
        calculate_eoq hw d pid a S rate = inl demand_not_positive).
Proof.
  intros Hp Hf Hd. split; [|split; [|split]].
  - intros Hlead. unfold calculate_safety_stock. rewrite Hp, Hf.
    rewrite sqrt_ok by (apply IZR_le in Hlead; exact Hlead). simpl.
    eexists. split; [reflexivity|]. simpl. rewrite Hd.
    split.
    + rewrite <- (round_zero 2) at 2. f_equal. ring.
    + rewrite <- (round_zero 2) at 2. f_equal. ring.
  - intros Hneg.
    exact (calculate_safety_stock_negative hw d pid level variability product forecast
             Hp Hf Hneg).
  - unfold calculate_reorder_point. rewrite Hp, Hf.
    destruct (Rle_dec (daily_average forecast) 0); [reflexivity | lra].
  - intros a S rate D HD Hle.
    apply (EOQFacts.calculate_eoq_rejects hw d pid a S rate product D Hp HD Hle).
Qed.

Lemma idle_store_forecast hw :
  exists forecast,
    generate_forecast hw Samples.idle_store 1 30 "auto" = inr forecast
    /\ daily_average forecast = 0.
Proof.
  eexists. split; [vm_compute; reflexivity|]. vm_compute. lra.
Qed.

Lemma safety_stock_accepts_zero_demand_witness :
  product_by_id Samples.idle_store 1 = Some Samples.widget
  /\ (exists forecast,
        generate_forecast Samples.flat_holt_winters Samples.idle_store 1 30 "auto"
        = inr forecast
        /\ daily_average forecast = 0)
  /\ (0 <= lead_time_of Samples.idle_store Samples.widget)%Z
  /\ (exists r,
        calculate_safety_stock Samples.flat_holt_winters Samples.idle_store 1 (95 / 100) None
        = inr r
        /\ safety_stock r = 0
        /\ annual_holding_cost r = 0)
  /\ calculate_reorder_point Samples.flat_holt_winters Samples.idle_store 1 (95 / 100)
     = inl daily_demand_not_positive.
Proof.
  destruct (idle_store_forecast Samples.flat_holt_winters) as (forecast & Hf & Hd).
  destruct (safety_stock_accepts_zero_demand Samples.flat_holt_winters Samples.idle_store 1
              (95 / 100) None Samples.widget forecast eq_refl Hf Hd)
    as (Hss & _ & Hrop & _).
  assert (Hlead : (0 <= lead_time_of Samples.idle_store Samples.widget)%Z)
    by (vm_compute; discriminate).
  split; [reflexivity|]. split; [exists forecast; auto|].
  split; [exact Hlead|]. split; [exact (Hss Hlead) | exact Hrop].
Defined.

Lemma recalled_store_forecast hw :
  exists forecast,
    generate_forecast hw Samples.recalled_store 2 30 "auto" = inr forecast
    /\ daily_average forecast = 0.
Proof.
  eexists. split; [vm_compute; reflexivity|]. vm_compute. lra.
Qed.

(** C10 as stated fails: the gadget of the sample store exists, its 30-day
    forecast succeeds with a daily average of zero, and its supplier row
    holds a lead time of -1 day; [calculate_safety_stock] returns the error
    of [math.sqrt] instead of a result. *)
Lemma safety_stock_fails_on_negative_lead_time :
  product_by_id Samples.recalled_store 2 = Some Samples.gadget
  /\ (exists forecast,
        generate_forecast Samples.flat_holt_winters Samples.recalled_store 2 30 "auto"
        = inr forecast
        /\ daily_average forecast = 0)
  /\ calculate_safety_stock Samples.flat_holt_winters Samples.recalled_store 2 (95 / 100) None
     = inl "Safety stock calculation failed: math domain error"%string
  /\ Py.is_error
       (calculate_safety_stock Samples.flat_holt_winters Samples.recalled_store 2
          (95 / 100) None) = true.
Proof.
  destruct (recalled_store_forecast Samples.flat_holt_winters) as (forecast & Hf & Hd).
  assert (Hss : calculate_safety_stock Samples.flat_holt_winters Samples.recalled_store 2
                  (95 / 100) None
                = inl "Safety stock calculation failed: math domain error"%string).
  { apply (calculate_safety_stock_negative Samples.flat_holt_winters Samples.recalled_store 2
             (95 / 100) None Samples.gadget forecast eq_refl Hf).
    vm_compute. reflexivity. }
  split; [reflexivity|]. split; [exists forecast; auto|].
  split; [exact Hss|]. rewrite Hss. reflexivity.
Qed.

End SafetyStockFacts.


(** * Further properties *)

(** ** The demand history *)

Module HistoryFacts.

Lemma history_unfold d pid days :
  get_historical_demand d pid days
  = groupby_date_sum
      (map (fun t => (date_of (t_timestamp t), Z.abs (t_quantity t)))
           (filter (selected_shipment d pid days) (transactions d))).
Proof. reflexivity. Qed.

Lemma int64_small z : (- 2 ^ 63 <= z < 2 ^ 63)%Z -> Py.int64 z = z.
Proof.
  intros H. unfold Py.int64. rewrite Z.mod_small; lia.
Qed.

Lemma sum_Z_nonneg xs : Forall (fun x => (0 <= x)%Z) xs -> (0 <= Py.sum_Z xs)%Z.
Proof.
  induction 1 as [|x xs Hx _ IH]; simpl; lia.
Qed.

Lemma demand_sum_nonneg (rows : frame) :
  Forall (fun r => (0 <= snd r)%Z) rows -> (0 <= Py.sum_Z (demand rows))%Z.
Proof.
  intros H. apply sum_Z_nonneg. unfold demand. apply Forall_map. exact H.
Qed.

(** One step of the grouping below the [int64] bound: the sum of the date
    does not wrap, so the step keeps the demands non-negative and adds [q]
    to their total. *)
Lemma add_demand_exact d q rows :
  (0 <= q)%Z ->
  Forall (fun r => (0 <= snd r)%Z) rows ->
  (q + Py.sum_Z (demand rows) < 2 ^ 63)%Z ->
  Forall (fun r => (0 <= snd r)%Z) (add_demand d q rows)
  /\ Py.sum_Z (demand (add_demand d q rows)) = (q + Py.sum_Z (demand rows))%Z.
Proof.
  intros Hq Hrows. induction Hrows as [|[d' q'] rest Hq' Hrest IH]; simpl; intros Hb.
  - split; [repeat constructor; exact Hq | reflexivity].
  - pose proof (demand_sum_nonneg rest Hrest) as Hsum. simpl in Hq'.
    unfold demand in Hsum.
    destruct (d <? d')%Z; [|destruct (d =? d')%Z].
    + split; [|simpl; lia].
      constructor; [exact Hq | constructor; assumption].
    + rewrite int64_small by (unfold demand in Hb; lia).
      split; [|simpl; lia].
      constructor; [simpl; lia | exact Hrest].
    + destruct IH as [IHn IHs]; [unfold demand in *; lia|].
      split; [constructor; assumption|].
      simpl. unfold demand in *. rewrite IHs. lia.
Qed.

Lemma groupby_exact rows acc :
  Forall (fun r => (0 <= snd r)%Z) rows ->
  Forall (fun r => (0 <= snd r)%Z) acc ->
  (Py.sum_Z (map snd rows) + Py.sum_Z (demand acc) < 2 ^ 63)%Z ->
  Forall (fun r => (0 <= snd r)%Z)
         (fold_left (fun a r => add_demand (fst r) (snd r) a) rows acc)
  /\ Py.sum_Z (demand (fold_left (fun a r => add_demand (fst r) (snd r) a) rows acc))
     = (Py.sum_Z (map snd rows) + Py.sum_Z (demand acc))%Z.
Proof.
  intros Hrows. revert acc.
  induction Hrows as [|r rows Hr Hrest IH]; simpl; intros acc Hacc Hb.
  - split; [exact Hacc | reflexivity].
  - assert (Hsum : (0 <= Py.sum_Z (map snd rows))%Z)
      by (apply sum_Z_nonneg, Forall_map; exact Hrest).
    destruct (add_demand_exact (fst r) (snd r) acc Hr Hacc) as [Hn Hs]; [lia|].
    destruct (IH _ Hn) as [IHn IHs]; [rewrite Hs; lia|].
    split; [exact IHn|]. rewrite IHs, Hs. lia.
Qed.

Lemma history_exact d pid days :
  within_int64 d pid days ->
  Forall (fun r => (0 <= snd r)%Z) (get_historical_demand d pid days)
  /\ Py.sum_Z (demand (get_historical_demand d pid days))
     = Py.sum_Z (shipped_quantities d pid days).
Proof.
  unfold within_int64, shipped_quantities. intros Hb.
  rewrite history_unfold. unfold groupby_date_sum.
  destruct (groupby_exact
              (map (fun t => (date_of (t_timestamp t), Z.abs (t_quantity t)))
                   (filter (selected_shipment d pid days) (transactions d))) [])
    as [Hn Hs].
  - apply Forall_forall. intros r Hr. apply in_map_iff in Hr.
    destruct Hr as (t & <- & _). simpl. apply Z.abs_nonneg.
  - constructor.
  - rewrite map_map. simpl. lia.
  - split; [exact Hn|]. rewrite Hs, map_map. simpl. lia.
Qed.

Lemma history_nonneg d pid days :
  within_int64 d pid days ->
  Forall (fun r => (0 <= snd r)%Z) (get_historical_demand d pid days).
Proof.
  intros H. apply (proj1 (history_exact d pid days H)).
Qed.

(** X1: the history holds one row per calendar date, in strictly increasing
    order of date; when the absolute quantities of the selected shipments
    add up to less than [2 ^ 63], so that no [int64] sum of a date wraps
    around, every demand is non-negative, whatever the signs of the stored
    quantities. *)
Theorem history_rows_ordered_nonnegative d pid days :
  increasing (get_historical_demand d pid days)
  /\ (within_int64 d pid days ->
      Forall (fun r => (0 <= snd r)%Z) (get_historical_demand d pid days)).
Proof.
  split; [apply FrameFacts.history_increasing | apply history_nonneg].
Qed.

Lemma history_rows_ordered_nonnegative_witness :
  within_int64 (Samples.steady_store 3) 1 90
  /\ increasing (get_historical_demand (Samples.steady_store 3) 1 90)
  /\ Forall (fun r => (0 <= snd r)%Z) (get_historical_demand (Samples.steady_store 3) 1 90).
Proof.
  assert (H : within_int64 (Samples.steady_store 3) 1 90) by (vm_compute; reflexivity).
  split; [exact H|].
  destruct (history_rows_ordered_nonnegative (Samples.steady_store 3) 1 90) as [Hinc Hnn].
  split; [exact Hinc | exact (Hnn H)].
Defined.

(** Above the bound the sum of a date wraps: two shipments of [2 ^ 62]
    units on one day make a demand of [- 2 ^ 63]. *)
Lemma bulk_store_history :
  get_historical_demand Samples.bulk_store 1 90 = [(99, - 2 ^ 63)]%Z.
Proof. vm_compute. reflexivity. Qed.

(** X2: when the absolute quantities of the selected shipments add up to
    less than [2 ^ 63], the demands of the history add up to the absolute
    quantities of the shipments of the product inside the window: grouping
    by date loses nothing and counts nothing twice. *)
Theorem history_total_demand d pid days :
  within_int64 d pid days ->
  Py.sum_Z (demand (get_historical_demand d pid days))
  = Py.sum_Z (map (fun t => Z.abs (t_quantity t))
                  (filter (selected_shipment d pid days) (transactions d))).
Proof.
  intros H. apply (proj2 (history_exact d pid days H)).
Qed.

Lemma history_total_demand_witness :
  within_int64 (Samples.steady_store 3) 1 90
  /\ Py.sum_Z (demand (get_historical_demand (Samples.steady_store 3) 1 90)) = 30%Z.
Proof.
  assert (H : within_int64 (Samples.steady_store 3) 1 90) by (vm_compute; reflexivity).
  split; [exact H|].
  rewrite (history_total_demand (Samples.steady_store 3) 1 90 H). reflexivity.
Defined.

Lemma add_demand_dates_iff d q rows day :
  In day (map fst (add_demand d q rows)) <-> day = d \/ In day (map fst rows).
Proof.
  split; [apply FrameFacts.add_demand_dates|].
  induction rows as [|[d' q'] rest IH]; simpl.
  - intros [-> | []]. auto.
  - destruct (d <? d')%Z eqn:Hlt; [|destruct (d =? d')%Z eqn:Heq]; simpl.
    + intros [-> | [-> | H]]; auto.
    + apply Z.eqb_eq in Heq. subst d'. intros [-> | [-> | H]]; auto.
    + intros [-> | [-> | H]]; auto.
Qed.

Lemma groupby_dates rows acc day :
  In day (map fst (fold_left (fun a r => add_demand (fst r) (snd r) a) rows acc))
  <-> In day (map fst rows) \/ In day (map fst acc).
Proof.
  revert acc. induction rows as [|r rows IH]; simpl; intros acc.
  - tauto.
  - rewrite IH, add_demand_dates_iff. intuition.
Qed.

Lemma history_dates d pid days day :
  In day (map fst (get_historical_demand d pid days))
  <-> exists t, In t (transactions d)
                /\ selected_shipment d pid days t = true
                /\ date_of (t_timestamp t) = day.
Proof.
  rewrite history_unfold. unfold groupby_date_sum. rewrite groupby_dates.
  rewrite map_map. simpl. split.
  - intros [H | []]. apply in_map_iff in H. destruct H as (t & Hd & Ht).
    apply filter_In in Ht. exists t. tauto.
  - intros (t & Hin & Hsel & Hd). left. apply in_map_iff. exists t.
    split; [exact Hd|]. apply filter_In. auto.
Qed.

(** X3: a date has a row in the history exactly when the store holds a
    transaction of that date that is a shipment of the product inside the
    window; receipts, adjustments and other products never show. *)
Theorem history_date_has_row d pid days day :
  (exists q, In (day, q) (get_historical_demand d pid days))
  <-> exists t, In t (transactions d)
                /\ t_product_id t = pid
                /\ t_transaction_type t = "shipment"%string
                /\ (utcnow d - Z.of_nat days * 86400 <= t_timestamp t)%Z
                /\ date_of (t_timestamp t) = day.
Proof.
  assert (Hsel : forall t, selected_shipment d pid days t = true
                           <-> t_product_id t = pid
                               /\ t_transaction_type t = "shipment"%string
                               /\ (utcnow d - Z.of_nat days * 86400 <= t_timestamp t)%Z).
  { intros t. unfold selected_shipment, seconds_per_day.
    rewrite !andb_true_iff, Z.eqb_eq, String.eqb_eq, Z.leb_le. tauto. }
  split.
  - intros (q & Hq).
    assert (Hday : In day (map fst (get_historical_demand d pid days)))
      by (apply in_map_iff; exists (day, q); auto).
    apply history_dates in Hday. destruct Hday as (t & Hin & Hs & Hd).
    apply Hsel in Hs. exists t. tauto.
  - intros (t & Hin & Hp & Hty & Hts & Hd).
    assert (Hday : In day (map fst (get_historical_demand d pid days))).
    { apply history_dates. exists t. rewrite Hsel. tauto. }
    apply in_map_iff in Hday. destruct Hday as ([day' q] & Hfst & Hrow).
    simpl in Hfst. subst day'. exists q. exact Hrow.
Qed.

Lemma increasing_NoDup (df : frame) : increasing df -> NoDup (map fst df).
Proof.
  unfold increasing. induction 1 as [|a l Hl IH Hall]; constructor; [|exact IH].
  intros Hin. rewrite Forall_forall in Hall. specialize (Hall a Hin). lia.
Qed.

Lemma selected_shipment_longer d pid days1 days2 t :
  (days1 <= days2)%nat ->
  selected_shipment d pid days1 t = true -> selected_shipment d pid days2 t = true.
Proof.
  unfold selected_shipment, seconds_per_day. intros Hle.
  rewrite !andb_true_iff, !Z.leb_le. intros [Hpt Hts]. split; [exact Hpt | nia].
Qed.

Lemma history_dates_incl d pid days1 days2 :
  (days1 <= days2)%nat ->
  incl (map fst (get_historical_demand d pid days1))
       (map fst (get_historical_demand d pid days2)).
Proof.
  intros Hle day Hday. apply history_dates in Hday.
  destruct Hday as (t & Hin & Hsel & Hd). apply history_dates.
  exists t. split; [exact Hin|]. split; [|exact Hd].
  apply (selected_shipment_longer d pid days1 days2 t Hle Hsel).
Qed.

Lemma history_length_le d pid days1 days2 :
  (days1 <= days2)%nat ->
  (length (get_historical_demand d pid days1)
   <= length (get_historical_demand d pid days2))%nat.
Proof.
  intros Hle.
  rewrite <- (length_map fst (get_historical_demand d pid days1)).
  rewrite <- (length_map fst (get_historical_demand d pid days2)).
  apply NoDup_incl_length.
  - apply increasing_NoDup, FrameFacts.history_increasing.
  - apply history_dates_incl, Hle.
Qed.

(** X4: a longer window never loses a day: every date of the history over
    [days1] days is a date of the history over [days2 >= days1] days, which
    therefore has at least as many rows. *)
Theorem history_grows_with_window d pid days1 days2 :
  (days1 <= days2)%nat ->
  (forall day, In day (map fst (get_historical_demand d pid days1)) ->
               In day (map fst (get_historical_demand d pid days2)))
  /\ (length (get_historical_demand d pid days1)
      <= length (get_historical_demand d pid days2))%nat.
Proof.
  intros Hle. split.
  - apply history_dates_incl, Hle.
  - apply history_length_le, Hle.
Qed.

Lemma history_grows_with_window_witness :
  (14 <= 90)%nat
  /\ (length (get_historical_demand (Samples.steady_store 30) 1 14)
      <= length (get_historical_demand (Samples.steady_store 30) 1 90))%nat.
Proof.
  assert (H : (14 <= 90)%nat) by lia.
  split; [exact H|].
  exact (proj2 (history_grows_with_window (Samples.steady_store 30) 1 14 90 H)).
Defined.

(** *** Resampling to daily frequency *)

Lemma sum_Z_app xs ys : Py.sum_Z (xs ++ ys) = (Py.sum_Z xs + Py.sum_Z ys)%Z.
Proof. induction xs as [|x xs IH]; simpl; lia. Qed.

Lemma sum_seq_S (f : nat -> Z) n :
  Py.sum_Z (map f (seq 0 (S n))) = (Py.sum_Z (map f (seq 0 n)) + f n)%Z.
Proof. rewrite seq_S, map_app, sum_Z_app. simpl. lia. Qed.

Lemma sum_seq_ext (f g : nat -> Z) n :
  (forall i, (i < n)%nat -> f i = g i) ->
  Py.sum_Z (map f (seq 0 n)) = Py.sum_Z (map g (seq 0 n)).
Proof.
  intros H. f_equal. apply map_ext_in. intros i Hi. apply in_seq in Hi. apply H. lia.
Qed.

(** Changing one term of a sum. *)
Lemma sum_seq_point (g : nat -> Z) q i0 n :
  Py.sum_Z (map (fun i => if (i =? i0)%nat then q else g i) (seq 0 n))
  = if (i0 <? n)%nat then (Py.sum_Z (map g (seq 0 n)) - g i0 + q)%Z
    else Py.sum_Z (map g (seq 0 n)).
Proof.
  induction n as [|n IH]; [reflexivity|].
  rewrite !sum_seq_S, IH.
  destruct (n =? i0)%nat eqn:E.
  - apply Nat.eqb_eq in E. subst i0.
    rewrite Nat.ltb_irrefl.
    assert (E1 : (n <? S n)%nat = true) by (apply Nat.ltb_lt; lia).
    rewrite E1. lia.
  - apply Nat.eqb_neq in E.
    destruct (i0 <? n)%nat eqn:E1.
    + apply Nat.ltb_lt in E1.
      assert (E2 : (i0 <? S n)%nat = true) by (apply Nat.ltb_lt; lia).
      rewrite E2. lia.
    + apply Nat.ltb_ge in E1.
      assert (E2 : (i0 <? S n)%nat = false) by (apply Nat.ltb_ge; lia).
      rewrite E2. lia.
Qed.

Lemma demand_on_cons d q rest day :
  demand_on ((d, q) :: rest) day = if (d =? day)%Z then q else demand_on rest day.
Proof. unfold demand_on. simpl. destruct (d =? day)%Z; reflexivity. Qed.

Lemma demand_on_absent (df : frame) day :
  ~ In day (map fst df) -> demand_on df day = 0%Z.
Proof.
  induction df as [|[d q] rest IH]; intros Hnot; [reflexivity|].
  rewrite demand_on_cons. simpl in Hnot.
  destruct (d =? day)%Z eqn:E.
  - apply Z.eqb_eq in E. tauto.
  - apply IH. tauto.
Qed.

Lemma demand_on_present (df : frame) day q :
  increasing df -> In (day, q) df -> demand_on df day = q.
Proof.
  unfold increasing. induction df as [|[d' q'] rest IH]; intros Hs Hin; [contradiction|].
  rewrite demand_on_cons. simpl in Hs. inversion Hs as [|? ? Hrest Hall]; subst.
  destruct Hin as [Heq | Hin].
  - injection Heq as -> ->. rewrite Z.eqb_refl. reflexivity.
  - assert (Hlt : (d' < day)%Z).
    { rewrite Forall_forall in Hall. apply Hall. apply in_map_iff. exists (day, q). auto. }
    assert (E : (d' =? day)%Z = false) by (apply Z.eqb_neq; lia).
    rewrite E. apply IH; assumption.
Qed.

(** The demands of the days [lo, lo + n) add up to the demands of the frame
    when every date of the frame lies in that range. *)
Lemma resampled_sum (df : frame) lo n :
  increasing df ->
  (forall day, In day (map fst df) -> (lo <= day < lo + Z.of_nat n)%Z) ->
  Py.sum_Z (map (fun i => demand_on df (lo + Z.of_nat i)) (seq 0 n))
  = Py.sum_Z (demand df).
Proof.
  unfold increasing. induction df as [|[d q] rest IH]; intros Hs Hrange.
  - simpl. induction (seq 0 n) as [|i l IHl]; simpl; [reflexivity | exact IHl].
  - simpl in Hs. inversion Hs as [|? ? Hrest Hall]; subst.
    assert (Hd : (lo <= d < lo + Z.of_nat n)%Z) by (apply Hrange; simpl; auto).
    rewrite (sum_seq_ext _ (fun i => if (i =? Z.to_nat (d - lo))%nat then q
                                     else demand_on rest (lo + Z.of_nat i))).
    + rewrite sum_seq_point.
      assert (E : (Z.to_nat (d - lo) <? n)%nat = true) by (apply Nat.ltb_lt; lia).
      rewrite E, Z2Nat.id by lia.
      replace (lo + (d - lo))%Z with d by lia.
      rewrite demand_on_absent.
      * rewrite IH; [simpl; lia | exact Hrest |].
        intros day Hday. apply Hrange. simpl. auto.
      * intros Hin. rewrite Forall_forall in Hall. specialize (Hall d Hin). lia.
    + intros i Hi. rewrite demand_on_cons.
      destruct (i =? Z.to_nat (d - lo))%nat eqn:E.
      * apply Nat.eqb_eq in E.
        assert (E' : (d =? lo + Z.of_nat i)%Z = true) by (apply Z.eqb_eq; lia).
        rewrite E'. reflexivity.
      * apply Nat.eqb_neq in E.
        assert (E' : (d =? lo + Z.of_nat i)%Z = false) by (apply Z.eqb_neq; lia).
        rewrite E'. reflexivity.
Qed.

Lemma increasing_last_max (l : list Z) b rest :
  StronglySorted Z.lt l -> rev l = b :: rest -> Forall (fun x => (x <= b)%Z) l.
Proof.
  revert b rest. induction l as [|a l IH]; intros b rest Hs Hrev; [constructor|].
  inversion Hs as [|? ? Hl Hall]; subst.
  simpl in Hrev. destruct (rev l) as [|b' rest'] eqn:Hr.
  - assert (l = []) by (apply (f_equal (@rev Z)) in Hr; rewrite rev_involutive in Hr;
                        exact Hr).
    subst l. simpl in Hrev. injection Hrev as <- _. repeat constructor. lia.
  - simpl in Hrev. injection Hrev as <- _.
    specialize (IH b' rest' Hl eq_refl).
    constructor; [|exact IH].
    destruct l as [|c l']; [discriminate|].
    inversion Hall as [|? ? Hac _]; subst. inversion IH as [|? ? Hcb _]; subst. lia.
Qed.

(** The shape of a resampled non-empty frame, with the bounds of its dates. *)
Lemma asfreq_increasing (df : frame) :
  increasing df -> df <> [] ->
  exists first n,
    asfreq df = map (fun i => ((first + Z.of_nat i)%Z, demand_on df (first + Z.of_nat i)))
                    (seq 0 n)
    /\ (forall day, In day (map fst df) -> (first <= day < first + Z.of_nat n)%Z).
Proof.
  intros Hs Hne. unfold asfreq.
  destruct df as [|[first q] df']; [contradiction|].
  destruct (rev ((first, q) :: df')) as [|[last q'] rest] eqn:Hr.
  - apply (f_equal (@length _)) in Hr. rewrite length_rev in Hr. discriminate.
  - exists first, (Z.to_nat (last - first + 1)). split; [reflexivity|].
    unfold increasing in Hs.
    assert (Hrev : rev (map fst ((first, q) :: df')) = last :: map fst rest)
      by (rewrite <- map_rev, Hr; reflexivity).
    pose proof (increasing_last_max _ _ _ Hs Hrev) as Hmax.
    rewrite Forall_forall in Hmax.
    intros day Hday. specialize (Hmax day Hday).
    assert (Hmin : (first <= day)%Z).
    { simpl in Hday, Hs. inversion Hs as [|? ? _ Hall]; subst.
      destruct Hday as [<- | Hday]; [lia|].
      rewrite Forall_forall in Hall. specialize (Hall day Hday). lia. }
    lia.
Qed.

Lemma asfreq_facts (df : frame) :
  increasing df ->
  Py.sum_Z (demand (asfreq df)) = Py.sum_Z (demand df)
  /\ (forall row, In row df -> In row (asfreq df))
  /\ (forall day q, In (day, q) (asfreq df) -> ~ In day (map fst df) -> q = 0%Z).
Proof.
  intros Hs. destruct df as [|r df'] eqn:Hdf.
  - simpl. repeat split; intros; contradiction.
  - rewrite <- Hdf in *.
    destruct (asfreq_increasing df Hs) as (first & n & Hshape & Hrange);
      [rewrite Hdf; discriminate|].
    rewrite Hshape. repeat split.
    + unfold demand at 1. rewrite map_map. simpl.
      apply resampled_sum; assumption.
    + intros [day q] Hin.
      assert (Hday : In day (map fst df)) by (apply in_map_iff; exists (day, q); auto).
      specialize (Hrange day Hday).
      apply in_map_iff. exists (Z.to_nat (day - first)). split.
      * rewrite Z2Nat.id by lia. replace (first + (day - first))%Z with day by lia.
        rewrite (demand_on_present df day q Hs Hin). reflexivity.
      * apply in_seq. lia.
    + intros day q Hin Hnot. apply in_map_iff in Hin.
      destruct Hin as (i & Hi & _). injection Hi as Hd <-.
      rewrite Hd. apply demand_on_absent, Hnot.
Qed.

(** X5: resampling the history to daily frequency keeps every recorded row,
    gives demand zero to every other day, and leaves the total demand
    unchanged. *)
Theorem resampling_keeps_history d pid days :
  Py.sum_Z (demand (asfreq (get_historical_demand d pid days)))
  = Py.sum_Z (demand (get_historical_demand d pid days))
  /\ (forall row, In row (get_historical_demand d pid days) ->
                  In row (asfreq (get_historical_demand d pid days)))
  /\ (forall day q, In (day, q) (asfreq (get_historical_demand d pid days)) ->
                    ~ In day (map fst (get_historical_demand d pid days)) -> q = 0%Z).
Proof. apply asfreq_facts, FrameFacts.history_increasing. Qed.

End HistoryFacts.


(** ** The forecasting methods *)

Module MethodFacts.

Import PyFacts.

Lemma sum_Z_constant k xs :
  Forall (fun x => x = k) xs -> Py.sum_Z xs = (Z.of_nat (length xs) * k)%Z.
Proof.
  induction 1 as [|x xs Hx _ IH]; [reflexivity|].
  simpl Py.sum_Z. simpl length. rewrite IH, Hx. lia.
Qed.

Lemma mean_Z_constant k xs :
  xs <> [] -> Forall (fun x => x = k) xs -> Py.mean_Z xs = IZR k.
Proof.
  intros Hne Hall. unfold Py.mean_Z. rewrite (sum_Z_constant k xs Hall).
  rewrite mult_IZR, <- INR_IZR_INZ.
  assert (Hlen : 0 < INR (length xs)).
  { apply lt_0_INR. destruct xs; [contradiction | simpl; lia]. }
  field. lra.
Qed.

Lemma mean_Z_nonneg xs : Forall (fun x => (0 <= x)%Z) xs -> 0 <= Py.mean_Z xs.
Proof.
  intros Hall. unfold Py.mean_Z.
  pose proof (IZR_le _ _ (HistoryFacts.sum_Z_nonneg xs Hall)) as Hs.
  destruct xs as [|x xs'].
  - simpl. unfold Rdiv. rewrite Rmult_0_l. lra.
  - apply Rmult_le_pos; [exact Hs|]. left. apply Rinv_0_lt_compat, lt_0_INR. simpl. lia.
Qed.

Lemma Forall_skipn {A} (P : A -> Prop) n (l : list A) : Forall P l -> Forall P (skipn n l).
Proof.
  intros H. apply Forall_forall. intros x Hx.
  rewrite Forall_forall in H. apply H.
  rewrite <- (firstn_skipn n l). apply in_or_app. right. exact Hx.
Qed.

Lemma demand_nonneg d pid days :
  within_int64 d pid days ->
  Forall (fun x => (0 <= x)%Z) (demand (get_historical_demand d pid days)).
Proof.
  intros Hb. unfold demand. apply Forall_forall. intros x Hx. apply in_map_iff in Hx.
  destruct Hx as (r & <- & Hr).
  pose proof (HistoryFacts.history_nonneg d pid days Hb) as Hall.
  rewrite Forall_forall in Hall. apply Hall, Hr.
Qed.

(** X6: for a window of at least one row whose cut-off, [2 * window] days
    before the reading of the clock, is a representable [datetime], the
    moving average fails exactly when the trailing [2 * window] days hold
    fewer than [window] days with a shipment, and the error names the window
    as the minimum. *)
Theorem moving_average_fails_iff_short d pid h w :
  (1 <= w)%nat ->
  representable (utcnow d) ->
  representable (cutoff_date d (w * 2)) ->
  (Py.is_error (moving_average_forecast d pid h w) = true
   <-> (length (get_historical_demand d pid (w * 2)) < w)%nat)
  /\ ((length (get_historical_demand d pid (w * 2)) < w)%nat ->
      moving_average_forecast d pid h w
      = inl ("Insufficient data. Need at least " ++ Py.str_of_nat w
             ++ " days of data.")%string).
Proof.
  intros Hw _ _. rewrite (ForecastFacts.moving_average_outcome d pid h w Hw).
  destruct (length (get_historical_demand d pid (w * 2)) <? w)%nat eqn:E.
  - apply Nat.ltb_lt in E. simpl. split; [tauto | reflexivity].
  - apply Nat.ltb_ge in E. simpl. split; [split; [discriminate | lia] | lia].
Qed.

Lemma moving_average_fails_iff_short_witness :
  (1 <= 14)%nat
  /\ representable (utcnow (Samples.steady_store 10))
  /\ representable (cutoff_date (Samples.steady_store 10) (14 * 2))
  /\ (length (get_historical_demand (Samples.steady_store 10) 1 (14 * 2)) < 14)%nat
  /\ moving_average_forecast (Samples.steady_store 10) 1 7 14
     = inl "Insufficient data. Need at least 14 days of data."%string.
Proof.
  assert (Hw : (1 <= 14)%nat) by lia.
  assert (Hlen : (length (get_historical_demand (Samples.steady_store 10) 1 (14 * 2)) < 14)%nat)
    by (vm_compute; lia).
  assert (Hnow : representable (utcnow (Samples.steady_store 10)))
    by (vm_compute; split; discriminate).
  assert (Hcut : representable (cutoff_date (Samples.steady_store 10) (14 * 2)))
    by (vm_compute; split; discriminate).
  split; [exact Hw|]. split; [exact Hnow|]. split; [exact Hcut|]. split; [exact Hlen|].
  exact (proj2 (moving_average_fails_iff_short (Samples.steady_store 10) 1 7 14
                  Hw Hnow Hcut) Hlen).
Defined.

(** X7: when every recorded day of the trailing [2 * window] days has the
    same demand [k] and there are at least [window] such days, the moving
    average forecasts exactly [k] a day and [k * horizon] in total. *)
Theorem moving_average_of_constant_demand d pid h w k :
  (1 <= w <= length (get_historical_demand d pid (w * 2)))%nat ->
  (forall row, In row (get_historical_demand d pid (w * 2)) -> snd row = k) ->
  exists r,
    moving_average_forecast d pid h w = inr r
    /\ daily_average r = IZR k
    /\ total_forecast r = IZR k * INR h.
Proof.
  intros [Hw Hlen] Hconst. rewrite (ForecastFacts.moving_average_outcome d pid h w Hw).
  assert (E : (length (get_historical_demand d pid (w * 2)) <? w)%nat = false)
    by (apply Nat.ltb_ge; lia).
  rewrite E. eexists. split; [reflexivity|]. simpl.
  assert (Hmean : Py.mean_Z (skipn (length (get_historical_demand d pid (w * 2)) - w)
                                   (demand (get_historical_demand d pid (w * 2)))) = IZR k).
  { apply mean_Z_constant.
    - intros Hnil. apply (f_equal (@length Z)) in Hnil.
      rewrite length_skipn in Hnil. unfold demand in Hnil. rewrite length_map in Hnil.
      simpl in Hnil. lia.
    - apply Forall_skipn. unfold demand. apply Forall_forall. intros x Hx.
      apply in_map_iff in Hx. destruct Hx as (row & <- & Hrow). apply Hconst, Hrow. }
  rewrite Hmean. split; reflexivity.
Qed.

Lemma moving_average_of_constant_demand_witness :
  (1 <= 14 <= length (get_historical_demand (Samples.steady_store 14) 1 (14 * 2)))%nat
  /\ exists r,
       moving_average_forecast (Samples.steady_store 14) 1 7 14 = inr r
       /\ daily_average r = IZR 10
       /\ total_forecast r = IZR 10 * INR 7.
Proof.
  assert (Hlen : (1 <= 14 <= length (get_historical_demand (Samples.steady_store 14) 1
                                                            (14 * 2)))%nat)
    by (vm_compute; lia).
  split; [exact Hlen|].
  apply (moving_average_of_constant_demand (Samples.steady_store 14) 1 7 14 10 Hlen).
  intros row Hrow. vm_compute in Hrow.
  repeat (destruct Hrow as [<- | Hrow]; [reflexivity|]). contradiction.
Defined.

(** X8: for a window of at least one row and a horizon that is not
    negative (a natural number), when the absolute quantities of the
    shipments of the trailing [2 * window] days add up to less than
    [2 ^ 63] (no [int64] sum of a date wraps around), a returned
    moving-average result has [daily_average >= 0] and
    [total_forecast >= 0]. *)
Theorem moving_average_nonnegative d pid (h w : nat) r :
  (1 <= w)%nat ->
  within_int64 d pid (w * 2) ->
  moving_average_forecast d pid h w = inr r ->
  0 <= daily_average r /\ 0 <= total_forecast r.
Proof.
  intros Hw Hb. rewrite (ForecastFacts.moving_average_outcome d pid h w Hw).
  destruct (length (get_historical_demand d pid (w * 2)) <? w)%nat; [discriminate|].
  intros H. injection H as <-. simpl.
  assert (Hmean : 0 <= Py.mean_Z (skipn (length (get_historical_demand d pid (w * 2)) - w)
                                        (demand (get_historical_demand d pid (w * 2)))))
    by (apply mean_Z_nonneg, Forall_skipn, demand_nonneg, Hb).
  split; [exact Hmean|]. apply Rmult_le_pos; [exact Hmean | apply pos_INR].
Qed.

Lemma moving_average_nonnegative_witness :
  (1 <= 14)%nat
  /\ within_int64 (Samples.steady_store 14) 1 (14 * 2)
  /\ exists r,
       moving_average_forecast (Samples.steady_store 14) 1 7 14 = inr r
       /\ 0 <= daily_average r /\ 0 <= total_forecast r.
Proof.
  assert (Hw : (1 <= 14)%nat) by lia.
  assert (H : exists r, moving_average_forecast (Samples.steady_store 14) 1 7 14 = inr r)
    by (eexists; vm_compute; reflexivity).
  assert (Hb : within_int64 (Samples.steady_store 14) 1 (14 * 2))
    by (vm_compute; reflexivity).
  destruct H as [r Hr]. split; [exact Hw|]. split; [exact Hb|].
  exists r. split; [exact Hr|].
  exact (moving_average_nonnegative (Samples.steady_store 14) 1 7 14 r Hw Hb Hr).
Defined.

(** *** Exponential smoothing *)

Lemma exponential_smoothing_short hw d pid h :
  (length (get_historical_demand d pid 90) < 14)%nat ->
  exponential_smoothing_forecast hw d pid h
  = inl "Insufficient data. Need at least 14 days of data."%string.
Proof.
  intros H. apply Nat.ltb_lt in H. unfold exponential_smoothing_forecast.
  rewrite H. reflexivity.
Qed.

(** X9: exponential smoothing fails with the 14-day message when the
    90-day history has fewer than 14 rows; with 14 rows or more, when the
    fit with trend and the trend-free fit both raise, it fails with the
    message of the second exception: the first one is swallowed, and no
    other estimate is substituted. *)
Theorem exponential_smoothing_failures hw d pid h :
  ((length (get_historical_demand d pid 90) < 14)%nat ->
     exponential_smoothing_forecast hw d pid h
     = inl "Insufficient data. Need at least 14 days of data."%string)
  /\ ((14 <= length (get_historical_demand d pid 90))%nat ->
      forall e1 e2,
        hw additive_trend_model (demand (asfreq (get_historical_demand d pid 90))) h
        = inl e1 ->
        hw es_fallback_model (demand (asfreq (get_historical_demand d pid 90))) h
        = inl e2 ->
        exponential_smoothing_forecast hw d pid h
        = inl ("Forecast calculation failed: " ++ Py.str e2)%string).
Proof.
  split; [apply exponential_smoothing_short|].
  intros Hlen e1 e2 H1 H2.
  rewrite (ForecastFacts.exponential_smoothing_unfold hw d pid h Hlen). cbv zeta.
  rewrite H1, H2. reflexivity.
Qed.

Lemma exponential_smoothing_failures_witness :
  ((length (get_historical_demand (Samples.steady_store 10) 1 90) < 14)%nat
   /\ exponential_smoothing_forecast Samples.flat_holt_winters (Samples.steady_store 10) 1 7
      = inl "Insufficient data. Need at least 14 days of data."%string)
  /\ ((14 <= length (get_historical_demand (Samples.steady_store 14) 1 90))%nat
      /\ exponential_smoothing_forecast Samples.failing_holt_winters
           (Samples.steady_store 14) 1 7
         = inl "Forecast calculation failed: optimization failed to converge"%string).
Proof.
  assert (H10 : (length (get_historical_demand (Samples.steady_store 10) 1 90) < 14)%nat)
    by (vm_compute; lia).
  assert (H14 : (14 <= length (get_historical_demand (Samples.steady_store 14) 1 90))%nat)
    by (vm_compute; lia).
  split.
  - split; [exact H10|].
    exact (proj1 (exponential_smoothing_failures Samples.flat_holt_winters
                    (Samples.steady_store 10) 1 7) H10).
  - split; [exact H14|].
    exact (proj2 (exponential_smoothing_failures Samples.failing_holt_winters
                    (Samples.steady_store 14) 1 7) H14
                 (Py.LibraryError "optimization failed to converge")
                 (Py.LibraryError "optimization failed to converge")
                 eq_refl eq_refl).
Defined.

(** X10: a result of exponential smoothing rests on at least 14 daily
    values and a horizon of at least one day, and its per-day series is the
    forecast of the fit with trend, or of the trend-free fit after the fit
    with trend raised; the fixed-alpha weighted average of the short-series
    branch is never returned. *)
Theorem exponential_smoothing_result hw d pid h r :
  exponential_smoothing_forecast hw d pid h = inr r ->
  (14 <= data_points r)%nat
  /\ (1 <= h)%nat
  /\ forecast_method r = "exponential_smoothing"%string
  /\ (forecast_series r
       = match hw additive_trend_model
                  (demand (asfreq (get_historical_demand d pid 90))) h with
         | inr forecast => Some forecast
         | inl _ =>
             match hw es_fallback_model
                      (demand (asfreq (get_historical_demand d pid 90))) h with
             | inr forecast => Some forecast
             | inl _ => None
             end
         end).
Proof.
  intros Hr.
  destruct (Nat.lt_ge_cases (length (get_historical_demand d pid 90)) 14) as [Hlt | Hge].
  - rewrite (exponential_smoothing_short hw d pid h Hlt) in Hr. discriminate.
  - rewrite (ForecastFacts.exponential_smoothing_unfold hw d pid h Hge) in Hr.
    cbv zeta in Hr.
    pose proof (FrameFacts.asfreq_history_length d pid 90) as Hspan.
    assert (Hh : forall forecast,
               Py.catching "Forecast calculation failed: "
                 (daily <- Py.div (Py.sum_R forecast) (INR h) ;;
                  Py.ret (inr {| product_id := pid;
                                 forecast_method := "exponential_smoothing";
                                 horizon_days := h;
                                 total_forecast := Py.sum_R forecast;
                                 daily_average := daily;
                                 forecast_series := Some forecast;
                                 trend_slope := None;
                                 parameters := [("alpha"%string, 3 / 10)];
                                 data_points :=
                                   length (demand (asfreq (get_historical_demand d pid 90))) |}))
               = inr r ->
               (14 <= data_points r)%nat /\ (1 <= h)%nat
               /\ forecast_method r = "exponential_smoothing"%string
               /\ forecast_series r = Some forecast).
    { intros forecast H. destruct (Py.div _ _) as [e | q] eqn:Hq; [discriminate|].
      apply div_inv in Hq. destruct Hq as [Hne _].
      simpl in H. injection H as <-. simpl. unfold demand. rewrite length_map.
      repeat split; try lia.
      destruct h; [simpl in Hne; contradiction | lia]. }
    destruct (hw additive_trend_model _ h) as [e1 | f1].
    + destruct (hw es_fallback_model _ h) as [e2 | f2]; [discriminate|].
      apply Hh, Hr.
    + apply Hh, Hr.
Qed.

Lemma exponential_smoothing_of_first_fit hw d pid h forecast :
  (14 <= length (get_historical_demand d pid 90))%nat ->
  (1 <= h)%nat ->
  hw additive_trend_model (demand (asfreq (get_historical_demand d pid 90))) h
  = inr forecast ->
  exists r, exponential_smoothing_forecast hw d pid h = inr r
            /\ forecast_series r = Some forecast
            /\ total_forecast r = Py.sum_R forecast
            /\ daily_average r = Py.sum_R forecast / INR h.
Proof.
  intros Hlen Hh Hf. pose proof (INR_pos_of_le h Hh) as Hpos.
  rewrite (ForecastFacts.exponential_smoothing_unfold hw d pid h Hlen). cbv zeta.
  rewrite Hf. simpl. rewrite div_ok by lra. simpl.
  eexists. repeat split.
Qed.

Lemma steady_fortnight_smoothing :
  exists r,
    exponential_smoothing_forecast Samples.flat_holt_winters (Samples.steady_store 14) 1 7
    = inr r.
Proof.
  destruct (exponential_smoothing_of_first_fit Samples.flat_holt_winters
              (Samples.steady_store 14) 1 7
              (repeat (Py.mean_Z (repeat 10%Z 14)) 7)) as (r & Hr & _).
  - vm_compute. lia.
  - lia.
  - vm_compute. reflexivity.
  - exists r. exact Hr.
Qed.

Lemma exponential_smoothing_result_witness :
  exists r,
    exponential_smoothing_forecast Samples.flat_holt_winters (Samples.steady_store 14) 1 7
    = inr r
    /\ (14 <= data_points r)%nat /\ (1 <= 7)%nat.
Proof.
  destruct steady_fortnight_smoothing as (r & Hr).
  exists r. split; [exact Hr|].
  destruct (exponential_smoothing_result Samples.flat_holt_winters
              (Samples.steady_store 14) 1 7 r Hr) as (Hpoints & Hh & _).
  split; assumption.
Defined.

End MethodFacts.


(** ** Trend analysis: the fitted line *)

Module TrendLineFacts.

Import PyFacts.

(** With at least 10 rows of history the result is built from the
    least-squares line over the resampled frame. *)
Lemma trend_analysis_outcome d pid h :
  (10 <= length (get_historical_demand d pid 60))%nat ->
  trend_analysis_forecast d pid h =
  let df := asfreq (get_historical_demand d pid 60) in
  let x := indices (length df) in
  let y := demand df in
  let values := map (clamped_line (ols_slope x y) (ols_intercept x y))
                    (seq (length df) h) in
  inr {| product_id := pid;
         forecast_method := "trend_analysis";
         horizon_days := h;
         total_forecast := Py.sum_R values;
         daily_average := Py.sum_R values / INR h;
         forecast_series := Some values;
         trend_slope := Some (ols_slope x y);
         parameters := [("slope"%string, ols_slope x y);
                        ("intercept"%string, ols_intercept x y)];
         data_points := length df |}.
Proof.
  intros Hlen. unfold trend_analysis_forecast.
  assert (E : (length (get_historical_demand d pid 60) <? 10)%nat = false)
    by (apply Nat.ltb_ge; lia).
  rewrite E. reflexivity.
Qed.

Lemma indices_length n : length (indices n) = n.
Proof. unfold indices. rewrite length_map, length_seq. reflexivity. Qed.

Lemma sum_products_map {A} (f g : A -> Z) l :
  sum_products (map f l) (map g l) = Py.sum_Z (map (fun a => (f a * g a)%Z) l).
Proof.
  unfold sum_products. induction l as [|a l IH]; [reflexivity|].
  simpl in *. rewrite IH. reflexivity.
Qed.

Lemma sum_indices n : (2 * Py.sum_Z (indices n) = Z.of_nat n * (Z.of_nat n - 1))%Z.
Proof.
  unfold indices. induction n as [|n IH]; [reflexivity|].
  rewrite HistoryFacts.sum_seq_S. nia.
Qed.

Lemma sum_squares n :
  (6 * sum_products (indices n) (indices n)
   = (Z.of_nat n - 1) * Z.of_nat n * (2 * Z.of_nat n - 1))%Z.
Proof.
  unfold indices. rewrite sum_products_map.
  induction n as [|n IH]; [reflexivity|].
  rewrite HistoryFacts.sum_seq_S. nia.
Qed.

Lemma ols_denominator_closed n :
  (12 * ols_denominator (indices n)
   = Z.of_nat n * Z.of_nat n * (Z.of_nat n * Z.of_nat n - 1))%Z.
Proof.
  unfold ols_denominator. rewrite indices_length.
  pose proof (sum_indices n) as H1. pose proof (sum_squares n) as H2. nia.
Qed.

Lemma ols_denominator_pos n : (2 <= n)%nat -> (0 < ols_denominator (indices n))%Z.
Proof. intros Hn. pose proof (ols_denominator_closed n). nia. Qed.

(** X11: with at least 10 rows of history, trend analysis divides by
    [n * sum(x*x) - sum(x) * sum(x)] over the indices [0 .. n-1] of the
    resampled frame; that number is [n^2 * (n^2 - 1) / 12], hence positive,
    so the returned slope is a well-defined quotient. *)
Theorem trend_slope_well_defined d pid h :
  (10 <= length (get_historical_demand d pid 60))%nat ->
  exists r num den,
    trend_analysis_forecast d pid h = inr r
    /\ trend_slope r = Some (IZR num / IZR den)
    /\ (0 < den)%Z
    /\ (12 * den
        = Z.of_nat (length (asfreq (get_historical_demand d pid 60)))
          * Z.of_nat (length (asfreq (get_historical_demand d pid 60)))
          * (Z.of_nat (length (asfreq (get_historical_demand d pid 60)))
             * Z.of_nat (length (asfreq (get_historical_demand d pid 60))) - 1))%Z.
Proof.
  intros Hlen. rewrite (trend_analysis_outcome d pid h Hlen). cbv zeta.
  pose proof (FrameFacts.asfreq_history_length d pid 60) as Hspan.
  eexists. eexists. eexists. split; [reflexivity|]. simpl.
  split; [unfold ols_slope; reflexivity|].
  split.
  - apply ols_denominator_pos. lia.
  - apply ols_denominator_closed.
Qed.

Lemma trend_slope_well_defined_witness :
  (10 <= length (get_historical_demand (Samples.steady_store 10) 1 60))%nat
  /\ exists r num den,
       trend_analysis_forecast (Samples.steady_store 10) 1 7 = inr r
       /\ trend_slope r = Some (IZR num / IZR den)
       /\ (0 < den)%Z.
Proof.
  assert (H : (10 <= length (get_historical_demand (Samples.steady_store 10) 1 60))%nat)
    by (vm_compute; lia).
  split; [exact H|].
  destruct (trend_slope_well_defined (Samples.steady_store 10) 1 7 H)
    as (r & num & den & Hr & Hs & Hpos & _).
  exists r, num, den. auto.
Defined.

Lemma sum_products_constant c xs ys :
  length ys = length xs -> Forall (fun y => y = c) ys ->
  sum_products xs ys = (c * Py.sum_Z xs)%Z.
Proof.
  unfold sum_products. revert ys. induction xs as [|x xs IH]; intros ys Hlen Hall.
  - destruct ys; simpl; lia.
  - destruct ys as [|y ys]; [discriminate|].
    inversion Hall as [|? ? Hy Hys]; subst. simpl in *.
    rewrite (IH ys) by (try lia; assumption). lia.
Qed.

(** The line through a constant series is flat. *)
Lemma ols_constant c n ys :
  (1 <= n)%nat -> length ys = n -> Forall (fun y => y = c) ys ->
  ols_slope (indices n) ys = 0 /\ ols_intercept (indices n) ys = IZR c.
Proof.
  intros Hn Hlen Hall.
  assert (Hslope : ols_slope (indices n) ys = 0).
  { unfold ols_slope. rewrite indices_length.
    rewrite (sum_products_constant c) by (rewrite ?indices_length; assumption).
    rewrite (MethodFacts.sum_Z_constant c ys Hall), Hlen.
    replace (Z.of_nat n * (c * Py.sum_Z (indices n))
             - Py.sum_Z (indices n) * (Z.of_nat n * c))%Z with 0%Z by lia.
    unfold Rdiv. apply Rmult_0_l. }
  split; [exact Hslope|].
  unfold ols_intercept. rewrite Hslope, indices_length.
  rewrite (MethodFacts.sum_Z_constant c ys Hall), Hlen, mult_IZR.
  assert (Hpos : 0 < IZR (Z.of_nat n)) by (apply IZR_lt; lia).
  field. lra.
Qed.

Lemma sum_R_constant (v : R) {A} (f : A -> R) l :
  (forall a, In a l -> f a = v) -> Py.sum_R (map f l) = v * INR (length l).
Proof.
  induction l as [|a l IH]; intros H.
  - simpl. lra.
  - change (Py.sum_R (map f (a :: l))) with (f a + Py.sum_R (map f l)).
    rewrite IH by (intros; apply H; right; assumption).
    rewrite (H a) by (left; reflexivity).
    change (length (a :: l)) with (S (length l)). rewrite S_INR. lra.
Qed.

(** X12: when every day of the resampled 60-day history has the same
    demand [c] (and there are at least 10 recorded days), [c] is not
    negative and the [int64] sums of the regression over the [n] resampled
    days stay in range ([n ^ 3 * (c + n) < 2 ^ 63] bounds each of them),
    trend analysis fits a slope of exactly 0 and forecasts [c] for every day
    of the horizon, [c * horizon] in total. *)
Theorem trend_of_constant_demand d pid h c :
  (10 <= length (get_historical_demand d pid 60))%nat ->
  (forall row, In row (asfreq (get_historical_demand d pid 60)) -> snd row = c) ->
  (0 <= c)%Z ->
  regression_within_int64 (length (asfreq (get_historical_demand d pid 60))) c ->
  exists r,
    trend_analysis_forecast d pid h = inr r
    /\ trend_slope r = Some 0
    /\ forecast_series r = Some (repeat (IZR c) h)
    /\ total_forecast r = IZR c * INR h.
Proof.
  intros Hlen Hconst Hc _. rewrite (trend_analysis_outcome d pid h Hlen). cbv zeta.
  pose proof (FrameFacts.asfreq_history_length d pid 60) as Hspan.
  set (df := asfreq (get_historical_demand d pid 60)) in *.
  assert (Hall : Forall (fun y => y = c) (demand df)).
  { unfold demand. apply Forall_forall. intros y Hy. apply in_map_iff in Hy.
    destruct Hy as (row & <- & Hrow). apply Hconst, Hrow. }
  destruct (ols_constant c (length df) (demand df)) as [Hslope Hintercept];
    [lia | unfold demand; apply length_map | exact Hall |].
  rewrite Hslope, Hintercept.
  assert (Hline : forall x, clamped_line 0 (IZR c) x = IZR c).
  { intros x. unfold clamped_line. rewrite Rmult_0_l, Rplus_0_l.
    apply Rmax_left. apply IZR_le in Hc. lra. }
  assert (Hvalues : map (clamped_line 0 (IZR c)) (seq (length df) h) = repeat (IZR c) h).
  { generalize (length df). induction h as [|h IH]; intros start; [reflexivity|].
    simpl. rewrite Hline, IH. reflexivity. }
  eexists. split; [reflexivity|]. simpl. rewrite Hvalues.
  split; [reflexivity|]. split; [reflexivity|].
  rewrite <- (map_id (repeat (IZR c) h)).
  rewrite (sum_R_constant (IZR c) (fun v => v)).
  - rewrite repeat_length. reflexivity.
  - intros a Ha. apply repeat_spec in Ha. exact Ha.
Qed.

Lemma trend_of_constant_demand_witness :
  (10 <= length (get_historical_demand (Samples.steady_store 10) 1 60))%nat
  /\ (0 <= 10)%Z
  /\ regression_within_int64
       (length (asfreq (get_historical_demand (Samples.steady_store 10) 1 60))) 10
  /\ exists r,
       trend_analysis_forecast (Samples.steady_store 10) 1 7 = inr r
       /\ trend_slope r = Some 0
       /\ forecast_series r = Some (repeat (IZR 10) 7)
       /\ total_forecast r = IZR 10 * INR 7.
Proof.
  assert (H : (10 <= length (get_historical_demand (Samples.steady_store 10) 1 60))%nat)
    by (vm_compute; lia).
  assert (Hc : (0 <= 10)%Z) by lia.
  assert (Hb : regression_within_int64
                 (length (asfreq (get_historical_demand (Samples.steady_store 10) 1 60))) 10)
    by (vm_compute; reflexivity).
  split; [exact H|]. split; [exact Hc|]. split; [exact Hb|].
  refine (trend_of_constant_demand (Samples.steady_store 10) 1 7 10 H _ Hc Hb).
  intros row Hrow. vm_compute in Hrow.
  repeat (destruct Hrow as [<- | Hrow]; [reflexivity|]). contradiction.
Defined.

End TrendLineFacts.


(** ** Method selection *)

Module SelectionFacts.

Import PyFacts.

Lemma smoothing_method hw d pid h r :
  exponential_smoothing_forecast hw d pid h = inr r ->
  forecast_method r = "exponential_smoothing"%string /\ forecast_series r <> None.
Proof.
  unfold exponential_smoothing_forecast.
  destruct (length (get_historical_demand d pid 90) <? 14)%nat; [discriminate|].
  match goal with |- context [Py.bind ?c _] => destruct c as [e | forecast] end;
    [discriminate|].
  simpl. destruct (Py.div _ _) as [e | q]; [discriminate|].
  simpl. intros H. injection H as <-. simpl. split; [reflexivity | discriminate].
Qed.

Lemma moving_average_method d pid h w r :
  moving_average_forecast d pid h w = inr r ->
  forecast_method r = "moving_average"%string /\ forecast_series r = None.
Proof.
  intros H. apply ForecastFacts.moving_average_success in H.
  destruct H as (last_ma & ->). split; reflexivity.
Qed.

(** X13: automatic selection never answers with trend analysis: a forecast
    returned in auto mode is a moving-average forecast without per-day series
    or an exponential-smoothing forecast with one. *)
Theorem auto_never_uses_trend hw d pid h r :
  generate_forecast hw d pid h "auto" = inr r ->
  (forecast_method r = "moving_average"%string /\ forecast_series r = None)
  \/ (forecast_method r = "exponential_smoothing"%string /\ forecast_series r <> None).
Proof.
  rewrite ForecastFacts.generate_forecast_auto_unfold. cbv zeta.
  destruct (length (get_historical_demand d pid 90) <? 7)%nat; [discriminate|].
  destruct (length (get_historical_demand d pid 90) <? 14)%nat.
  - intros H. left. apply (moving_average_method _ _ _ _ _ H).
  - destruct (exponential_smoothing_forecast hw d pid h) as [e | r'] eqn:Hes; simpl.
    + intros H. left. apply (moving_average_method _ _ _ _ _ H).
    + intros H. injection H as <-. right. apply (smoothing_method _ _ _ _ _ Hes).
Qed.

Lemma auto_never_uses_trend_witness :
  exists r,
    generate_forecast Samples.flat_holt_winters (Samples.steady_store 10) 1 7 "auto" = inr r
    /\ ((forecast_method r = "moving_average"%string /\ forecast_series r = None)
        \/ (forecast_method r = "exponential_smoothing"%string
            /\ forecast_series r <> None)).
Proof.
  assert (H : exists r, generate_forecast Samples.flat_holt_winters
                          (Samples.steady_store 10) 1 7 "auto" = inr r)
    by (eexists; vm_compute; reflexivity).
  destruct H as (r & Hr). exists r. split; [exact Hr|].
  exact (auto_never_uses_trend Samples.flat_holt_winters (Samples.steady_store 10) 1 7 r Hr).
Defined.

(** X14: when auto mode refuses for lack of data (fewer than 7 days with a
    shipment in the last 90 days), asking for a method by name does not help:
    moving average, exponential smoothing and trend analysis all fail, each
    with its own minimum in the message. *)
Theorem no_method_without_a_week_of_data hw d pid h :
  (length (get_historical_demand d pid 90) < 7)%nat ->
  generate_forecast hw d pid h "moving_average"
  = inl "Insufficient data. Need at least 14 days of data."%string
  /\ generate_forecast hw d pid h "exponential_smoothing"
     = inl "Insufficient data. Need at least 14 days of data."%string
  /\ generate_forecast hw d pid h "trend_analysis"
     = inl "Insufficient data for trend analysis. Need at least 10 days of data."%string.
Proof.
  intros Hlen.
  pose proof (HistoryFacts.history_length_le d pid 28 90 ltac:(lia)) as H28.
  pose proof (HistoryFacts.history_length_le d pid 60 90 ltac:(lia)) as H60.
  split; [|split].
  - change (generate_forecast hw d pid h "moving_average")
      with (moving_average_forecast d pid h 14).
    unfold moving_average_forecast. change (14 * 2)%nat with 28%nat.
    assert (E : (length (get_historical_demand d pid 28) <? 14)%nat = true)
      by (apply Nat.ltb_lt; lia).
    rewrite E. reflexivity.
  - change (generate_forecast hw d pid h "exponential_smoothing")
      with (exponential_smoothing_forecast hw d pid h).
    apply MethodFacts.exponential_smoothing_short. lia.
  - change (generate_forecast hw d pid h "trend_analysis")
      with (trend_analysis_forecast d pid h).
    unfold trend_analysis_forecast.
    assert (E : (length (get_historical_demand d pid 60) <? 10)%nat = true)
      by (apply Nat.ltb_lt; lia).
    rewrite E. reflexivity.
Qed.

Lemma no_method_without_a_week_of_data_witness :
  (length (get_historical_demand (Samples.steady_store 5) 1 90) < 7)%nat
  /\ generate_forecast Samples.flat_holt_winters (Samples.steady_store 5) 1 7 "trend_analysis"
     = inl "Insufficient data for trend analysis. Need at least 10 days of data."%string.
Proof.
  assert (H : (length (get_historical_demand (Samples.steady_store 5) 1 90) < 7)%nat)
    by (vm_compute; lia).
  split; [exact H|].
  exact (proj2 (proj2 (no_method_without_a_week_of_data Samples.flat_holt_winters
                         (Samples.steady_store 5) 1 7 H))).
Defined.

(** X15: auto mode is at least as available as the moving average asked
    for by name: whenever [method = "moving_average"] returns a forecast, so
    does [method = "auto"]. *)
Theorem auto_succeeds_when_moving_average_does hw d pid h r :
  generate_forecast hw d pid h "moving_average" = inr r ->
  exists r', generate_forecast hw d pid h "auto" = inr r'.
Proof.
  change (generate_forecast hw d pid h "moving_average")
    with (moving_average_forecast d pid h 14).
  intros Hr.
  assert (H28 : (14 <= length (get_historical_demand d pid 28))%nat).
  { rewrite (ForecastFacts.moving_average_outcome d pid h 14) in Hr by lia.
    change (14 * 2)%nat with 28%nat in Hr.
    destruct (length (get_historical_demand d pid 28) <? 14)%nat eqn:E; [discriminate|].
    apply Nat.ltb_ge in E. exact E. }
  pose proof (HistoryFacts.history_length_le d pid 28 90 ltac:(lia)) as H90.
  rewrite ForecastFacts.generate_forecast_auto_unfold. cbv zeta.
  assert (E7 : (length (get_historical_demand d pid 90) <? 7)%nat = false)
    by (apply Nat.ltb_ge; lia).
  assert (E14 : (length (get_historical_demand d pid 90) <? 14)%nat = false)
    by (apply Nat.ltb_ge; lia).
  rewrite E7, E14.
  destruct (exponential_smoothing_forecast hw d pid h) as [e | r'']; simpl.
  - exists r. exact Hr.
  - exists r''. reflexivity.
Qed.

Lemma auto_succeeds_when_moving_average_does_witness :
  exists r r',
    generate_forecast Samples.failing_holt_winters (Samples.steady_store 14) 1 7
                      "moving_average" = inr r
    /\ generate_forecast Samples.failing_holt_winters (Samples.steady_store 14) 1 7 "auto"
       = inr r'.
Proof.
  assert (H : exists r, generate_forecast Samples.failing_holt_winters
                          (Samples.steady_store 14) 1 7 "moving_average" = inr r)
    by (eexists; vm_compute; reflexivity).
  destruct H as (r & Hr).
  destruct (auto_succeeds_when_moving_average_does Samples.failing_holt_winters
              (Samples.steady_store 14) 1 7 r Hr) as (r' & Hr').
  exists r, r'. split; assumption.
Defined.

(** X16: with 7 to 13 days of data in the last 90 days, auto mode returns a
    forecast exactly when at least 7 of those days lie in the last 14 days:
    the moving average it delegates to reads a window of 14 days only. *)
Theorem auto_needs_recent_week hw d pid h :
  (7 <= length (get_historical_demand d pid 90) < 14)%nat ->
  (Py.is_error (generate_forecast hw d pid h "auto") = false
   <-> (7 <= length (get_historical_demand d pid 14))%nat)
  /\ ((length (get_historical_demand d pid 14) < 7)%nat ->
      generate_forecast hw d pid h "auto"
      = inl "Insufficient data. Need at least 7 days of data."%string).
Proof.
  intros [H7 H14]. rewrite ForecastFacts.generate_forecast_auto_unfold. cbv zeta.
  assert (E7 : (length (get_historical_demand d pid 90) <? 7)%nat = false)
    by (apply Nat.ltb_ge; lia).
  assert (E14 : (length (get_historical_demand d pid 90) <? 14)%nat = true)
    by (apply Nat.ltb_lt; lia).
  rewrite E7, E14.
  replace (Nat.min 7 (length (get_historical_demand d pid 90))) with 7%nat by lia.
  rewrite (ForecastFacts.moving_average_outcome d pid h 7) by lia.
  change (7 * 2)%nat with 14%nat.
  destruct (length (get_historical_demand d pid 14) <? 7)%nat eqn:E.
  - apply Nat.ltb_lt in E. simpl. split; [split; [discriminate | lia] | reflexivity].
  - apply Nat.ltb_ge in E. simpl. split; [tauto | lia].
Qed.

Lemma auto_needs_recent_week_witness :
  (7 <= length (get_historical_demand Samples.stale_store 1 90) < 14)%nat
  /\ (length (get_historical_demand Samples.stale_store 1 14) < 7)%nat
  /\ generate_forecast Samples.flat_holt_winters Samples.stale_store 1 7 "auto"
     = inl "Insufficient data. Need at least 7 days of data."%string.
Proof.
  assert (H90 : (7 <= length (get_historical_demand Samples.stale_store 1 90) < 14)%nat)
    by (vm_compute; lia).
  assert (H14 : (length (get_historical_demand Samples.stale_store 1 14) < 7)%nat)
    by (vm_compute; lia).
  split; [exact H90|]. split; [exact H14|].
  exact (proj2 (auto_needs_recent_week Samples.flat_holt_winters Samples.stale_store 1 7 H90)
               H14).
Defined.

End SelectionFacts.


(** ** Seasonal profiles *)

Module ProfileFacts.

Import PyFacts.

(** With at least 30 rows of history the call returns this profile. *)
Lemma seasonal_profile_of d pid :
  (30 <= length (get_historical_demand d pid 365))%nat ->
  get_seasonal_patterns d pid =
  let df := asfreq (get_historical_demand d pid 365) in
  let day_avg := day_of_week_mean df in
  let cv := coefficient_of_variation_of (map snd day_avg) in
  inr (Seasonal
         {| sp_product_id := pid;
            seasonal_detected := if Rlt_dec (2 / 10) cv then true else false;
            day_of_week_pattern :=
              [("Monday"%string, get_or_zero day_avg 0);
               ("Tuesday"%string, get_or_zero day_avg 1);
               ("Wednesday"%string, get_or_zero day_avg 2);
               ("Thursday"%string, get_or_zero day_avg 3);
               ("Friday"%string, get_or_zero day_avg 4);
               ("Saturday"%string, get_or_zero day_avg 5);
               ("Sunday"%string, get_or_zero day_avg 6)];
            coefficient_of_variation := cv;
            sp_data_points := length df |}).
Proof.
  intros H. unfold get_seasonal_patterns.
  pose proof (FrameFacts.asfreq_history_length d pid 365) as Hspan.
  assert (E1 : (length (get_historical_demand d pid 365) <? 30)%nat = false)
    by (apply Nat.ltb_ge; lia).
  assert (E2 : (length (asfreq (get_historical_demand d pid 365)) <? 30)%nat = false)
    by (apply Nat.ltb_ge; lia).
  rewrite E1, E2. reflexivity.
Qed.

Lemma weekday_means_of_history d pid :
  (30 <= length (get_historical_demand d pid 365))%nat ->
  (forall k, In k weekdays ->
             weekday_demands (asfreq (get_historical_demand d pid 365)) k <> [])
  /\ map snd (day_of_week_mean (asfreq (get_historical_demand d pid 365)))
     = weekday_means (asfreq (get_historical_demand d pid 365)).
Proof.
  intros H. pose proof (FrameFacts.asfreq_history_length d pid 365) as Hspan.
  assert (Hall : forall k, In k weekdays ->
            weekday_demands (asfreq (get_historical_demand d pid 365)) k <> []).
  { intros k Hk.
    destruct (SeasonalFacts.asfreq_shape (get_historical_demand d pid 365))
      as (first & n & Hshape).
    rewrite Hshape in *. rewrite length_map, length_seq in Hspan.
    apply SeasonalFacts.weekday_occurs; [lia|].
    unfold weekdays in Hk. simpl in Hk. lia. }
  split; [exact Hall|]. apply SeasonalFacts.day_of_week_mean_full, Hall.
Qed.

Lemma uniform_weekday_means (df : frame) c :
  (forall k, In k weekdays -> weekday_demands df k <> []) ->
  (forall row, In row df -> snd row = c) ->
  weekday_means df = repeat (IZR c) 7.
Proof.
  intros Hall Hconst. unfold weekday_means.
  assert (Hmean : forall k, In k weekdays -> Py.mean_Z (weekday_demands df k) = IZR c).
  { intros k Hk. apply MethodFacts.mean_Z_constant; [apply Hall, Hk|].
    unfold weekday_demands, demand. apply Forall_forall. intros y Hy.
    apply in_map_iff in Hy. destruct Hy as (row & <- & Hrow).
    apply filter_In in Hrow. apply Hconst. tauto. }
  unfold weekdays in *. simpl map.
  rewrite !Hmean by (simpl; tauto). reflexivity.
Qed.

Lemma coefficient_of_variation_uniform v :
  coefficient_of_variation_of (repeat v 7) = 0.
Proof.
  unfold coefficient_of_variation_of.
  destruct (Rlt_dec 0 (Py.mean_R (repeat v 7))) as [Hpos | _]; [|reflexivity].
  assert (Hmean : Py.mean_R (repeat v 7) = v).
  { unfold Py.mean_R. simpl. field. }
  unfold Py.std_R. rewrite Hmean. simpl.
  replace ((v - v) * (v - v) + ((v - v) * (v - v) + ((v - v) * (v - v)
           + ((v - v) * (v - v) + ((v - v) * (v - v) + ((v - v) * (v - v)
           + ((v - v) * (v - v) + 0))))))) with 0 by ring.
  unfold Rdiv at 2. rewrite Rmult_0_l, sqrt_0. unfold Rdiv. apply Rmult_0_l.
Qed.

(** X17: steady demand is never reported as seasonal: when every day of
    the resampled history (at least 30 recorded days) has the same demand,
    the coefficient of variation is 0 and [seasonal_detected] is false. *)
Theorem uniform_demand_is_not_seasonal d pid c :
  (30 <= length (get_historical_demand d pid 365))%nat ->
  (forall row, In row (asfreq (get_historical_demand d pid 365)) -> snd row = c) ->
  exists profile,
    get_seasonal_patterns d pid = inr (Seasonal profile)
    /\ coefficient_of_variation profile = 0
    /\ seasonal_detected profile = false.
Proof.
  intros Hlen Hconst. rewrite (seasonal_profile_of d pid Hlen). cbv zeta.
  destruct (weekday_means_of_history d pid Hlen) as (Hall & Hmeans).
  rewrite Hmeans, (uniform_weekday_means _ c Hall Hconst),
    coefficient_of_variation_uniform.
  eexists. split; [reflexivity|]. simpl. split; [reflexivity|].
  destruct (Rlt_dec (2 / 10) 0); [lra | reflexivity].
Qed.

Lemma uniform_demand_is_not_seasonal_witness :
  (30 <= length (get_historical_demand (Samples.steady_store 30) 1 365))%nat
  /\ exists profile,
       get_seasonal_patterns (Samples.steady_store 30) 1 = inr (Seasonal profile)
       /\ coefficient_of_variation profile = 0
       /\ seasonal_detected profile = false.
Proof.
  assert (H : (30 <= length (get_historical_demand (Samples.steady_store 30) 1 365))%nat)
    by (vm_compute; lia).
  split; [exact H|].
  apply (uniform_demand_is_not_seasonal (Samples.steady_store 30) 1 10 H).
  intros row Hrow. vm_compute in Hrow.
  repeat (destruct Hrow as [<- | Hrow]; [reflexivity|]). contradiction.
Defined.

End ProfileFacts.


(** ** Rounding *)

Module RoundFacts.

Lemma round_half_even_mono x y : x <= y -> (Py.round_half_even x <= Py.round_half_even y)%Z.
Proof.
  intros Hxy. pose proof (Zfloor_le x y Hxy) as Hf.
  pose proof (Zfloor_bound x) as Hx. pose proof (Zfloor_bound y) as Hy.
  unfold Py.round_half_even.
  destruct (Z.eq_dec (Zfloor x) (Zfloor y)) as [E | NE].
  - rewrite E in *.
    destruct (Rlt_dec (x - IZR (Zfloor y)) (1 / 2));
      destruct (Rlt_dec (y - IZR (Zfloor y)) (1 / 2)); try lia; try lra;
      destruct (Rlt_dec (1 / 2) (x - IZR (Zfloor y)));
      destruct (Rlt_dec (1 / 2) (y - IZR (Zfloor y))); try lia; try lra;
      destruct (Z.even (Zfloor y)); lia.
  - assert (Hlt : (Zfloor x + 1 <= Zfloor y)%Z) by lia.
    destruct (Rlt_dec (x - IZR (Zfloor x)) (1 / 2));
      destruct (Rlt_dec (y - IZR (Zfloor y)) (1 / 2)); try lia;
      destruct (Rlt_dec (1 / 2) (x - IZR (Zfloor x)));
      destruct (Rlt_dec (1 / 2) (y - IZR (Zfloor y))); try lia;
      destruct (Z.even (Zfloor x)); destruct (Z.even (Zfloor y)); lia.
Qed.

Lemma pow10_pos n : 0 < 10 ^ n.
Proof. apply pow_lt. lra. Qed.

Lemma round_mono x y n : x <= y -> Py.round x n <= Py.round y n.
Proof.
  intros Hxy. unfold Py.round. pose proof (pow10_pos n) as Hp.
  apply Rmult_le_compat_r; [left; apply Rinv_0_lt_compat, Hp|].
  apply IZR_le, round_half_even_mono. apply Rmult_le_compat_r; lra.
Qed.

Lemma round_nonneg x n : 0 <= x -> 0 <= Py.round x n.
Proof. intros Hx. rewrite <- (PyFacts.round_zero n). apply round_mono, Hx. Qed.

End RoundFacts.


(** ** Economic order quantity: costs and failures *)

Module EOQCostFacts.

Import PyFacts.

(** The record of a successful EOQ calculation. *)
Lemma calculate_eoq_value hw d pid a S rate product D :
  product_by_id d pid = Some product ->
  annual_demand_estimate hw d pid a = inr D ->
  0 < D -> 0 < S -> 0 < p_unit_cost product * rate ->
  calculate_eoq hw d pid a S rate =
  let H := p_unit_cost product * rate in
  let e := economic_order_quantity D S H in
  inr {| eoq_product_id := pid;
         eoq_sku := p_sku product;
         eoq := Py.round e 2;
         eoq_annual_demand := Py.round D 2;
         number_of_orders_per_year := Py.round (D / e) 2;
         time_between_orders_days := Py.round (365 / (D / e)) 1;
         total_annual_cost := Py.round (D / e * S + e / 2 * H) 2;
         eoq_parameters :=
           [("ordering_cost"%string, S);
            ("holding_cost_rate"%string, rate);
            ("unit_cost"%string, p_unit_cost product);
            ("holding_cost_per_unit"%string, Py.round H 2)] |}.
Proof.
  intros Hp Hest HD HS HH. unfold calculate_eoq, economic_order_quantity.
  rewrite Hp, Hest.
  destruct (Rle_dec D 0); [lra|].
  set (H := p_unit_cost product * rate) in *.
  assert (Hratio : 0 < 2 * D * S / H).
  { apply Rdiv_lt_0_compat; [|exact HH]. apply Rmult_lt_0_compat; lra. }
  pose proof (sqrt_lt_R0 _ Hratio) as Hroot.
  rewrite div_ok by lra. simpl.
  rewrite sqrt_ok by lra. simpl.
  rewrite div_ok by lra. simpl.
  assert (Horders : 0 < D / sqrt (2 * D * S / H)) by (apply Rdiv_lt_0_compat; lra).
  rewrite div_ok by lra. simpl. reflexivity.
Qed.

Lemma economic_order_quantity_costs D S H :
  0 < D -> 0 < S -> 0 < H ->
  D / economic_order_quantity D S H * S = economic_order_quantity D S H / 2 * H
  /\ D / economic_order_quantity D S H * S + economic_order_quantity D S H / 2 * H
     = sqrt (2 * D * S * H).
Proof.
  intros HD HS HH. unfold economic_order_quantity.
  assert (Hratio : 0 < 2 * D * S / H).
  { apply Rdiv_lt_0_compat; [|exact HH]. apply Rmult_lt_0_compat; lra. }
  set (e := sqrt (2 * D * S / H)).
  assert (He : 0 < e) by (apply sqrt_lt_R0, Hratio).
  assert (He2 : e * e = 2 * D * S / H) by (apply sqrt_sqrt; lra).
  assert (HDS : D * S = e * e * H / 2) by (rewrite He2; field; lra).
  assert (Hbalance : D / e * S = e / 2 * H).
  { replace (D / e * S) with (D * S / e) by (field; lra). rewrite HDS. field. lra. }
  split; [exact Hbalance|].
  rewrite Hbalance.
  replace (2 * D * S * H) with (2 * D * S / H * (H * H)) by (field; lra).
  rewrite sqrt_mult by nra. rewrite sqrt_square by lra. fold e. field.
Qed.

(** X18: at the order quantity that [calculate_eoq] computes, the yearly
    ordering cost equals the yearly holding cost, and the returned
    [total_annual_cost] is [sqrt(2 * D * S * H)] rounded to two decimals,
    for annual demand [D], ordering cost [S] and holding cost per unit
    [H = unit_cost * holding_cost_rate], all positive. *)
Theorem eoq_balances_costs hw d pid a S rate product D :
  product_by_id d pid = Some product ->
  annual_demand_estimate hw d pid a = inr D ->
  0 < D -> 0 < S -> 0 < p_unit_cost product * rate ->
  D / economic_order_quantity D S (p_unit_cost product * rate) * S
  = economic_order_quantity D S (p_unit_cost product * rate) / 2
    * (p_unit_cost product * rate)
  /\ exists r,
       calculate_eoq hw d pid a S rate = inr r
       /\ total_annual_cost r
          = Py.round (sqrt (2 * D * S * (p_unit_cost product * rate))) 2
       /\ number_of_orders_per_year r
          = Py.round (D / economic_order_quantity D S (p_unit_cost product * rate)) 2.
Proof.
  intros Hp Hest HD HS HH.
  destruct (economic_order_quantity_costs D S (p_unit_cost product * rate) HD HS HH)
    as (Hbalance & Htotal).
  split; [exact Hbalance|].
  rewrite (calculate_eoq_value hw d pid a S rate product D Hp Hest HD HS HH). cbv zeta.
  eexists. split; [reflexivity|]. simpl. rewrite Htotal. split; reflexivity.
Qed.

Lemma eoq_balances_costs_witness :
  product_by_id Samples.empty_store 1 = Some Samples.widget
  /\ annual_demand_estimate Samples.flat_holt_winters Samples.empty_store 1 (Some 1000)
     = inr 1000
  /\ exists r,
       calculate_eoq Samples.flat_holt_winters Samples.empty_store 1 (Some 1000)
                     50 (25 / 100) = inr r
       /\ total_annual_cost r = Py.round (sqrt (2 * 1000 * 50 * (20 * (25 / 100)))) 2.
Proof.
  split; [reflexivity|]. split; [reflexivity|].
  destruct (eoq_balances_costs Samples.flat_holt_winters Samples.empty_store 1
              (Some 1000) 50 (25 / 100) Samples.widget 1000 eq_refl eq_refl)
    as (_ & r & Hr & Htotal & _); simpl; try lra.
  exists r. split; [exact Hr | exact Htotal].
Defined.

(** X19: for an existing product with positive annual demand,
    [calculate_eoq] turns the arithmetic failures into error results: a
    holding cost per unit of zero, or an ordering cost of zero, fails with
    a division by zero, and a negative ratio [2 * D * S / H] fails with a
    math domain error. *)
Theorem eoq_arithmetic_failures hw d pid a S rate product D :
  product_by_id d pid = Some product ->
  annual_demand_estimate hw d pid a = inr D ->
  0 < D ->
  (p_unit_cost product * rate = 0 ->
     calculate_eoq hw d pid a S rate
     = inl "EOQ calculation failed: float division by zero"%string)
  /\ (S = 0 -> 0 < p_unit_cost product * rate ->
      calculate_eoq hw d pid a S rate
      = inl "EOQ calculation failed: float division by zero"%string)
  /\ (2 * D * S / (p_unit_cost product * rate) < 0 ->
      calculate_eoq hw d pid a S rate
      = inl "EOQ calculation failed: math domain error"%string).
Proof.
  intros Hp Hest HD. unfold calculate_eoq. rewrite Hp, Hest.
  destruct (Rle_dec D 0); [lra|].
  split; [|split].
  - intros HH. rewrite HH. unfold Py.div.
    destruct (Req_dec_T 0 0); [reflexivity | lra].
  - intros -> HH. rewrite div_ok by lra. simpl.
    replace (2 * D * 0 / (p_unit_cost product * rate)) with 0 by (unfold Rdiv; ring).
    rewrite sqrt_ok by lra. simpl. rewrite sqrt_0. unfold Py.div.
    destruct (Req_dec_T 0 0); [reflexivity | lra].
  - intros Hneg.
    assert (HH : p_unit_cost product * rate <> 0).
    { intros E. rewrite E in Hneg. unfold Rdiv in Hneg. rewrite Rinv_0 in Hneg. lra. }
    rewrite div_ok by exact HH. simpl. unfold Py.sqrt.
    destruct (Rlt_dec _ 0); [reflexivity | lra].
Qed.

Lemma eoq_arithmetic_failures_witness :
  product_by_id Samples.empty_store 1 = Some Samples.widget
  /\ annual_demand_estimate Samples.flat_holt_winters Samples.empty_store 1 (Some 1000)
     = inr 1000
  /\ 0 < 1000
  /\ calculate_eoq Samples.flat_holt_winters Samples.empty_store 1 (Some 1000) 50 0
     = inl "EOQ calculation failed: float division by zero"%string.
Proof.
  split; [reflexivity|]. split; [reflexivity|].
  assert (H : 0 < 1000) by lra. split; [exact H|].
  apply (proj1 (eoq_arithmetic_failures Samples.flat_holt_winters Samples.empty_store 1
                  (Some 1000) 50 0 Samples.widget 1000 eq_refl eq_refl H)).
  simpl. lra.
Defined.

End EOQCostFacts.


(** ** Reorder point and safety stock: lead time, service level, signs *)

Module ReorderEdgeFacts.

Import PyFacts.

(** The record of a successful reorder-point calculation. *)
Lemma calculate_reorder_point_value hw d pid level product forecast :
  product_by_id d pid = Some product ->
  generate_forecast hw d pid 30 "auto" = inr forecast ->
  0 < daily_average forecast ->
  calculate_reorder_point hw d pid level =
  let lead := daily_average forecast * IZR (lead_time_of d product) in
  let safety := z_score_of level * lead * (3 / 10) in
  inr {| rop_product_id := pid;
         rop_sku := p_sku product;
         reorder_point := Py.round (lead + safety) 2;
         lead_time_demand := Py.round lead 2;
         rop_safety_stock := Py.round safety 2;
         rop_daily_demand := Py.round (daily_average forecast) 2;
         rop_lead_time_days := lead_time_of d product;
         rop_service_level := level;
         supplier_name := match supplier_of d product with
                          | Some s => s_name s
                          | None => "Unknown"%string
                          end;
         rop_parameters := [("z_score"%string, z_score_of level);
                            ("demand_variability_factor"%string, 3 / 10)] |}.
Proof.
  intros Hp Hf Hpos. unfold calculate_reorder_point. rewrite Hp, Hf.
  destruct (Rle_dec (daily_average forecast) 0); [lra | reflexivity].
Qed.

Lemma calculate_reorder_point_cases hw d pid level r :
  calculate_reorder_point hw d pid level = inr r ->
  exists product forecast,
    product_by_id d pid = Some product
    /\ generate_forecast hw d pid 30 "auto" = inr forecast
    /\ 0 < daily_average forecast.
Proof.
  intros H. apply ReorderPointFacts.calculate_reorder_point_inv in H.
  destruct H as (product & forecast & Hp & Hf & Hpos & _).
  exists product, forecast. auto.
Qed.

Lemma calculate_reorder_point_lead hw d pid level r :
  calculate_reorder_point hw d pid level = inr r ->
  exists product forecast,
    product_by_id d pid = Some product
    /\ generate_forecast hw d pid 30 "auto" = inr forecast
    /\ 0 < daily_average forecast
    /\ rop_lead_time_days r = lead_time_of d product.
Proof.
  intros H. apply ReorderPointFacts.calculate_reorder_point_inv in H.
  destruct H as (product & forecast & Hp & Hf & Hpos & _ & _ & _ & _ & Hlead).
  exists product, forecast. auto.
Qed.

Lemma z_score_positive level : 0 < z_score_of level.
Proof.
  unfold z_score_of.
  destruct (Req_dec_T level (90 / 100)); [lra|].
  destruct (Req_dec_T level (95 / 100)); [lra|].
  destruct (Req_dec_T level (99 / 100)); lra.
Qed.

Lemma week_store_reorder hw level :
  exists r, calculate_reorder_point hw Samples.week_store 2 level = inr r.
Proof.
  destruct (ReorderPointFacts.week_store_forecast hw) as (forecast & Hf & Hd).
  rewrite (calculate_reorder_point_value hw Samples.week_store 2 level
             Samples.gadget forecast eq_refl Hf) by (rewrite Hd; lra).
  cbv zeta. eexists. reflexivity.
Qed.

Lemma steady_week_reorder hw level :
  exists r, calculate_reorder_point hw (Samples.steady_store 10) 1 level = inr r.
Proof.
  assert (H : exists forecast,
             generate_forecast hw (Samples.steady_store 10) 1 30 "auto" = inr forecast
             /\ daily_average forecast = 10).
  { eexists. split; [vm_compute; reflexivity|]. vm_compute. lra. }
  destruct H as (forecast & Hf & Hd).
  rewrite (calculate_reorder_point_value hw (Samples.steady_store 10) 1 level
             Samples.widget forecast eq_refl Hf) by (rewrite Hd; lra).
  cbv zeta. eexists. reflexivity.
Qed.

(** X20: the lead time falls back to 7 days, and the supplier name to
    "Unknown", when the product has no supplier, when its [supplier_id] is 0
    (a falsy value), or when the supplier row does not exist; otherwise the
    lead time and the name of the supplier row are used. *)
Theorem reorder_point_lead_time hw d pid level product r :
  product_by_id d pid = Some product ->
  calculate_reorder_point hw d pid level = inr r ->
  ((p_supplier_id product = None
    \/ p_supplier_id product = Some 0%Z
    \/ (exists sid, p_supplier_id product = Some sid /\ supplier_by_id d sid = None)) ->
     rop_lead_time_days r = 7%Z /\ supplier_name r = "Unknown"%string)
  /\ (forall sid s,
        p_supplier_id product = Some sid -> sid <> 0%Z -> supplier_by_id d sid = Some s ->
        rop_lead_time_days r = s_lead_time_days s /\ supplier_name r = s_name s).
Proof.
  intros Hp Hr.
  destruct (calculate_reorder_point_cases hw d pid level r Hr)
    as (product' & forecast & Hp' & Hf & Hpos).
  rewrite Hp in Hp'. injection Hp' as <-.
  rewrite (calculate_reorder_point_value hw d pid level product forecast Hp Hf Hpos) in Hr.
  cbv zeta in Hr. injection Hr as <-. simpl.
  unfold lead_time_of, supplier_of. split.
  - intros [Hnone | [Hzero | (sid & Hsid & Hmissing)]].
    + rewrite Hnone. split; reflexivity.
    + rewrite Hzero. simpl. split; reflexivity.
    + rewrite Hsid. destruct (sid =? 0)%Z; [split; reflexivity|].
      rewrite Hmissing. split; reflexivity.
  - intros sid s Hsid Hnz Hs. rewrite Hsid.
    apply Z.eqb_neq in Hnz. rewrite Hnz, Hs. split; reflexivity.
Qed.

Lemma reorder_point_lead_time_witness :
  product_by_id Samples.week_store 2 = Some Samples.gadget
  /\ exists r,
       calculate_reorder_point Samples.flat_holt_winters Samples.week_store 2 (95 / 100)
       = inr r
       /\ rop_lead_time_days r = 1%Z /\ supplier_name r = "Acme"%string.
Proof.
  split; [reflexivity|].
  destruct (week_store_reorder Samples.flat_holt_winters (95 / 100)) as (r & Hr).
  exists r. split; [exact Hr|].
  apply (proj2 (reorder_point_lead_time Samples.flat_holt_winters Samples.week_store 2
                  (95 / 100) Samples.gadget r eq_refl Hr)
               1%Z Samples.next_day_supplier eq_refl).
  - discriminate.
  - reflexivity.
Defined.

(** X21: a service level that is not 0.90, 0.95 or 0.99 is treated exactly
    like 0.95: the reorder point, the lead-time demand and the safety stock
    are those of the call with service level 0.95, however high or low the
    requested level is. *)
Theorem unlisted_service_level_as_default hw d pid level r :
  level <> 90 / 100 -> level <> 95 / 100 -> level <> 99 / 100 ->
  calculate_reorder_point hw d pid level = inr r ->
  exists r',
    calculate_reorder_point hw d pid (95 / 100) = inr r'
    /\ reorder_point r = reorder_point r'
    /\ lead_time_demand r = lead_time_demand r'
    /\ rop_safety_stock r = rop_safety_stock r'.
Proof.
  intros H90 H95 H99 Hr.
  destruct (calculate_reorder_point_cases hw d pid level r Hr)
    as (product & forecast & Hp & Hf & Hpos).
  rewrite (calculate_reorder_point_value hw d pid level product forecast Hp Hf Hpos) in Hr.
  rewrite (calculate_reorder_point_value hw d pid (95 / 100) product forecast Hp Hf Hpos).
  cbv zeta in *. injection Hr as <-.
  destruct ReorderPointFacts.z_score_table as (_ & Hz95 & _ & Hother).
  rewrite (Hother level H90 H95 H99), Hz95.
  eexists. split; [reflexivity|]. simpl. repeat split.
Qed.

Lemma unlisted_service_level_as_default_witness :
  999 / 1000 <> 90 / 100 /\ 999 / 1000 <> 95 / 100 /\ 999 / 1000 <> 99 / 100
  /\ exists r r',
       calculate_reorder_point Samples.flat_holt_winters Samples.week_store 2 (999 / 1000)
       = inr r
       /\ calculate_reorder_point Samples.flat_holt_winters Samples.week_store 2 (95 / 100)
          = inr r'
       /\ reorder_point r = reorder_point r'.
Proof.
  assert (H90 : 999 / 1000 <> 90 / 100) by lra.
  assert (H95 : 999 / 1000 <> 95 / 100) by lra.
  assert (H99 : 999 / 1000 <> 99 / 100) by lra.
  split; [exact H90|]. split; [exact H95|]. split; [exact H99|].
  destruct (week_store_reorder Samples.flat_holt_winters (999 / 1000)) as (r & Hr).
  destruct (unlisted_service_level_as_default Samples.flat_holt_winters Samples.week_store 2
              (999 / 1000) r H90 H95 H99 Hr) as (r' & Hr' & Hrp & _).
  exists r, r'. auto.
Defined.

(** X22: in a successful reorder-point result with a lead time that is
    not negative nothing is negative and the reorder point is never below
    the lead-time demand, also after the rounding of the fields:
    [0 <= lead_time_demand <= reorder_point] and [0 <= safety_stock]. *)
Theorem reorder_point_fields_ordered hw d pid level r :
  calculate_reorder_point hw d pid level = inr r ->
  (0 <= rop_lead_time_days r)%Z ->
  0 <= lead_time_demand r
  /\ lead_time_demand r <= reorder_point r
  /\ 0 <= rop_safety_stock r
  /\ 0 <= rop_daily_demand r.
Proof.
  intros Hr Hdays.
  destruct (calculate_reorder_point_cases hw d pid level r Hr)
    as (product & forecast & Hp & Hf & Hpos).
  rewrite (calculate_reorder_point_value hw d pid level product forecast Hp Hf Hpos) in Hr.
  cbv zeta in Hr. injection Hr as <-. simpl in *.
  pose proof (z_score_positive level) as Hz.
  pose proof (IZR_le _ _ Hdays) as Hlt.
  assert (Hlead : 0 <= daily_average forecast * IZR (lead_time_of d product))
    by (apply Rmult_le_pos; lra).
  assert (Hsafety : 0 <= z_score_of level
                         * (daily_average forecast * IZR (lead_time_of d product))
                         * (3 / 10)).
  { apply Rmult_le_pos; [|lra]. apply Rmult_le_pos; lra. }
  repeat split.
  - apply RoundFacts.round_nonneg, Hlead.
  - apply RoundFacts.round_mono. lra.
  - apply RoundFacts.round_nonneg, Hsafety.
  - apply RoundFacts.round_nonneg. lra.
Qed.

Lemma week_store_lead_time hw level r :
  calculate_reorder_point hw Samples.week_store 2 level = inr r ->
  rop_lead_time_days r = 1%Z.
Proof.
  intros Hr.
  destruct (calculate_reorder_point_lead hw Samples.week_store 2 level r Hr)
    as (product & forecast & Hp & _ & _ & Hlead).
  rewrite Hlead. vm_compute in Hp. injection Hp as <-. reflexivity.
Qed.

Lemma reorder_point_fields_ordered_witness :
  exists r,
    calculate_reorder_point Samples.flat_holt_winters Samples.week_store 2 (95 / 100) = inr r
    /\ (0 <= rop_lead_time_days r)%Z
    /\ 0 <= lead_time_demand r
    /\ lead_time_demand r <= reorder_point r.
Proof.
  destruct (week_store_reorder Samples.flat_holt_winters (95 / 100)) as (r & Hr).
  assert (Hdays : (0 <= rop_lead_time_days r)%Z).
  { rewrite (week_store_lead_time Samples.flat_holt_winters (95 / 100) r Hr). lia. }
  exists r. split; [exact Hr|]. split; [exact Hdays|].
  destruct (reorder_point_fields_ordered Samples.flat_holt_winters Samples.week_store 2
              (95 / 100) r Hr Hdays) as (H1 & H2 & _).
  split; assumption.
Defined.

(** The record of a safety-stock calculation: it needs the product, the
    forecast and a lead time that has a square root. *)
Lemma calculate_safety_stock_value hw d pid level variability product forecast :
  product_by_id d pid = Some product ->
  generate_forecast hw d pid 30 "auto" = inr forecast ->
  (0 <= lead_time_of d product)%Z ->
  exists r,
    calculate_safety_stock hw d pid level variability = inr r
    /\ safety_stock r
       = Py.round (z_score_of level * sqrt (IZR (lead_time_of d product))
                   * daily_average forecast
                   * match variability with
                     | Some v => v
                     | None => estimated_variability d pid
                     end) 2
    /\ ss_lead_time_days r = lead_time_of d product
    /\ ss_service_level r = level.
Proof.
  intros Hp Hf Hlead. unfold calculate_safety_stock. rewrite Hp, Hf.
  rewrite sqrt_ok by (apply IZR_le in Hlead; exact Hlead). simpl.
  eexists. split; [reflexivity|]. simpl. repeat split.
Qed.

(** A result of the safety-stock calculation shows that the product exists,
    that its forecast succeeded and that its lead time is not negative. *)
Lemma calculate_safety_stock_cases hw d pid level variability r :
  calculate_safety_stock hw d pid level variability = inr r ->
  exists product forecast,
    product_by_id d pid = Some product
    /\ generate_forecast hw d pid 30 "auto" = inr forecast
    /\ (0 <= lead_time_of d product)%Z.
Proof.
  intros Hr.
  destruct (product_by_id d pid) as [product|] eqn:Hp;
    [|unfold calculate_safety_stock in Hr; rewrite Hp in Hr; discriminate].
  destruct (generate_forecast hw d pid 30 "auto") as [e | forecast] eqn:Hf;
    [unfold calculate_safety_stock in Hr; rewrite Hp, Hf in Hr; discriminate|].
  exists product, forecast. split; [reflexivity|]. split; [reflexivity|].
  destruct (Z_lt_le_dec (lead_time_of d product) 0) as [Hneg | Hge]; [|exact Hge].
  rewrite (SafetyStockFacts.calculate_safety_stock_negative hw d pid level variability
             product forecast Hp Hf Hneg) in Hr.
  discriminate.
Qed.

Lemma safety_stock_availability hw d pid level variability :
  ((exists r, calculate_safety_stock hw d pid level variability = inr r)
   <-> (exists product forecast,
          product_by_id d pid = Some product
          /\ generate_forecast hw d pid 30 "auto" = inr forecast
          /\ (0 <= lead_time_of d product)%Z))
  /\ (forall level' r',
        calculate_reorder_point hw d pid level' = inr r' ->
        (0 <= rop_lead_time_days r')%Z ->
        exists r, calculate_safety_stock hw d pid level variability = inr r).
Proof.
  assert (Hiff : (exists r, calculate_safety_stock hw d pid level variability = inr r)
                 <-> (exists product forecast,
                        product_by_id d pid = Some product
                        /\ generate_forecast hw d pid 30 "auto" = inr forecast
                        /\ (0 <= lead_time_of d product)%Z)).
  { split.
    - intros (r & Hr). exact (calculate_safety_stock_cases hw d pid level variability r Hr).
    - intros (product & forecast & Hp & Hf & Hlead).
      destruct (calculate_safety_stock_value hw d pid level variability product forecast
                  Hp Hf Hlead) as (r & Hr & _).
      exists r. exact Hr. }
  split; [exact Hiff|].
  intros level' r' Hr' Hdays. apply Hiff.
  destruct (calculate_reorder_point_lead hw d pid level' r' Hr')
    as (product & forecast & Hp & Hf & _ & Hlead).
  exists product, forecast. rewrite <- Hlead. auto.
Qed.

(** X23: [calculate_safety_stock] returns a result exactly when the product
    exists, its 30-day forecast succeeds and its lead time is not negative;
    with a negative lead time it fails with the error of the square root.
    It has no check on the demand, so it succeeds wherever
    [calculate_reorder_point] succeeds with a lead time that is not
    negative. *)
Theorem safety_stock_succeeds_iff hw d pid level variability :
  ((exists r, calculate_safety_stock hw d pid level variability = inr r)
   <-> (exists product forecast,
          product_by_id d pid = Some product
          /\ generate_forecast hw d pid 30 "auto" = inr forecast
          /\ (0 <= lead_time_of d product)%Z))
  /\ (forall product forecast,
        product_by_id d pid = Some product ->
        generate_forecast hw d pid 30 "auto" = inr forecast ->
        (lead_time_of d product < 0)%Z ->
        calculate_safety_stock hw d pid level variability
        = inl "Safety stock calculation failed: math domain error"%string)
  /\ (forall level' r',
        calculate_reorder_point hw d pid level' = inr r' ->
        (0 <= rop_lead_time_days r')%Z ->
        exists r, calculate_safety_stock hw d pid level variability = inr r).
Proof.
  destruct (safety_stock_availability hw d pid level variability) as [Hiff Hrop].
  split; [exact Hiff|]. split; [|exact Hrop].
  intros product forecast Hp Hf Hneg.
  exact (SafetyStockFacts.calculate_safety_stock_negative hw d pid level variability
           product forecast Hp Hf Hneg).
Qed.

(** The sample week with the backdated supplier: the reorder point is
    calculated, from a lead time of -1 day, and the safety stock is not. *)
Lemma backdated_week_forecast hw :
  exists forecast,
    generate_forecast hw Samples.backdated_week_store 2 30 "auto" = inr forecast
    /\ daily_average forecast = 9 / 7.
Proof.
  eexists. split; [vm_compute; reflexivity|]. vm_compute. lra.
Qed.

Lemma safety_stock_succeeds_iff_witness :
  (exists r',
     calculate_reorder_point Samples.flat_holt_winters Samples.backdated_week_store 2
       (95 / 100) = inr r'
     /\ rop_lead_time_days r' = (-1)%Z)
  /\ calculate_safety_stock Samples.flat_holt_winters Samples.backdated_week_store 2
       (95 / 100) None
     = inl "Safety stock calculation failed: math domain error"%string.
Proof.
  destruct (backdated_week_forecast Samples.flat_holt_winters) as (forecast & Hf & Hd).
  split.
  - rewrite (calculate_reorder_point_value Samples.flat_holt_winters
               Samples.backdated_week_store 2 (95 / 100) Samples.gadget forecast
               eq_refl Hf) by (rewrite Hd; lra).
    cbv zeta. eexists. split; reflexivity.
  - apply (proj1 (proj2 (safety_stock_succeeds_iff Samples.flat_holt_winters
                           Samples.backdated_week_store 2 (95 / 100) None))
                 Samples.gadget forecast eq_refl Hf).
    vm_compute. reflexivity.
Defined.

End ReorderEdgeFacts.


(** ** The consolidated report *)

Module ReportFacts.

Import PyFacts.

Lemma optimize_unfold hw d pid :
  optimize_inventory_levels hw d pid =
  match calculate_eoq hw d pid None 50 (25 / 100),
        calculate_reorder_point hw d pid (95 / 100),
        calculate_safety_stock hw d pid (95 / 100) None with
  | inr e, inr r, inr s =>
      inr {| opt_product_id := pid;
             opt_sku := eoq_sku e;
             opt_economic_order_quantity := eoq e;
             opt_reorder_point := reorder_point r;
             opt_safety_stock := safety_stock s;
             recommended_max_stock := eoq e + safety_stock s;
             annual_ordering_cost := total_annual_cost e;
             opt_annual_holding_cost := annual_holding_cost s;
             opt_total_annual_cost := total_annual_cost e + annual_holding_cost s;
             opt_service_level := rop_service_level r;
             opt_lead_time_days := rop_lead_time_days r;
             orders_per_year := number_of_orders_per_year e |}
  | eoq_result, reorder_result, safety_stock_result =>
      inl ("Optimization failed: "
           ++ String.concat "; " (error_of eoq_result ++ error_of reorder_result
                                  ++ error_of safety_stock_result))%string
  end.
Proof.
  unfold optimize_inventory_levels.
  destruct (calculate_eoq hw d pid None 50 (25 / 100));
    destruct (calculate_reorder_point hw d pid (95 / 100));
    destruct (calculate_safety_stock hw d pid (95 / 100) None); reflexivity.
Qed.

(** X24: [optimize_inventory_levels] returns a report exactly when the EOQ
    and the reorder point can be computed and the lead time of the reorder
    point is not negative (the safety stock then can be computed too); the
    report carries their values, with
    [recommended_max_stock = eoq + safety_stock] and the total cost the sum
    of the EOQ cost and the holding cost of the safety stock. *)
Theorem optimize_succeeds_iff hw d pid :
  ((exists report, optimize_inventory_levels hw d pid = inr report)
   <-> (exists e r,
          calculate_eoq hw d pid None 50 (25 / 100) = inr e
          /\ calculate_reorder_point hw d pid (95 / 100) = inr r
          /\ (0 <= rop_lead_time_days r)%Z))
  /\ (forall report,
        optimize_inventory_levels hw d pid = inr report ->
        exists e r s,
          calculate_eoq hw d pid None 50 (25 / 100) = inr e
          /\ calculate_reorder_point hw d pid (95 / 100) = inr r
          /\ calculate_safety_stock hw d pid (95 / 100) None = inr s
          /\ opt_economic_order_quantity report = eoq e
          /\ opt_reorder_point report = reorder_point r
          /\ opt_safety_stock report = safety_stock s
          /\ recommended_max_stock report = eoq e + safety_stock s
          /\ opt_total_annual_cost report = total_annual_cost e + annual_holding_cost s).
Proof.
  rewrite optimize_unfold. split.
  - split.
    + intros (report & H).
      destruct (calculate_eoq hw d pid None 50 (25 / 100)) as [e1 | e]; [discriminate|].
      destruct (calculate_reorder_point hw d pid (95 / 100)) as [e2 | r] eqn:Hr;
        [discriminate|].
      destruct (calculate_safety_stock hw d pid (95 / 100) None) as [e3 | s] eqn:Hs;
        [discriminate|].
      exists e, r. split; [reflexivity|]. split; [reflexivity|].
      destruct (ReorderEdgeFacts.calculate_reorder_point_lead hw d pid _ r Hr)
        as (product & forecast & Hp & _ & _ & Hlead).
      destruct (ReorderEdgeFacts.calculate_safety_stock_cases hw d pid _ _ s Hs)
        as (product' & forecast' & Hp' & _ & Hge).
      rewrite Hp in Hp'. injection Hp' as <-. rewrite Hlead. exact Hge.
    + intros (e & r & He & Hr & Hdays). rewrite He, Hr.
      destruct (proj2 (ReorderEdgeFacts.safety_stock_availability hw d pid
                         (95 / 100) None) (95 / 100) r Hr Hdays) as (s & Hs).
      rewrite Hs. eexists. reflexivity.
  - intros report H.
    destruct (calculate_eoq hw d pid None 50 (25 / 100)) as [e1 | e]; [discriminate|].
    destruct (calculate_reorder_point hw d pid (95 / 100)) as [e2 | r]; [discriminate|].
    destruct (calculate_safety_stock hw d pid (95 / 100) None) as [e3 | s]; [discriminate|].
    injection H as <-. exists e, r, s. simpl. repeat split.
Qed.

Lemma auto_forecast_short hw d pid h :
  (length (get_historical_demand d pid 90) < 7)%nat ->
  generate_forecast hw d pid h "auto" = inl insufficient_for_auto.
Proof.
  intros H. rewrite ForecastFacts.generate_forecast_auto_unfold. cbv zeta.
  apply Nat.ltb_lt in H. rewrite H. reflexivity.
Qed.

(** X25: the error of [optimize_inventory_levels] lists the errors of the
    three calculations in the order EOQ, reorder point, safety stock,
    joined by "; ": for a product that does not exist it reads "Product not
    found" three times, and for a product with fewer than 7 days of demand
    in the last 90 days it reads the insufficient-data message three
    times. *)
Theorem optimize_reports_every_error hw d pid :
  (product_by_id d pid = None ->
     optimize_inventory_levels hw d pid
     = inl "Optimization failed: Product not found; Product not found; Product not found"%string)
  /\ (forall product,
        product_by_id d pid = Some product ->
        (length (get_historical_demand d pid 90) < 7)%nat ->
        optimize_inventory_levels hw d pid
        = inl ("Optimization failed: "
               ++ "Cannot estimate demand: " ++ insufficient_for_auto ++ "; "
               ++ "Cannot estimate demand: " ++ insufficient_for_auto ++ "; "
               ++ "Cannot estimate demand: " ++ insufficient_for_auto)%string).
Proof.
  split.
  - intros Hp. rewrite optimize_unfold.
    unfold calculate_eoq, calculate_reorder_point, calculate_safety_stock.
    rewrite Hp. reflexivity.
  - intros product Hp Hlen. rewrite optimize_unfold.
    unfold calculate_eoq, calculate_reorder_point, calculate_safety_stock,
      annual_demand_estimate.
    rewrite Hp, !(auto_forecast_short hw d pid _ Hlen). reflexivity.
Qed.

Lemma optimize_reports_every_error_witness :
  (product_by_id Samples.empty_store 7 = None
   /\ optimize_inventory_levels Samples.flat_holt_winters Samples.empty_store 7
      = inl "Optimization failed: Product not found; Product not found; Product not found"%string)
  /\ (product_by_id Samples.empty_store 1 = Some Samples.widget
      /\ (length (get_historical_demand Samples.empty_store 1 90) < 7)%nat
      /\ Py.is_error (optimize_inventory_levels Samples.flat_holt_winters
                                                Samples.empty_store 1) = true).
Proof.
  split.
  - split; [reflexivity|].
    exact (proj1 (optimize_reports_every_error Samples.flat_holt_winters
                    Samples.empty_store 7) eq_refl).
  - split; [reflexivity|].
    assert (H : (length (get_historical_demand Samples.empty_store 1 90) < 7)%nat)
      by (vm_compute; lia).
    split; [exact H|].
    rewrite (proj2 (optimize_reports_every_error Samples.flat_holt_winters
                      Samples.empty_store 1) Samples.widget eq_refl H).
    reflexivity.
Defined.

Lemma calculate_eoq_nonneg hw d pid a S rate r :
  calculate_eoq hw d pid a S rate = inr r -> 0 <= eoq r.
Proof.
  unfold calculate_eoq.
  destruct (product_by_id d pid) as [product|]; [|discriminate].
  destruct (annual_demand_estimate hw d pid a) as [e | D]; [discriminate|].
  destruct (Rle_dec D 0); [discriminate|].
  destruct (Py.div (2 * D * S) (p_unit_cost product * rate)) as [e | ratio];
    [discriminate|].
  simpl. unfold Py.sqrt. destruct (Rlt_dec ratio 0); [discriminate|]. simpl.
  destruct (Py.div D (sqrt ratio)) as [e | orders]; [discriminate|]. simpl.
  destruct (Py.div 365 orders) as [e | between]; [discriminate|]. simpl.
  intros H. injection H as <-. simpl. apply RoundFacts.round_nonneg, sqrt_pos.
Qed.

Lemma estimated_variability_nonneg d pid : 0 <= estimated_variability d pid.
Proof.
  unfold estimated_variability.
  destruct (7 <? length (get_historical_demand d pid 60))%nat; [|lra].
  destruct (Rlt_dec 0 _) as [Hpos | _]; [|lra].
  apply Rmult_le_pos; [apply sqrt_pos|]. left. apply Rinv_0_lt_compat, Hpos.
Qed.

(** X26: in a report of [optimize_inventory_levels] the order quantity, the
    reorder point and the safety stock are all non-negative, so the
    recommended maximum stock is at least the order quantity. *)
Theorem optimize_report_nonnegative hw d pid report :
  optimize_inventory_levels hw d pid = inr report ->
  0 <= opt_economic_order_quantity report
  /\ 0 <= opt_reorder_point report
  /\ 0 <= opt_safety_stock report
  /\ opt_economic_order_quantity report <= recommended_max_stock report.
Proof.
  rewrite optimize_unfold.
  destruct (calculate_eoq hw d pid None 50 (25 / 100)) as [e1 | e] eqn:He; [discriminate|].
  destruct (calculate_reorder_point hw d pid (95 / 100)) as [e2 | r] eqn:Hr; [discriminate|].
  destruct (calculate_safety_stock hw d pid (95 / 100) None) as [e3 | s] eqn:Hs;
    [discriminate|].
  intros H. injection H as <-. simpl.
  pose proof (calculate_eoq_nonneg _ _ _ _ _ _ _ He) as Heoq.
  destruct (ReorderEdgeFacts.calculate_reorder_point_cases hw d pid _ r Hr)
    as (product & forecast & Hp & Hf & Hpos).
  assert (Hdays : (0 <= lead_time_of d product)%Z).
  { destruct (ReorderEdgeFacts.calculate_safety_stock_cases hw d pid _ _ s Hs)
      as (product' & forecast' & Hp' & _ & Hge).
    rewrite Hp in Hp'. injection Hp' as <-. exact Hge. }
  assert (Hrop : 0 <= reorder_point r).
  { rewrite (ReorderEdgeFacts.calculate_reorder_point_value hw d pid _ product forecast
               Hp Hf Hpos) in Hr.
    cbv zeta in Hr. injection Hr as <-. simpl.
    pose proof (ReorderEdgeFacts.z_score_positive (95 / 100)) as Hz.
    pose proof (IZR_le _ _ Hdays) as Hlt.
    apply RoundFacts.round_nonneg.
    assert (Hlead : 0 <= daily_average forecast * IZR (lead_time_of d product))
      by (apply Rmult_le_pos; lra).
    assert (0 <= z_score_of (95 / 100)
                 * (daily_average forecast * IZR (lead_time_of d product)) * (3 / 10)).
    { apply Rmult_le_pos; [|lra]. apply Rmult_le_pos; lra. }
    lra. }
  assert (Hss : 0 <= safety_stock s).
  { destruct (ReorderEdgeFacts.calculate_safety_stock_value hw d pid (95 / 100) None
                product forecast Hp Hf Hdays) as (s' & Hs' & Hvalue & _).
    rewrite Hs in Hs'. injection Hs' as <-. rewrite Hvalue.
    apply RoundFacts.round_nonneg.
    pose proof (ReorderEdgeFacts.z_score_positive (95 / 100)) as Hz.
    pose proof (sqrt_pos (IZR (lead_time_of d product))) as Hroot.
    pose proof (estimated_variability_nonneg d pid) as Hv.
    repeat apply Rmult_le_pos; lra. }
  repeat split; try assumption. lra.
Qed.

Lemma steady_week_report hw :
  exists report, optimize_inventory_levels hw (Samples.steady_store 10) 1 = inr report.
Proof.
  assert (HD : exists D, annual_demand_estimate hw (Samples.steady_store 10) 1 None = inr D
                         /\ 0 < D).
  { eexists. split; [vm_compute; reflexivity | lra]. }
  destruct HD as (D & HD & Hpos).
  destruct (EOQFacts.calculate_eoq_success hw (Samples.steady_store 10) 1 None 50 (25 / 100)
              Samples.widget D eq_refl HD Hpos) as (e & He & _); [lra | simpl; lra |].
  destruct (ReorderEdgeFacts.steady_week_reorder hw (95 / 100)) as (r & Hr).
  assert (Hdays : (0 <= rop_lead_time_days r)%Z).
  { destruct (ReorderEdgeFacts.calculate_reorder_point_lead hw _ _ _ r Hr)
      as (product & forecast & Hp & _ & _ & Hlead).
    rewrite Hlead. vm_compute in Hp. injection Hp as <-. vm_compute. discriminate. }
  destruct (proj2 (ReorderEdgeFacts.safety_stock_availability hw (Samples.steady_store 10) 1
                     (95 / 100) None) (95 / 100) r Hr Hdays) as (s & Hs).
  rewrite optimize_unfold, He, Hr, Hs. eexists. reflexivity.
Qed.

Lemma optimize_report_nonnegative_witness :
  exists report,
    optimize_inventory_levels Samples.flat_holt_winters (Samples.steady_store 10) 1
    = inr report
    /\ 0 <= opt_economic_order_quantity report
    /\ opt_economic_order_quantity report <= recommended_max_stock report.
Proof.
  destruct (steady_week_report Samples.flat_holt_winters) as (report & H).
  exists report. split; [exact H|].
  destruct (optimize_report_nonnegative Samples.flat_holt_winters (Samples.steady_store 10)
              1 report H) as (H1 & _ & _ & H4).
  split; assumption.
Defined.

End ReportFacts.

(** ** Scenario analysis *)

Module ScenarioFacts.

Import PyFacts.

Lemma reorder_point_error_any_level hw d pid level level' e :
  calculate_reorder_point hw d pid level = inl e ->
  calculate_reorder_point hw d pid level' = inl e.
Proof.
  unfold calculate_reorder_point.
  destruct (product_by_id d pid) as [product|]; [|exact (fun H => H)].
  destruct (generate_forecast hw d pid 30 "auto") as [msg | forecast]; [exact (fun H => H)|].
  destruct (Rle_dec (daily_average forecast) 0); [exact (fun H => H) | discriminate].
Qed.

Lemma scenario_step_app hw d pid results entry :
  scenario_step hw d pid results entry = results ++ scenario_step hw d pid [] entry.
Proof.
  unfold scenario_step.
  destruct (calculate_eoq _ _ _ _ _ _); [rewrite app_nil_r; reflexivity|].
  destruct (calculate_reorder_point _ _ _ _); [rewrite app_nil_r; reflexivity|].
  reflexivity.
Qed.

Lemma scenario_fold hw d pid entries results :
  fold_left (scenario_step hw d pid) entries results
  = results ++ flat_map (scenario_step hw d pid []) entries.
Proof.
  revert results. induction entries as [|entry entries IH]; intros results; simpl.
  - rewrite app_nil_r. reflexivity.
  - rewrite IH, (scenario_step_app hw d pid results entry), <- app_assoc. reflexivity.
Qed.

Lemma scenario_analysis_unfold hw d pid scenario_list :
  scenario_analysis hw d pid scenario_list
  = inr {| sa_product_id := pid;
           scenarios := flat_map (scenario_step hw d pid []) (enumerate scenario_list);
           comparison_metrics := metrics |}.
Proof.
  unfold scenario_analysis. rewrite scenario_fold. reflexivity.
Qed.

(** X27: when the reorder point of the product cannot be computed (the
    product is missing, its 30-day forecast fails or the forecast demand is
    not positive), [scenario_analysis] drops every scenario, also those
    that supply their own annual demand, and returns an analysis with no
    scenario instead of an error. *)
Theorem scenarios_need_reorder_point hw d pid e scenario_list :
  calculate_reorder_point hw d pid (95 / 100) = inl e ->
  scenario_analysis hw d pid scenario_list
  = inr {| sa_product_id := pid; scenarios := []; comparison_metrics := metrics |}.
Proof.
  intros He. rewrite scenario_analysis_unfold. do 2 f_equal.
  induction (enumerate scenario_list) as [|entry entries IH]; [reflexivity|].
  simpl. rewrite IH, app_nil_r. unfold scenario_step.
  rewrite (reorder_point_error_any_level hw d pid _
             (get_or (sc_service_level (snd entry)) (95 / 100)) e He).
  destruct (calculate_eoq _ _ _ _ _ _); reflexivity.
Qed.

Lemma scenarios_need_reorder_point_witness :
  calculate_reorder_point Samples.flat_holt_winters Samples.empty_store 7 (95 / 100)
  = inl "Product not found"%string
  /\ scenario_analysis Samples.flat_holt_winters Samples.empty_store 7
                       [Samples.demand_scenario]
     = inr {| sa_product_id := 7; scenarios := []; comparison_metrics := metrics |}.
Proof.
  assert (H : calculate_reorder_point Samples.flat_holt_winters Samples.empty_store 7
                                      (95 / 100) = inl "Product not found"%string)
    by reflexivity.
  split; [exact H|].
  exact (scenarios_need_reorder_point Samples.flat_holt_winters Samples.empty_store 7
           "Product not found" [Samples.demand_scenario] H).
Defined.

Lemma enumerate_from_In {A} (l : list A) start i x :
  In (i, x) (combine (seq start (length l)) l)
  <-> (start <= i)%nat /\ nth_error l (i - start) = Some x.
Proof.
  revert start. induction l as [|a l IH]; intros start; simpl.
  - split; [contradiction|]. intros [_ H]. destruct (i - start)%nat; discriminate.
  - rewrite IH. split.
    + intros [H | [Hle Hnth]].
      * injection H as <- <-. rewrite Nat.sub_diag. split; [lia | reflexivity].
      * split; [lia|]. replace (i - start)%nat with (S (i - S start)) by lia. exact Hnth.
    + intros [Hle Hnth].
      destruct (Nat.eq_dec i start) as [-> | Hne].
      * rewrite Nat.sub_diag in Hnth. simpl in Hnth. injection Hnth as ->. left. reflexivity.
      * right. split; [lia|].
        replace (i - start)%nat with (S (i - S start)) in Hnth by lia. exact Hnth.
Qed.

Lemma enumerate_In {A} (l : list A) i x :
  In (i, x) (enumerate l) <-> nth_error l i = Some x.
Proof.
  unfold enumerate. rewrite enumerate_from_In, Nat.sub_0_r.
  split; [tauto | intros H; split; [lia | exact H]].
Qed.

Lemma scenario_step_cases hw d pid i scenario :
  (exists e r,
     calculate_eoq hw d pid (sc_annual_demand scenario)
                   (get_or (sc_ordering_cost scenario) 50)
                   (get_or (sc_holding_cost_rate scenario) (25 / 100)) = inr e
     /\ calculate_reorder_point hw d pid (get_or (sc_service_level scenario) (95 / 100))
        = inr r
     /\ scenario_step hw d pid [] (i, scenario) = [scenario_row i scenario e r])
  \/ ((Py.is_error (calculate_eoq hw d pid (sc_annual_demand scenario)
                                  (get_or (sc_ordering_cost scenario) 50)
                                  (get_or (sc_holding_cost_rate scenario) (25 / 100)))
       || Py.is_error (calculate_reorder_point hw d pid
                         (get_or (sc_service_level scenario) (95 / 100)))) = true
      /\ scenario_step hw d pid [] (i, scenario) = []).
Proof.
  unfold scenario_step. simpl fst. simpl snd.
  destruct (calculate_eoq _ _ _ _ _ _) as [e1 | e].
  - right. split; reflexivity.
  - destruct (calculate_reorder_point _ _ _ _) as [e2 | r].
    + right. split; reflexivity.
    + left. exists e, r. repeat split.
Qed.

Lemma flat_map_length_le {A B} (f : A -> list B) l :
  (forall a, (length (f a) <= 1)%nat) -> (length (flat_map f l) <= length l)%nat.
Proof.
  intros Hf. induction l as [|a l IH]; simpl; [lia|].
  rewrite length_app. specialize (Hf a). lia.
Qed.

(** X28: [scenario_analysis] always returns an analysis; its rows are
    exactly the scenarios whose EOQ and reorder point both succeed, each
    with the values of those two results and with its own name or, when it
    has none, "Scenario k" for its position [k] in the request, counted from
    1 and including the scenarios that were dropped. *)
Theorem scenario_rows_trace_back hw d pid scenario_list :
  exists analysis,
    scenario_analysis hw d pid scenario_list = inr analysis
    /\ (length (scenarios analysis) <= length scenario_list)%nat
    /\ (forall row,
          In row (scenarios analysis)
          <-> exists i scenario e r,
                nth_error scenario_list i = Some scenario
                /\ calculate_eoq hw d pid (sc_annual_demand scenario)
                                 (get_or (sc_ordering_cost scenario) 50)
                                 (get_or (sc_holding_cost_rate scenario) (25 / 100))
                   = inr e
                /\ calculate_reorder_point hw d pid
                      (get_or (sc_service_level scenario) (95 / 100)) = inr r
                /\ row = scenario_row i scenario e r).
Proof.
  rewrite scenario_analysis_unfold. eexists. split; [reflexivity|]. simpl.
  split.
  - eapply Nat.le_trans.
    + apply flat_map_length_le. intros [i scenario].
      destruct (scenario_step_cases hw d pid i scenario)
        as [(e & r & _ & _ & ->) | (_ & ->)]; simpl; lia.
    + unfold enumerate. rewrite length_combine, length_seq. lia.
  - intros row. rewrite in_flat_map. split.
    + intros ([i scenario] & Hentry & Hrow).
      apply enumerate_In in Hentry.
      destruct (scenario_step_cases hw d pid i scenario)
        as [(e & r & He & Hr & Hstep) | (_ & Hstep)];
        rewrite Hstep in Hrow; [|contradiction].
      destruct Hrow as [<- | []]. exists i, scenario, e, r. auto.
    + intros (i & scenario & e & r & Hnth & He & Hr & ->).
      exists (i, scenario). split; [apply enumerate_In, Hnth|].
      unfold scenario_step. simpl fst. simpl snd. rewrite He, Hr. left. reflexivity.
Qed.

End ScenarioFacts.


(** ** Recommendations by location *)

Module LocationFacts.

Lemma insert_by_length {A} (key : A -> nat) x l :
  length (insert_by key x l) = S (length l).
Proof.
  induction l as [|y l IH]; [reflexivity|].
  simpl. destruct (key x <=? key y)%nat; simpl; [reflexivity | rewrite IH; reflexivity].
Qed.

Lemma sort_by_length {A} (key : A -> nat) l : length (sort_by key l) = length l.
Proof.
  unfold sort_by. induction l as [|x l IH]; [reflexivity|].
  simpl. rewrite insert_by_length, IH. reflexivity.
Qed.

Lemma flat_map_filter_length {A B} (f : A -> list B) (keep : A -> bool) l :
  (length (flat_map f (filter keep l)) <= length (flat_map f l))%nat.
Proof.
  induction l as [|a l IH]; simpl; [lia|].
  destruct (keep a); simpl; rewrite !length_app; lia.
Qed.

Lemma recommendations_length hw d location :
  length (get_optimization_recommendations hw d location)
  = length (flat_map (recommend_row hw d []) (recommendation_rows d location)).
Proof.
  unfold get_optimization_recommendations.
  rewrite sort_by_length, RecommendationFacts.collect_rows. reflexivity.
Qed.

(** X29: a location filter that is empty or that names no existing
    location is ignored: the recommendations are those of all locations.
    Whatever the filter, it never yields more recommendations than the
    unfiltered call. *)
Theorem recommendations_location_filter hw d :
  (forall lid,
     lid = ""%string \/ location_by_location_id d lid = None ->
     get_optimization_recommendations hw d (Some lid)
     = get_optimization_recommendations hw d None)
  /\ (forall location,
        (length (get_optimization_recommendations hw d location)
         <= length (get_optimization_recommendations hw d None))%nat).
Proof.
  split.
  - intros lid Hlid. unfold get_optimization_recommendations, recommendation_rows.
    destruct Hlid as [-> | Hnone]; [reflexivity|].
    destruct (String.eqb lid ""); [reflexivity|]. rewrite Hnone. reflexivity.
  - intros location. rewrite !recommendations_length.
    unfold recommendation_rows.
    destruct location as [lid|]; [|lia].
    destruct (String.eqb lid ""); [lia|].
    destruct (location_by_location_id d lid) as [loc|]; [|lia].
    apply flat_map_filter_length.
Qed.

Lemma recommendations_location_filter_witness :
  location_by_location_id Samples.catalog_store "nowhere" = None
  /\ get_optimization_recommendations Samples.flat_holt_winters Samples.catalog_store
       (Some "nowhere"%string)
     = get_optimization_recommendations Samples.flat_holt_winters Samples.catalog_store None.
Proof.
  assert (H : location_by_location_id Samples.catalog_store "nowhere" = None)
    by reflexivity.
  split; [exact H|].
  exact (proj1 (recommendations_location_filter Samples.flat_holt_winters
                  Samples.catalog_store) "nowhere"%string (or_intror H)).
Defined.

End LocationFacts.

(** ** Stored forecasts *)

Module ForecastLogFacts.

Lemma sum_R_app xs ys : Py.sum_R (xs ++ ys) = Py.sum_R xs + Py.sum_R ys.
Proof. induction xs as [|x xs IH]; simpl; lra. Qed.

Lemma app_cons_not_nil_sym {A} (l : list A) (x : A) : l ++ [x] <> [].
Proof. destruct l; discriminate. Qed.

Lemma accuracy_of_nonempty d table pid days :
  filter (recent_forecast d pid days) table <> [] ->
  get_forecast_accuracy d table pid days
  = inr {| acc_product_id := pid;
           forecast_count := length (filter (recent_forecast d pid days) table);
           average_forecast :=
             Py.sum_R (map fr_predicted_demand (filter (recent_forecast d pid days) table))
             / INR (length (filter (recent_forecast d pid days) table));
           period_days := days;
           accuracy_note :=
             "Detailed accuracy calculation requires comparison with actual demand data" |}.
Proof.
  intros H. unfold get_forecast_accuracy.
  destruct (filter (recent_forecast d pid days) table); [contradiction | reflexivity].
Qed.

(** X30: a forecast saved for an existing product is counted by
    [get_forecast_accuracy] for that product as long as the clock has not
    advanced by more than the requested number of days: the count grows by
    one, the stored value of [total_forecast] enters the average, and the
    figures of every other product are unchanged. *)
Theorem saved_forecast_is_counted stored d d' table f product days :
  product_by_id d (product_id f) = Some product ->
  (utcnow d' - Z.of_nat days * 86400 <= utcnow d)%Z ->
  exists row accuracy,
    save_forecast_result stored d table (inr f) = (table ++ [row], Some row)
    /\ get_forecast_accuracy d' (table ++ [row]) (product_id f) days = inr accuracy
    /\ forecast_count accuracy
       = S (length (filter (recent_forecast d' (product_id f) days) table))
    /\ average_forecast accuracy * INR (forecast_count accuracy)
       = Py.sum_R (map fr_predicted_demand
                       (filter (recent_forecast d' (product_id f) days) table))
         + stored (total_forecast f)
    /\ (forall pid, pid <> product_id f ->
                    get_forecast_accuracy d' (table ++ [row]) pid days
                    = get_forecast_accuracy d' table pid days).
Proof.
  intros Hp Hclock. unfold save_forecast_result. rewrite Hp.
  set (row := {| fr_product_id := product_id f;
                 fr_forecast_date := utcnow d;
                 fr_forecast_horizon_days := horizon_days f;
                 fr_predicted_demand := stored (total_forecast f);
                 fr_model_used := forecast_method f;
                 fr_model_parameters := parameters f |}).
  assert (Hrecent : recent_forecast d' (product_id f) days row = true).
  { unfold recent_forecast, seconds_per_day. simpl.
    rewrite Z.eqb_refl. apply Z.leb_le. exact Hclock. }
  assert (Hfilter : filter (recent_forecast d' (product_id f) days) (table ++ [row])
                    = filter (recent_forecast d' (product_id f) days) table ++ [row]).
  { rewrite filter_app. simpl. rewrite Hrecent. reflexivity. }
  exists row. eexists. split; [reflexivity|].
  split; [apply accuracy_of_nonempty; rewrite Hfilter; apply app_cons_not_nil_sym|].
  simpl. rewrite Hfilter.
  set (old := filter (recent_forecast d' (product_id f) days) table).
  split; [|split].
  - rewrite length_app. simpl. lia.
  - rewrite map_app, sum_R_app. simpl.
    assert (Hlen : 0 < INR (length (old ++ [row]))).
    { apply lt_0_INR. rewrite length_app. simpl. lia. }
    field_simplify; [lra | lra].
  - intros pid Hpid. unfold get_forecast_accuracy. rewrite filter_app. simpl.
    assert (E : recent_forecast d' pid days row = false).
    { unfold recent_forecast. simpl.
      assert (E' : (product_id f =? pid)%Z = false) by (apply Z.eqb_neq; congruence).
      rewrite E'. reflexivity. }
    rewrite E, app_nil_r. reflexivity.
Qed.

Lemma saved_forecast_is_counted_witness :
  product_by_id (Samples.steady_store 14) (product_id Samples.widget_forecast)
  = Some Samples.widget
  /\ (utcnow (Samples.steady_store 14) - Z.of_nat 30 * 86400
      <= utcnow (Samples.steady_store 14))%Z
  /\ exists row accuracy,
       save_forecast_result Samples.two_decimals (Samples.steady_store 14) []
                            (inr Samples.widget_forecast) = ([row], Some row)
       /\ get_forecast_accuracy (Samples.steady_store 14) [row] 1 30 = inr accuracy
       /\ forecast_count accuracy = 1%nat.
Proof.
  assert (Hp : product_by_id (Samples.steady_store 14) (product_id Samples.widget_forecast)
               = Some Samples.widget) by reflexivity.
  assert (Hclock : (utcnow (Samples.steady_store 14) - Z.of_nat 30 * 86400
                    <= utcnow (Samples.steady_store 14))%Z) by (vm_compute; discriminate).
  split; [exact Hp|]. split; [exact Hclock|].
  destruct (saved_forecast_is_counted Samples.two_decimals (Samples.steady_store 14)
              (Samples.steady_store 14) [] Samples.widget_forecast Samples.widget 30
              Hp Hclock) as (row & accuracy & Hsave & Hacc & Hcount & _).
  exists row, accuracy. auto.
Defined.

End ForecastLogFacts.
